(** * O11y-hands-on: the metrics façade of [observability/metrics.py]

    A shallow embedding of the metric wrapper classes ([CounterMetric],
    [HistogramMetric], [GaugeMetric], [UpDownCounterMetric]), of
    [MetricsManager] and of [MetricsExamples] with its two simulations,
    over an explicit Python store: metric objects and [dict] objects live
    in heaps and are referred to by address, so that object identity and
    aliasing are visible.  What the simulations take from [random] and
    from the clock is an input of their embedding.

    The telemetry SDK the wrappers delegate to (instruments, aggregation
    buffer, periodic export, provider shutdown) is not part of the
    repository.  It is modelled in [Module Sdk] and [Module SdkOps] after
    sections 3, 4.2 and 4.3 of the specification, and every definition
    there says so in its comment.  The specification describes a buffer
    that folds every measurement as it is given and a registry that is
    handed names new to it; what an SDK does with a measurement that no
    binary64 number stands for, with an empty attribute key or with a
    name it already holds is not described there, and the properties
    that rest on the model say for which calls they are stated
    ([within_model], [unused_name]).  Logging calls have no effect on
    the store and are left out. *)

From Stdlib Require Import ZArith QArith.
From Stdlib Require Import Floats.SpecFloat.
From stdpp Require Import gmap strings list fin_maps.

Local Open Scope Z_scope.

(** ** Python values *)

(** [Union[int, float]]: unbounded integers and binary64 floats. *)
Inductive number :=
  | PInt (z : Z)
  | PFloat (f : spec_float).

Definition prec : Z := 53.
Definition emax : Z := 1024.

Definition float_zero : spec_float := S754_zero false.

(** The exceptions the modelled code raises. *)
Inductive exn :=
  | RuntimeError (msg : string)
  | ValueError (msg : string)
  | OverflowError (msg : string)
  | KeyError (key : string)
  | AttributeError (msg : string).

(** [float(z)] for an [int]: rounding to nearest, ties to even;
    [OverflowError] when the result leaves the binary64 range. *)
Definition float_of_int (z : Z) : exn + spec_float :=
  match binary_normalize prec emax z 0 false with
  | S754_infinity _ => inl (OverflowError "int too large to convert to float")
  | f => inr f
  end.

(** The builtin [float(value)]. *)
Definition float (value : number) : exn + spec_float :=
  match value with
  | PInt z => float_of_int z
  | PFloat f => inr f
  end.

(** [value < 0]: exact on integers; on floats false for NaN and for
    both zeros. *)
Definition lt_zero (value : number) : bool :=
  match value with
  | PInt z => z <? 0
  | PFloat f => SFltb f float_zero
  end.

(** [value == other] between numbers of either type.  Python compares an
    [int] with a [float] exactly, never by rounding the integer: a finite
    float [m * 2^e] equals [z] iff the two denote the same rational. *)
Definition float_eq_int (f : spec_float) (z : Z) : bool :=
  match f with
  | S754_zero _ => z =? 0
  | S754_finite s m e =>
      let sm := if s then Z.neg m else Z.pos m in
      if 0 <=? e then sm * 2 ^ e =? z else sm =? z * 2 ^ (- e)
  | _ => false
  end.

Definition num_eqb (a b : number) : bool :=
  match a, b with
  | PInt x, PInt y => x =? y
  | PFloat x, PFloat y => SFeqb x y
  | PFloat x, PInt y | PInt y, PFloat x => float_eq_int x y
  end.

(** Attribute values.  The repository only ever passes strings; integers
    are kept as a second scalar type. *)
Inductive scalar :=
  | SStr (s : string)
  | SInt (z : Z).

#[global] Instance scalar_eq_dec : EqDecision scalar.
Proof. solve_decision. Defined.

#[global] Instance scalar_countable : Countable scalar.
Proof.
  refine (inj_countable'
            (fun v => match v with SStr s => inl s | SInt z => inr z end)
            (fun x => match x with inl s => SStr s | inr z => SInt z end) _).
  by intros [].
Defined.

(** [Dict[str, Any]] used as an attribute set. *)
Abbreviation Attrs := (gmap string scalar).

(** [attributes or {}]: [None] and the empty dict are both falsy. *)
Definition or_empty (attributes : option Attrs) : Attrs :=
  match attributes with
  | Some a => if decide (a = ∅) then ∅ else a
  | None => ∅
  end.

(** ** The store *)

(** [class MetricType(Enum)] *)
Inductive MetricType :=
  | COUNTER
  | HISTOGRAM
  | GAUGE
  | UP_DOWN_COUNTER.

#[global] Instance MetricType_eq_dec : EqDecision MetricType.
Proof. solve_decision. Defined.

(** The fields every metric object carries.  [_instrument] is the handle
    of the SDK instrument, [None] until [create_instrument] has run. *)
Module BaseMetric.
Record t := mk {
  name : string;
  description : string;
  unit : string;
  _instrument : option nat
}.

Definition __init__ (name description unit : string) : t :=
  mk name description unit None.
End BaseMetric.

(** A metric object, tagged by its class.  Only [GaugeMetric.__init__]
    adds a field, [_current_value], which it sets to 0.0. *)
Inductive Metric :=
  | CounterMetric (base : BaseMetric.t)
  | HistogramMetric (base : BaseMetric.t)
  | GaugeMetric (base : BaseMetric.t) (_current_value : spec_float)
  | UpDownCounterMetric (base : BaseMetric.t).

(** The kind of instrument a metric object wraps. *)
Definition kind_of (obj : Metric) : MetricType :=
  match obj with
  | CounterMetric _ => COUNTER
  | HistogramMetric _ => HISTOGRAM
  | GaugeMetric _ _ => GAUGE
  | UpDownCounterMetric _ => UP_DOWN_COUNTER
  end.

Definition base_of (obj : Metric) : BaseMetric.t :=
  match obj with
  | CounterMetric b | HistogramMetric b | GaugeMetric b _
  | UpDownCounterMetric b => b
  end.

Module Sdk.

(** Modelled from the spec: the aggregated state of an instrument, one
    entry per distinct attribute set (section 3, AggregatedSeries).
    Counter and UpDownCounter keep a running sum, Histogram the ordered
    sequence of recorded values since the last export; an observable
    gauge keeps nothing and calls back into the wrapper object at
    [callback] when a snapshot is taken. *)
Inductive Aggregation :=
  | Sum (monotonic : bool) (series : gmap Attrs number)
  | Histogram (series : gmap Attrs (list number))
  | ObservableGauge (callback : nat).

(** Modelled from the spec: an instrument (section 3) with the provider
    whose meter created it and its aggregated state. *)
Record Instrument := mkInstrument {
  i_provider : nat;
  i_name : string;
  i_description : string;
  i_unit : string;
  i_agg : Aggregation
}.

(** Modelled from the spec: the aggregated value of a series, by kind
    (section 4.2). *)
Inductive value :=
  | SumValue (v : number)
  | GaugeValue (v : spec_float)
  | HistogramValue (vs : list number).

(** Modelled from the spec: one (series, aggregated value) of a
    snapshot (section 4.2). *)
Record Point := mkPoint {
  p_instrument : nat;
  p_name : string;
  p_attrs : Attrs;
  p_value : value
}.

(** Modelled from the spec: the exporter scheduler of section 4.3.
    [handed] is the sequence of batches handed to the sink, oldest
    first; [stopped] is the Stopped state. *)
Record MeterProvider := mkProvider {
  resource : gmap string string;
  endpoint : string;
  export_interval_millis : Z;
  handed : list (list Point);
  stopped : bool
}.

(** Modelled from the spec: the operand of a running sum as a float.
    An integer is rounded to binary64, to an infinity beyond the range
    of binary64. *)
Definition to_float (v : number) : spec_float :=
  match v with
  | PInt z => binary_normalize prec emax z 0 false
  | PFloat f => f
  end.

(** Modelled from the spec: "running sum" (section 3), with Python's [+]
    on [int] and [float]: exact on two integers, binary64 addition
    otherwise.  Where an integer beyond the binary64 range meets a float
    Python raises [OverflowError]; the model yields an infinity there
    and is not used for such sums. *)
Definition add_number (a b : number) : number :=
  match a, b with
  | PInt x, PInt y => PInt (x + y)
  | _, _ => PFloat (SFadd prec emax (to_float a) (to_float b))
  end.

End Sdk.

Record World := mkWorld {
  metrics_heap : list Metric;
  dict_heap : list (gmap string nat);
  instruments : list Sdk.Instrument;
  providers : list Sdk.MeterProvider;
  global_meter_provider : option nat
}.

Definition empty_world : World := mkWorld [] [] [] [] None.

Definition set_metrics_heap (h : list Metric) (w : World) : World :=
  mkWorld h (dict_heap w) (instruments w) (providers w)
          (global_meter_provider w).

Definition set_dict_heap (h : list (gmap string nat)) (w : World) : World :=
  mkWorld (metrics_heap w) h (instruments w) (providers w)
          (global_meter_provider w).

Definition set_instruments (l : list Sdk.Instrument) (w : World) : World :=
  mkWorld (metrics_heap w) (dict_heap w) l (providers w)
          (global_meter_provider w).

Definition set_providers (l : list Sdk.MeterProvider) (w : World) : World :=
  mkWorld (metrics_heap w) (dict_heap w) (instruments w) l
          (global_meter_provider w).

Definition set_global_meter_provider (p : option nat) (w : World) : World :=
  mkWorld (metrics_heap w) (dict_heap w) (instruments w) (providers w) p.

(** ** Computations over the store *)

(** A call returns, raises, or is [Stuck] when it follows an address that
    the store does not hold (no Python program does). *)
Inductive result (A : Type) :=
  | Ok (a : A)
  | Raise (e : exn)
  | Stuck.
Arguments Ok {A} a.
Arguments Raise {A} e.
Arguments Stuck {A}.

Definition M (A : Type) : Type := World -> result A * World.

Definition ret {A} (a : A) : M A := fun w => (Ok a, w).

Definition raise {A} (e : exn) : M A := fun w => (Raise e, w).

Definition stuck {A} : M A := fun w => (Stuck, w).

Definition bind {A B} (c : M A) (k : A -> M B) : M B :=
  fun w =>
    match c w with
    | (Ok a, w') => k a w'
    | (Raise e, w') => (Raise e, w')
    | (Stuck, w') => (Stuck, w')
    end.

Notation "'let!' x ':=' c 'in' k" := (bind c (fun x => k))
  (at level 10, x pattern, c at level 100, k at level 200).
Notation "c ';;' k" := (bind c (fun _ => k))
  (at level 100, k at level 200, right associativity).

Definition modify (f : World -> World) : M unit := fun w => (Ok tt, f w).

Definition of_option {A} (o : option A) : M A :=
  match o with Some a => ret a | None => stuck end.

Definition load_metric (self : nat) : M Metric :=
  fun w => of_option (metrics_heap w !! self) w.

Definition store_metric (self : nat) (obj : Metric) : M unit :=
  modify (fun w => set_metrics_heap (<[self := obj]> (metrics_heap w)) w).

Definition new_metric (obj : Metric) : M nat :=
  fun w => (Ok (length (metrics_heap w)),
            set_metrics_heap (metrics_heap w ++ [obj]) w).

Definition load_dict (d : nat) : M (gmap string nat) :=
  fun w => of_option (dict_heap w !! d) w.

Definition store_dict (d : nat) (m : gmap string nat) : M unit :=
  modify (fun w => set_dict_heap (<[d := m]> (dict_heap w)) w).

Definition new_dict (m : gmap string nat) : M nat :=
  fun w => (Ok (length (dict_heap w)),
            set_dict_heap (dict_heap w ++ [m]) w).

(** ** The telemetry SDK *)

Module SdkOps.
Import Sdk.

(** Modelled from the spec: the registry of section 4.1 takes a new
    instrument into the store.  The model does this at every creation:
    it is the behaviour for a name that is new to the meter
    ([unused_name]); what a meter does with a name it already holds is
    left open by the specification (section 9) and is not modelled. *)
Definition new_instrument (ins : Instrument) : M nat :=
  fun w => (Ok (length (instruments w)),
            set_instruments (instruments w ++ [ins]) w).

(** Modelled from the spec: creating an instrument on a meter opens an
    empty aggregation of the instrument's kind (section 3).  A meter is
    identified with the provider that issued it. *)
Definition create_counter (meter : nat) (name description unit : string)
  : M nat :=
  new_instrument (mkInstrument meter name description unit (Sum true ∅)).

(** Modelled from the spec: as [create_counter], with a sum that accepts
    negative deltas. *)
Definition create_up_down_counter (meter : nat)
    (name description unit : string) : M nat :=
  new_instrument (mkInstrument meter name description unit (Sum false ∅)).

(** Modelled from the spec: as [create_counter], with an empty sample
    list per series. *)
Definition create_histogram (meter : nat) (name description unit : string)
  : M nat :=
  new_instrument (mkInstrument meter name description unit (Histogram ∅)).

(** Modelled from the spec: as [create_counter]; the gauge keeps no
    state of its own and reads the wrapper object at [callback] when a
    snapshot is taken. *)
Definition create_observable_gauge (meter : nat)
    (name description unit : string) (callback : nat) : M nat :=
  new_instrument
    (mkInstrument meter name description unit (ObservableGauge callback)).

(** Modelled from the spec: an instrument with its aggregated state
    replaced; name, description, unit and kind are immutable
    (section 3). *)
Definition set_agg (agg : Aggregation) (ins : Instrument) : Instrument :=
  mkInstrument (i_provider ins) (i_name ins) (i_description ins)
               (i_unit ins) agg.

(** Modelled from the spec: "Counter: running sum (monotonic; rejects
    negative deltas); UpDownCounter: running sum (accepts negative
    deltas)".  A measurement folds into the series of its attribute
    set, which starts at 0; a rejected delta is dropped. *)
Definition fold_sum (monotonic : bool) (series : gmap Attrs number)
    (value : number) (attributes : Attrs) : gmap Attrs number :=
  if monotonic && lt_zero value then series
  else <[attributes := add_number (default (PInt 0) (series !! attributes))
                                  value]> series.

(** Modelled from the spec: "every successful record updates exactly
    one AggregatedSeries" (section 4.1).  [add] on the instrument of a
    counter or an up-down counter folds the measurement into the series
    of its attribute set and returns.  The model folds every value under
    the attribute set as given.  The specification does not say what
    the buffer does with a value that no binary64 number stands for (an
    integer beyond the range, a NaN, an infinity) or with an empty
    attribute key, and an SDK may refuse or drop those: the model is
    not meant for them ([within_model]). *)
Definition add (i : nat) (value : number) (attributes : Attrs) : M unit :=
  fun w =>
    match instruments w !! i with
    | Some ins =>
        match i_agg ins with
        | Sum monotonic series =>
            (Ok tt,
             set_instruments
               (<[i := set_agg (Sum monotonic
                                  (fold_sum monotonic series value
                                            attributes)) ins]>
                  (instruments w)) w)
        | _ => (Stuck, w)
        end
    | None => (Stuck, w)
    end.

(** Modelled from the spec: "Histogram: ordered sequence of recorded
    values since last export" (section 3).  As for [add], the model
    appends every value as given and is meant for the measurements of
    [within_model] that are not negative. *)
Definition record (i : nat) (value : number) (attributes : Attrs)
  : M unit :=
  fun w =>
    match instruments w !! i with
    | Some ins =>
        match i_agg ins with
        | Histogram series =>
            (Ok tt,
             set_instruments
               (<[i := set_agg
                         (Histogram
                            (<[attributes :=
                                 default [] (series !! attributes)
                                   ++ [value]]> series)) ins]>
                  (instruments w)) w)
        | _ => (Stuck, w)
        end
    | None => (Stuck, w)
    end.

(** Modelled from the spec: the series an instrument reports in a
    snapshot (section 4.2; "Gauge: value snapshotted as-is").  For an
    observable gauge the value comes from the callback of
    [GaugeMetric.create_instrument],
    [return [metrics.Observation(self._current_value)]], one
    observation without attributes.  The model reports every float the
    callback returns; the specification does not say whether a NaN or an
    infinity is reported, and the properties of gauge snapshots are
    stated for finite values. *)
Definition points_of (heap : list Metric) (i : nat) (ins : Instrument)
  : list Point :=
  match i_agg ins with
  | Sum _ series =>
      (fun kv => mkPoint i (i_name ins) kv.1 (SumValue kv.2))
        <$> map_to_list series
  | Histogram series =>
      (fun kv => mkPoint i (i_name ins) kv.1 (HistogramValue kv.2))
        <$> map_to_list series
  | ObservableGauge callback =>
      match heap !! callback with
      | Some (GaugeMetric _ _current_value) =>
          [mkPoint i (i_name ins) ∅ (GaugeValue _current_value)]
      | _ => []
      end
  end.

(** Modelled from the spec: section 4.2, [snapshot()] is the ordered
    sequence of (series, aggregated value) over the instruments of one
    provider, in creation order. *)
Definition snapshot (p : nat) (w : World) : list Point :=
  concat (imap (fun i ins =>
                  if decide (i_provider ins = p)
                  then points_of (metrics_heap w) i ins else [])
               (instruments w)).

(** Modelled from the spec: section 4.2, after a snapshot sums are not
    reset (cumulative temporality), gauges are left standing and the
    sample list of a histogram is cleared. *)
Definition reset_instrument (p : nat) (ins : Instrument) : Instrument :=
  match i_agg ins with
  | Histogram _ =>
      if decide (i_provider ins = p) then set_agg (Histogram ∅) ins
      else ins
  | _ => ins
  end.

(** Modelled from the spec: [reset] over the instruments of the store
    (section 4.2). *)
Definition reset (p : nat) (w : World) : World :=
  set_instruments (reset_instrument p <$> instruments w) w.

(** Modelled from the spec: the sink receives a batch (section 6), and
    the scheduler may move to Stopped (section 4.3). *)
Definition hand_over (batch : list Point) (stop : bool)
    (mp : MeterProvider) : MeterProvider :=
  mkProvider (resource mp) (endpoint mp) (export_interval_millis mp)
             (handed mp ++ [batch]) (stop || stopped mp).

(** Modelled from the spec: one export (section 4.3, "calls snapshot(),
    serializes the result via the Sink"): snapshot, hand the batch to the
    sink, reset.  The model hands over every batch; whether an empty
    snapshot reaches the sink is not said in the specification. *)
Definition export (p : nat) (stop : bool) (mp : MeterProvider)
    (w : World) : World :=
  reset p (set_providers
             (<[p := hand_over (snapshot p w) stop mp]> (providers w)) w).

(** Modelled from the spec: section 4.3, a tick of the export timer;
    the timer is cancelled once the provider is stopped. *)
Definition tick (p : nat) : M unit :=
  fun w =>
    match providers w !! p with
    | Some mp =>
        if stopped mp then (Ok tt, w) else (Ok tt, export p false mp w)
    | None => (Stuck, w)
    end.

(** Modelled from the spec: section 4.3, "stop() cancels the timer,
    performs one final forced export (flush), and transitions to
    Stopped"; "calling stop() twice is a no-op the second time". *)
Definition shutdown (p : nat) : M unit :=
  fun w =>
    match providers w !! p with
    | Some mp =>
        if stopped mp then (Ok tt, w) else (Ok tt, export p true mp w)
    | None => (Stuck, w)
    end.

(** Modelled from the spec: "on construction, scheduler starts a
    repeating timer at a configured interval" (section 4.3).
    [MeterProvider(resource=..., metric_readers=[reader])] with one
    periodic reader over an OTLP exporter: a running provider that has
    handed nothing over yet. *)
Definition new_provider (resource : gmap string string)
    (endpoint : string) (export_interval_millis : Z) : M nat :=
  fun w => (Ok (length (providers w)),
            set_providers
              (providers w
                 ++ [mkProvider resource endpoint export_interval_millis
                                [] false]) w).

(** Modelled from the spec: "the source sets a single process-wide
    meter/tracer provider" (section 9).  [metrics.set_meter_provider]
    fills the global provider slot.  The model fills it on every call;
    this is the behaviour of the first call in a process, and what a
    later call does is not described in the specification. *)
Definition set_meter_provider (p : nat) : M unit :=
  modify (set_global_meter_provider (Some p)).

(** Modelled from the spec: [metrics.get_meter], a meter of the provider
    in the global slot. *)
Definition get_meter : M nat :=
  fun w => of_option (global_meter_provider w) w.

End SdkOps.

(** ** The metric classes *)

Definition with_instrument (b : BaseMetric.t) (i : nat) : BaseMetric.t :=
  BaseMetric.mk (BaseMetric.name b) (BaseMetric.description b)
                (BaseMetric.unit b) (Some i).

(** [create_instrument(self, meter)], one body per class; each stores the
    instrument the meter returns in [self._instrument].  The gauge passes
    a callback closed over [self]. *)
Definition create_instrument (self : nat) (meter : nat) : M unit :=
  let! obj := load_metric self in
  match obj with
  | CounterMetric b =>
      let! i := SdkOps.create_counter meter (BaseMetric.name b)
                  (BaseMetric.description b) (BaseMetric.unit b) in
      store_metric self (CounterMetric (with_instrument b i))
  | HistogramMetric b =>
      let! i := SdkOps.create_histogram meter (BaseMetric.name b)
                  (BaseMetric.description b) (BaseMetric.unit b) in
      store_metric self (HistogramMetric (with_instrument b i))
  | GaugeMetric b _current_value =>
      let! i := SdkOps.create_observable_gauge meter (BaseMetric.name b)
                  (BaseMetric.description b) (BaseMetric.unit b) self in
      store_metric self (GaugeMetric (with_instrument b i) _current_value)
  | UpDownCounterMetric b =>
      let! i := SdkOps.create_up_down_counter meter (BaseMetric.name b)
                  (BaseMetric.description b) (BaseMetric.unit b) in
      store_metric self (UpDownCounterMetric (with_instrument b i))
  end.

Definition not_created (b : BaseMetric.t) : exn :=
  RuntimeError
    (String.append "Instrument not created for metric " (BaseMetric.name b)).

(** [CounterMetric.record] *)
Definition CounterMetric_record (b : BaseMetric.t) (value : number)
    (attributes : option Attrs) : M unit :=
  match BaseMetric._instrument b with
  | None => raise (not_created b)
  | Some i =>
      if lt_zero value
      then raise (ValueError "Counter values must be non-negative")
      else SdkOps.add i value (or_empty attributes)
  end.

(** [HistogramMetric.record] *)
Definition HistogramMetric_record (b : BaseMetric.t) (value : number)
    (attributes : option Attrs) : M unit :=
  match BaseMetric._instrument b with
  | None => raise (not_created b)
  | Some i => SdkOps.record i value (or_empty attributes)
  end.

(** [GaugeMetric.record]: [attributes] is not used. *)
Definition GaugeMetric_record (self : nat) (b : BaseMetric.t)
    (value : number) (attributes : option Attrs) : M unit :=
  match float value with
  | inl e => raise e
  | inr f => store_metric self (GaugeMetric b f)
  end.

(** [UpDownCounterMetric.record] *)
Definition UpDownCounterMetric_record (b : BaseMetric.t) (value : number)
    (attributes : option Attrs) : M unit :=
  match BaseMetric._instrument b with
  | None => raise (not_created b)
  | Some i => SdkOps.add i value (or_empty attributes)
  end.

(** [metric.record(value, attributes)], dispatched on the class of the
    object at [self]. *)
Definition record (self : nat) (value : number) (attributes : option Attrs)
  : M unit :=
  let! obj := load_metric self in
  match obj with
  | CounterMetric b => CounterMetric_record b value attributes
  | HistogramMetric b => HistogramMetric_record b value attributes
  | GaugeMetric b _ => GaugeMetric_record self b value attributes
  | UpDownCounterMetric b => UpDownCounterMetric_record b value attributes
  end.

(** [GaugeMetric.get_value] *)
Definition get_value (self : nat) : M spec_float :=
  let! obj := load_metric self in
  match obj with
  | GaugeMetric _ _current_value => ret _current_value
  | _ => stuck
  end.

(** ** Operations on dict objects *)

(** [d[key] = value] *)
Definition dict_setitem (d : nat) (key : string) (value : nat) : M unit :=
  let! m := load_dict d in
  store_dict d (<[key := value]> m).

(** [del d[key]] *)
Definition dict_delitem (d : nat) (key : string) : M unit :=
  let! m := load_dict d in
  match m !! key with
  | Some _ => store_dict d (delete key m)
  | None => raise (KeyError key)
  end.

(** [d.clear()] *)
Definition dict_clear (d : nat) : M unit :=
  let! _ := load_dict d in
  store_dict d ∅.

(** ** Configuration *)

Module ObservabilityConfig.
Record t := mk {
  service_name : string;
  service_version : string;
  environment : string;
  otlp_endpoint : string
}.

Definition default : t :=
  mk "python-otel-example" "0.1.0" "development" "http://localhost:4317".

Definition to_resource_attributes (self : t) : gmap string string :=
  <["service.name" := service_name self]>
    (<["service.version" := service_version self]>
       (<["deployment.environment" := environment self]> ∅)).
End ObservabilityConfig.

(** ** The manager *)

Module MetricsManager.

(** The fields of a manager.  [_metrics] is the address of the dict
    object that [__init__] creates; [setup] assigns the two optional
    fields. *)
Record t := mk {
  config : ObservabilityConfig.t;
  _meter_provider : option nat;
  _meter : option nat;
  _metrics : nat
}.

Definition __init__ (config : ObservabilityConfig.t) : M t :=
  let! d := new_dict ∅ in
  ret (mk config None None d).

Definition setup (self : t) : M t :=
  let resource :=
    ObservabilityConfig.to_resource_attributes (config self) in
  let! p := SdkOps.new_provider resource
              (ObservabilityConfig.otlp_endpoint (config self)) 5000 in
  SdkOps.set_meter_provider p;;
  let! meter := SdkOps.get_meter in
  ret (mk (config self) (Some p) (Some meter) (_metrics self)).

Definition get_meter (self : t) : M nat :=
  match _meter self with
  | None => raise (RuntimeError "Metrics not initialized. Call setup() first.")
  | Some meter => ret meter
  end.

Definition create_counter (self : t) (name description unit : string)
  : M nat :=
  let! metric :=
    new_metric (CounterMetric (BaseMetric.__init__ name description unit)) in
  let! meter := get_meter self in
  create_instrument metric meter;;
  dict_setitem (_metrics self) name metric;;
  ret metric.

Definition create_histogram (self : t) (name description unit : string)
  : M nat :=
  let! metric :=
    new_metric (HistogramMetric (BaseMetric.__init__ name description unit)) in
  let! meter := get_meter self in
  create_instrument metric meter;;
  dict_setitem (_metrics self) name metric;;
  ret metric.

Definition create_gauge (self : t) (name description unit : string)
  : M nat :=
  let! metric :=
    new_metric
      (GaugeMetric (BaseMetric.__init__ name description unit) float_zero) in
  let! meter := get_meter self in
  create_instrument metric meter;;
  dict_setitem (_metrics self) name metric;;
  ret metric.

Definition create_up_down_counter (self : t)
    (name description unit : string) : M nat :=
  let! metric :=
    new_metric
      (UpDownCounterMetric (BaseMetric.__init__ name description unit)) in
  let! meter := get_meter self in
  create_instrument metric meter;;
  dict_setitem (_metrics self) name metric;;
  ret metric.

(** [self._metrics.get(name)] *)
Definition get_metric (self : t) (name : string) : M (option nat) :=
  let! d := load_dict (_metrics self) in
  ret (d !! name).

(** [self._metrics.copy()]: a new dict object with the same entries. *)
Definition list_metrics (self : t) : M nat :=
  let! d := load_dict (_metrics self) in
  new_dict d.

Definition shutdown (self : t) : M unit :=
  match _meter_provider self with
  | Some p => SdkOps.shutdown p
  | None => ret tt
  end.

End MetricsManager.

(** ** Call sequences *)

(** What happens to one metric object over time: calls of its [record]
    method, interleaved with ticks of the export timer of provider [p]. *)
Inductive event :=
  | Rec (value : number) (attributes : option Attrs)
  | Tick.

Definition exec (self p : nat) (e : event) : M unit :=
  match e with
  | Rec value attributes => record self value attributes
  | Tick => SdkOps.tick p
  end.

(** Each call is made in turn; an exception is caught by the caller and
    the next call is made.  The outcomes are collected. *)
Fixpoint run (self p : nat) (evs : list event) (w : World)
  : list (result unit) * World :=
  match evs with
  | [] => ([], w)
  | e :: evs =>
      let r := exec self p e w in
      let rs := run self p evs r.2 in
      (r.1 :: rs.1, rs.2)
  end.

(** The values passed to [record] with an attribute set equal to [a], in
    call order. *)
Fixpoint values_on (a : Attrs) (evs : list event) : list number :=
  match evs with
  | [] => []
  | Rec value attributes :: evs =>
      if decide (or_empty attributes = a) then value :: values_on a evs
      else values_on a evs
  | Tick :: evs => values_on a evs
  end.

(** All values passed to [record], whatever the attributes. *)
Fixpoint values_of (evs : list event) : list number :=
  match evs with
  | [] => []
  | Rec value _ :: evs => value :: values_of evs
  | Tick :: evs => values_of evs
  end.




(** The values a batch reports for the series of instrument [i] with
    attribute set [a]. *)
Definition reported (batch : list Sdk.Point) (i : nat) (a : Attrs)
  : list Sdk.value :=
  Sdk.p_value
    <$> filter (fun pt => Sdk.p_instrument pt = i ∧ Sdk.p_attrs pt = a) batch.

(** The values a batch reports for instrument [i] over all its series. *)
Definition reported_all (batch : list Sdk.Point) (i : nat)
  : list (Attrs * Sdk.value) :=
  (fun pt => (Sdk.p_attrs pt, Sdk.p_value pt))
    <$> filter (fun pt => Sdk.p_instrument pt = i) batch.

(** ** The effect of a successful [create_*] call *)

(** The body the four [create_*] methods share, for the object [obj]
    that the method constructs. *)
Definition create_with (self : MetricsManager.t) (name : string)
    (obj : Metric) : M nat :=
  let! metric := new_metric obj in
  let! meter := MetricsManager.get_meter self in
  create_instrument metric meter;;
  dict_setitem (MetricsManager._metrics self) name metric;;
  ret metric.

(** The SDK instrument that [create_instrument] opens for the object
    [obj] stored at [self]. *)
Definition instrument_of (meter self : nat) (obj : Metric) : Sdk.Instrument :=
  let b := base_of obj in
  Sdk.mkInstrument meter (BaseMetric.name b) (BaseMetric.description b)
    (BaseMetric.unit b)
    match obj with
    | CounterMetric _ => Sdk.Sum true ∅
    | HistogramMetric _ => Sdk.Histogram ∅
    | GaugeMetric _ _ => Sdk.ObservableGauge self
    | UpDownCounterMetric _ => Sdk.Sum false ∅
    end.

(** [obj] once [self._instrument] has been assigned. *)
Definition bound (obj : Metric) (i : nat) : Metric :=
  match obj with
  | CounterMetric b => CounterMetric (with_instrument b i)
  | HistogramMetric b => HistogramMetric (with_instrument b i)
  | GaugeMetric b v => GaugeMetric (with_instrument b i) v
  | UpDownCounterMetric b => UpDownCounterMetric (with_instrument b i)
  end.

(** The store after [create] has run to completion in [w], for a manager
    whose registry dict held [reg]. *)
Definition created (m : MetricsManager.t) (meter : nat)
    (reg : gmap string nat) (name : string) (obj : Metric) (w : World)
  : World :=
  let self := length (metrics_heap w) in
  mkWorld (metrics_heap w ++ [bound obj (length (instruments w))])
          (<[MetricsManager._metrics m := <[name := self]> reg]> (dict_heap w))
          (instruments w ++ [instrument_of meter self obj])
          (providers w) (global_meter_provider w).

(** ** Sum series under a sequence of calls *)




(** ** A running example *)

(** A manager constructed and set up in an empty store, as
    [ObservabilityDemo.setup] does. *)
Definition demo_manager : MetricsManager.t :=
  MetricsManager.mk ObservabilityConfig.default (Some 0%nat) (Some 0%nat) 0.

Definition demo_world : World :=
  ((let! m := MetricsManager.__init__ ObservabilityConfig.default in
    MetricsManager.setup m) empty_world).2.

Definition GET : Attrs := {[ "method"%string := SStr "GET" ]}.
Definition POST : Attrs := {[ "method"%string := SStr "POST" ]}.

(** [record(1, {method: "GET"})] three times and
    [record(1, {method: "POST"})] twice. *)
Definition requests : list event :=
  [Rec (PInt 1) (Some GET); Rec (PInt 1) (Some GET); Rec (PInt 1) (Some GET);
   Rec (PInt 1) (Some POST); Rec (PInt 1) (Some POST)].

(** The world once [create_counter("requests_total", ...)] has returned. *)
Definition requests_world : World :=
  (MetricsManager.create_counter demo_manager "requests_total"
     "Total number of requests" "1" demo_world).2.

(** ** Gauges under a sequence of calls *)

(** [float(value)] when it returns. *)
Definition float_opt (value : number) : option spec_float :=
  match float value with
  | inr f => Some f
  | inl _ => None
  end.

(** The float of the last value among [values] whose conversion returned,
    [cur] when there is none. *)
Definition last_float (cur : spec_float) (values : list number) : spec_float :=
  default cur (last (omap float_opt values)).

(** What [GaugeMetric.record] answers for a value. *)
Definition gauge_outcome (value : number) : result unit :=
  match float value with
  | inl e => Raise e
  | inr _ => Ok tt
  end.

Definition event_outcome (e : event) : result unit :=
  match e with
  | Rec value _ => gauge_outcome value
  | Tick => Ok tt
  end.

(** A sequence of [record] calls, each with its value and attributes. *)
Definition calls_events (calls : list (number * option Attrs)) : list event :=
  (fun c => Rec c.1 c.2) <$> calls.

(** The object at [self] is a gauge holding [cv], bound to instrument
    [i], which is [ins], calls back to [self] and belongs to the live
    provider [p]. *)
Definition gauge_inv (self i p : nat) (ins : Sdk.Instrument)
    (b : BaseMetric.t) (cv : spec_float) (w : World) : Prop :=
  metrics_heap w !! self = Some (GaugeMetric b cv)
  ∧ instruments w !! i = Some ins
  ∧ Sdk.i_agg ins = Sdk.ObservableGauge self
  ∧ Sdk.i_provider ins = p
  ∧ is_Some (providers w !! p).

(** A float literal [m * 2^e], in canonical form. *)
Definition float_lit (m e : Z) : spec_float :=
  binary_normalize prec emax m e false.

Definition sensor_1 : Attrs := {[ "location"%string := SStr "sensor_1" ]}.
Definition sensor_2 : Attrs := {[ "location"%string := SStr "sensor_2" ]}.

(** The world once [create_gauge("demo_temperature_celsius", ...)] has
    returned, as in [run_gauge_demo]. *)
Definition gauge_world : World :=
  (MetricsManager.create_gauge demo_manager "demo_temperature_celsius"
     "Current temperature" "Cel" demo_world).2.

(** Two readings from two sensors. *)
Definition two_sensors : list event :=
  [Rec (PFloat (float_lit 1 0)) (Some sensor_1);
   Rec (PFloat (float_lit 2 0)) (Some sensor_2)].

(** One integer reading that binary64 cannot hold exactly. *)
Definition odd_reading : list event := [Rec (PInt (2 ^ 53 + 1)) None].

(** Readings mixed with an export tick; the last one is out of range. *)
Definition readings : list (number * option Attrs) :=
  [(PFloat (float_lit 41 (-1)), Some sensor_1);
   (PInt (2 ^ 53 + 1), None);
   (PInt (2 ^ 1024), Some sensor_2)].

(** C3 as the specification states it, for the gauge at [g] bound to
    instrument [i] of provider [p], a call sequence [evs] and the series
    of attribute set [a]: the snapshot reports, for that series, one
    value equal to the value of the most recent [record] call on it. *)
Definition reports_last_of_series (w : World) (g p i : nat)
    (evs : list event) (a : Attrs) : Prop :=
  ∀ value,
    last (values_on a evs) = Some value →
    ∃ f, reported (SdkOps.snapshot p (run g p evs w).2) i a
         = [Sdk.GaugeValue f]
         ∧ num_eqb (PFloat f) value = true.

(** ** Sequences of manager operations *)

(** The [create_*] method for a kind, and the object it constructs. *)
Definition create_of (k : MetricType)
  : MetricsManager.t → string → string → string → M nat :=
  match k with
  | COUNTER => MetricsManager.create_counter
  | HISTOGRAM => MetricsManager.create_histogram
  | GAUGE => MetricsManager.create_gauge
  | UP_DOWN_COUNTER => MetricsManager.create_up_down_counter
  end.

Definition new_object (k : MetricType) (name description unit : string)
  : Metric :=
  let b := BaseMetric.__init__ name description unit in
  match k with
  | COUNTER => CounterMetric b
  | HISTOGRAM => HistogramMetric b
  | GAUGE => GaugeMetric b float_zero
  | UP_DOWN_COUNTER => UpDownCounterMetric b
  end.

(** What a program does with a manager and with the objects it hands
    out, one call at a time.  [OpTick] is a tick of the export timer of
    the manager's provider. *)
Inductive op :=
  | OpSetup
  | OpCreate (k : MetricType) (name description unit : string)
  | OpRecord (self : nat) (value : number) (attributes : option Attrs)
  | OpGetMetric (name : string)
  | OpListMetrics
  | OpTick
  | OpShutdown.

(** One call, made on the manager [m] in the store [w].  Exceptions are
    caught by the caller; [setup] returns the manager with its fields
    assigned. *)
Definition step (m : MetricsManager.t) (o : op) (w : World)
  : MetricsManager.t * World :=
  match o with
  | OpSetup =>
      match MetricsManager.setup m w with
      | (Ok m', w') => (m', w')
      | (_, w') => (m, w')
      end
  | OpCreate k name description unit =>
      (m, (create_of k m name description unit w).2)
  | OpRecord self value attributes => (m, (record self value attributes w).2)
  | OpGetMetric name => (m, (MetricsManager.get_metric m name w).2)
  | OpListMetrics => (m, (MetricsManager.list_metrics m w).2)
  | OpTick =>
      match MetricsManager._meter_provider m with
      | Some p => (m, (SdkOps.tick p w).2)
      | None => (m, w)
      end
  | OpShutdown => (m, (MetricsManager.shutdown m w).2)
  end.

Fixpoint steps (m : MetricsManager.t) (ops : list op) (w : World)
  : MetricsManager.t * World :=
  match ops with
  | [] => (m, w)
  | o :: ops => let mw := step m o w in steps mw.1 ops mw.2
  end.

(** The names passed to a [create_*] method in a sequence of calls. *)
Fixpoint created_names (ops : list op) : list string :=
  match ops with
  | [] => []
  | OpCreate _ name _ _ :: ops => name :: created_names ops
  | _ :: ops => created_names ops
  end.

Definition is_setup (o : op) : bool :=
  match o with OpSetup => true | _ => false end.

(** ** Mutations of a dict held by a caller *)

Inductive mutation :=
  | SetItem (key : string) (value : nat)
  | DelItem (key : string)
  | Clear.

Definition mutate (d : nat) (mu : mutation) : M unit :=
  match mu with
  | SetItem key value => dict_setitem d key value
  | DelItem key => dict_delitem d key
  | Clear => dict_clear d
  end.

Fixpoint mutate_all (d : nat) (mus : list mutation) (w : World) : World :=
  match mus with
  | [] => w
  | mu :: mus => mutate_all d mus (mutate d mu w).2
  end.

(** ** Invariants of the manager *)

(** The dict at [d] exists and holds names from [names] only. *)
Definition registry_within (d : nat) (names : list string) (w : World)
  : Prop :=
  ∃ reg, dict_heap w !! d = Some reg ∧ ∀ n, is_Some (reg !! n) → n ∈ names.


(** Provider [p] is not running. *)
Definition halted (p : nat) (w : World) : Prop :=
  ∀ mp, providers w !! p = Some mp → Sdk.stopped mp = true.

(** A program over the running example: set up, create a counter, use
    it, list the registry, shut down, and go on recording. *)
Definition demo_ops : list op :=
  [OpSetup;
   OpCreate COUNTER "requests_total" "Total number of requests" "1";
   OpRecord 0 (PInt 1) (Some GET);
   OpTick;
   OpListMetrics;
   OpGetMetric "requests_total";
   OpShutdown;
   OpRecord 0 (PInt 1) (Some POST)].

(** Calls made after a first shutdown. *)
Definition late_ops : list op :=
  [OpRecord 0 (PInt 1) (Some GET);
   OpTick;
   OpCreate GAUGE "late_gauge" "Created after shutdown" "1";
   OpShutdown;
   OpListMetrics].

(** What a caller does to the dict that [list_metrics] returned. *)
Definition demo_mutations : list mutation :=
  [SetItem "injected" 7; DelItem "requests_total"; DelItem "absent"; Clear].

(** ** Up-down counters and histograms under a sequence of calls *)






(** A mixed sequence of deltas, as [run_updown_counter_demo] records them,
    and of durations. *)
Definition pool_changes : list event :=
  [Rec (PInt 3) (Some GET); Rec (PInt (-2)) (Some GET); Tick;
   Rec (PInt (-4)) (Some GET); Rec (PInt 1) None].

Definition durations : list event :=
  [Rec (PFloat (float_lit 1 (-3))) (Some GET);
   Rec (PFloat (float_lit 3 (-2))) (Some GET); Rec (PInt 2) (Some POST);
   Rec (PFloat (float_lit 1 (-1))) (Some GET)].

Definition pool_world : World :=
  (MetricsManager.create_up_down_counter demo_manager "demo_resource_pool"
     "Available resources in pool" "1" demo_world).2.

Definition durations_world : World :=
  (MetricsManager.create_histogram demo_manager
     "demo_operation_duration_seconds" "Duration of demo operations" "s"
     demo_world).2.

(** ** What the manager keeps true of the objects it hands out *)

(** An object keeps its class and its base fields. *)
Definition same_object (o o' : Metric) : Prop :=
  base_of o' = base_of o ∧ kind_of o' = kind_of o.

(** An instrument keeps its name and the kind of its aggregation. *)
Definition same_shape (ins ins' : Sdk.Instrument) : Prop :=
  Sdk.i_name ins' = Sdk.i_name ins
  ∧ match Sdk.i_agg ins, Sdk.i_agg ins' with
    | Sdk.Sum m1 _, Sdk.Sum m2 _ => m1 = m2
    | Sdk.Histogram _, Sdk.Histogram _ => True
    | Sdk.ObservableGauge c1, Sdk.ObservableGauge c2 => c1 = c2
    | _, _ => False
    end.

(** The aggregation that [create_instrument] opens for an object of kind
    [k] stored at [self]. *)
Definition agg_matches (self : nat) (k : MetricType) (agg : Sdk.Aggregation)
  : Prop :=
  match k, agg with
  | COUNTER, Sdk.Sum true _ => True
  | UP_DOWN_COUNTER, Sdk.Sum false _ => True
  | HISTOGRAM, Sdk.Histogram _ => True
  | GAUGE, Sdk.ObservableGauge callback => callback = self
  | _, _ => False
  end.

(** Every object whose [_instrument] is set refers to an instrument of
    its own kind and name. *)
Definition bound_ok (w : World) : Prop :=
  ∀ l obj i,
    metrics_heap w !! l = Some obj →
    BaseMetric._instrument (base_of obj) = Some i →
    ∃ ins, instruments w !! i = Some ins
           ∧ agg_matches l (kind_of obj) (Sdk.i_agg ins)
           ∧ Sdk.i_name ins = BaseMetric.name (base_of obj).

(** The dict at [d] maps every name to an object of that name whose
    instrument has been created. *)
Definition registry_ok (d : nat) (w : World) : Prop :=
  ∃ reg,
    dict_heap w !! d = Some reg
    ∧ ∀ n l,
        reg !! n = Some l →
        ∃ obj, metrics_heap w !! l = Some obj
               ∧ BaseMetric.name (base_of obj) = n
               ∧ is_Some (BaseMetric._instrument (base_of obj)).

(** What [record] answers on an object whose instrument exists. *)
Definition record_outcome (obj : Metric) (value : number) : result unit :=
  match obj with
  | CounterMetric _ =>
      if lt_zero value
      then Raise (ValueError "Counter values must be non-negative")
      else Ok tt
  | GaugeMetric _ _ => gauge_outcome value
  | HistogramMetric _ | UpDownCounterMetric _ => Ok tt
  end.

(** The store after a call relates to the store before it. *)
Definition evolves (w w' : World) : Prop :=
  Forall2 same_object (metrics_heap w) (metrics_heap w')
  ∧ Forall2 same_shape (instruments w) (instruments w').

(** ** The example metrics *)

Module MetricsExamples.

(** The attributes that [__init__] and [_setup_example_metrics] assign:
    the manager and the eight metric objects. *)
Record t := mk {
  metrics_manager : MetricsManager.t;
  request_counter : nat;
  error_counter : nat;
  request_duration : nat;
  task_processing_time : nat;
  memory_usage : nat;
  cpu_usage : nat;
  active_connections : nat;
  queue_size : nat
}.

(** [__init__] followed by [_setup_example_metrics]: eight [create_*]
    calls in source order.  The object exists for the caller only when
    all of them have returned. *)
Definition __init__ (metrics_manager : MetricsManager.t) : M t :=
  let! request_counter :=
    MetricsManager.create_counter metrics_manager "http_requests_total"
      "Total number of HTTP requests" "1" in
  let! error_counter :=
    MetricsManager.create_counter metrics_manager "errors_total"
      "Total number of errors" "1" in
  let! request_duration :=
    MetricsManager.create_histogram metrics_manager
      "http_request_duration_seconds" "Duration of HTTP requests" "s" in
  let! task_processing_time :=
    MetricsManager.create_histogram metrics_manager
      "task_processing_duration_seconds" "Time taken to process tasks" "s" in
  let! memory_usage :=
    MetricsManager.create_gauge metrics_manager "memory_usage_bytes"
      "Current memory usage" "By" in
  let! cpu_usage :=
    MetricsManager.create_gauge metrics_manager "cpu_usage_percent"
      "Current CPU usage percentage" "%" in
  let! active_connections :=
    MetricsManager.create_up_down_counter metrics_manager "active_connections"
      "Number of active connections" "1" in
  let! queue_size :=
    MetricsManager.create_up_down_counter metrics_manager "queue_size"
      "Number of items in processing queue" "1" in
  ret (mk metrics_manager request_counter error_counter request_duration
          task_processing_time memory_usage cpu_usage active_connections
          queue_size).

End MetricsExamples.

(** The kinds and names of the example metrics, in creation order. *)
Definition example_metrics : list (MetricType * string) :=
  [(COUNTER, "http_requests_total"); (COUNTER, "errors_total");
   (HISTOGRAM, "http_request_duration_seconds");
   (HISTOGRAM, "task_processing_duration_seconds");
   (GAUGE, "memory_usage_bytes"); (GAUGE, "cpu_usage_percent");
   (UP_DOWN_COUNTER, "active_connections"); (UP_DOWN_COUNTER, "queue_size")]%string.

(** The registry [reg] once the example metrics have been stored in it,
    the first of them at address [h]. *)
Definition example_registry (h : nat) (reg : gmap string nat)
  : gmap string nat :=
  foldl (fun r jn => <[jn.2.2 := (h + jn.1)%nat]> r) reg
        (imap (fun j kn => (j, kn)) example_metrics).

(** One more object in the store: the registry, the heap and the objects
    already there. *)
Definition extends (m : MetricsManager.t) (k : MetricType) (name : string)
    (reg : gmap string nat) (w w' : World) : Prop :=
  dict_heap w' !! MetricsManager._metrics m
  = Some (<[name := length (metrics_heap w)]> reg)
  ∧ length (metrics_heap w') = S (length (metrics_heap w))
  ∧ (∃ obj, metrics_heap w' !! length (metrics_heap w) = Some obj
            ∧ kind_of obj = k
            ∧ BaseMetric.name (base_of obj) = name
            ∧ is_Some (BaseMetric._instrument (base_of obj)))
  ∧ (∀ l o, metrics_heap w !! l = Some o → metrics_heap w' !! l = Some o).

(** ** A counter among other calls *)



(** Calls on the checkout counter mixed with calls on other objects. *)
Definition mixed_ops : list op :=
  [OpRecord 0 (PInt 1) (Some GET);
   OpCreate GAUGE "cpu_usage_percent" "Current CPU usage percentage" "%";
   OpRecord 1 (PFloat (float_lit 41 (-1))) (Some GET);
   OpRecord 0 (PInt (-5)) (Some GET);
   OpTick;
   OpRecord 0 (PInt 2) (Some GET);
   OpListMetrics;
   OpRecord 1 (PInt 1) (Some GET);
   OpShutdown;
   OpRecord 0 (PInt 4) (Some POST)].

(** The values that the calls of [ops] record on the object [g], in call
    order. *)
Fixpoint recorded_on (g : nat) (ops : list op) : list number :=
  match ops with
  | [] => []
  | OpRecord self value _ :: ops =>
      if decide (self = g) then value :: recorded_on g ops
      else recorded_on g ops
  | _ :: ops => recorded_on g ops
  end.



(** Calls on the temperature gauge mixed with calls on other objects. *)
Definition gauge_ops : list op :=
  [OpRecord 0 (PFloat (float_lit 41 (-1))) (Some sensor_1);
   OpCreate COUNTER "requests_total" "Total number of requests" "1";
   OpRecord 1 (PInt 3) None;
   OpSetup;
   OpRecord 0 (PInt (2 ^ 1024)) None;
   OpTick;
   OpShutdown;
   OpRecord 1 (PInt (-1)) None].

(** ** The simulations of [MetricsExamples] *)

(** The object at [self] is of kind [k] and bound to instrument [i], an
    instrument of provider [p] whose aggregation is [agg]. *)
Definition bound_to (self i p : nat) (k : MetricType)
    (agg : Sdk.Aggregation) (w : World) : Prop :=
  ∃ obj ins,
    metrics_heap w !! self = Some obj
    ∧ kind_of obj = k
    ∧ BaseMetric._instrument (base_of obj) = Some i
    ∧ instruments w !! i = Some ins
    ∧ Sdk.i_provider ins = p
    ∧ Sdk.i_agg ins = agg.

(** The float literals of the simulations. *)
Definition tenth : spec_float := float_lit 3602879701896397 (-55).

(** [time.sleep(secs)]: for a duration from 0 to 2 ^ 31 seconds the call
    returns and does not touch the store; the export timer runs on its
    own thread and is a tick of its own.  Other durations are not
    modelled. *)
Definition sleep (secs : number) : M unit :=
  match secs with
  | PInt z => if (0 <=? z) && (z <=? 2 ^ 31) then ret tt else stuck
  | PFloat f =>
      if SFleb float_zero f && SFleb f (float_lit 1 31) then ret tt
      else stuck
  end.

(** What one pass of the loop of [simulate_web_server_metrics] takes from
    [random], in source order: [uniform(0.1, 2.0)], three times [choice]
    and [random()]. *)
Record request_draw := mk_request_draw {
  processing_time : spec_float;
  method : string;
  status : string;
  endpoint : string;
  error_chance : spec_float
}.


Definition request_attributes (d : request_draw) : Attrs :=
  {[ "method"%string := SStr (method d);
     "status"%string := SStr (status d);
     "endpoint"%string := SStr (endpoint d) ]}.

Definition error_attributes : Attrs :=
  {[ "error_type"%string := SStr "timeout";
     "service"%string := SStr "database" ]}.

(** [random.random() < 0.1] *)
Definition failed (d : request_draw) : bool := SFltb (error_chance d) tenth.

(** One pass of the loop of [simulate_web_server_metrics]. *)
Definition web_request (self : MetricsExamples.t) (d : request_draw)
  : M unit :=
  sleep (PFloat (processing_time d));;
  let attributes := request_attributes d in
  record (MetricsExamples.request_counter self) (PInt 1) (Some attributes);;
  record (MetricsExamples.request_duration self)
    (PFloat (processing_time d)) (Some attributes);;
  if failed d
  then record (MetricsExamples.error_counter self) (PInt 1)
         (Some error_attributes)
  else ret tt.

(** [simulate_web_server_metrics(num_requests)], given the draws of its
    [num_requests] passes. *)
Fixpoint simulate_web_server_metrics (self : MetricsExamples.t)
    (draws : list request_draw) : M unit :=
  match draws with
  | [] => ret tt
  | d :: draws =>
      web_request self d;; simulate_web_server_metrics self draws
  end.

(** The three objects the web simulation records on: the two counters
    on instruments of their own and the histogram, with the series they
    hold. *)
Definition web_ready (self : MetricsExamples.t) (p i1 i2 i3 : nat)
    (s1 s2 : gmap Attrs number) (h : gmap Attrs (list number)) (w : World)
  : Prop :=
  bound_to (MetricsExamples.request_counter self) i1 p COUNTER
    (Sdk.Sum true s1) w
  ∧ bound_to (MetricsExamples.error_counter self) i2 p COUNTER
      (Sdk.Sum true s2) w
  ∧ bound_to (MetricsExamples.request_duration self) i3 p HISTOGRAM
      (Sdk.Histogram h) w
  ∧ i1 ≠ i2.






(** Three requests, one of them failing. *)
Definition three_requests : list request_draw :=
  [mk_request_draw (float_lit 1 (-1)) "GET" "200" "/api/users"
                   (float_lit 1 (-1));
   mk_request_draw (float_lit 3 (-1)) "POST" "500" "/api/orders"
                   (float_lit 1 (-4));
   mk_request_draw (float_lit 1 0) "GET" "200" "/api/users"
                   (float_lit 3 (-2))].

Definition examples_world : World :=
  (MetricsExamples.__init__ demo_manager demo_world).2.

Definition demo_examples : MetricsExamples.t :=
  MetricsExamples.mk demo_manager 0 1 2 3 4 5 6 7.

(** What a call leaves alone: it writes at most the objects at [ls] and
    the instruments at [js]. *)
Definition changes_only (ls js : list nat) (w w' : World) : Prop :=
  dict_heap w' = dict_heap w
  ∧ providers w' = providers w
  ∧ global_meter_provider w' = global_meter_provider w
  ∧ length (metrics_heap w') = length (metrics_heap w)
  ∧ length (instruments w') = length (instruments w)
  ∧ (∀ l, l ∉ ls → metrics_heap w' !! l = metrics_heap w !! l)
  ∧ (∀ j, j ∉ js → instruments w' !! j = instruments w !! j).

(** What one pass of the loop of [simulate_system_metrics] takes from
    [random], in source order: [uniform(1_000_000_000, 4_000_000_000)],
    [uniform(10, 90)] and two times [choice]. *)
Record system_draw := mk_system_draw {
  memory_bytes : spec_float;
  cpu_percent : spec_float;
  connection_change : Z;
  queue_change : Z
}.

(** One pass of the loop of [simulate_system_metrics]. *)
Definition system_pass (self : MetricsExamples.t) (d : system_draw)
  : M unit :=
  record (MetricsExamples.memory_usage self) (PFloat (memory_bytes d)) None;;
  record (MetricsExamples.cpu_usage self) (PFloat (cpu_percent d)) None;;
  record (MetricsExamples.active_connections self)
    (PInt (connection_change d)) None;;
  record (MetricsExamples.queue_size self) (PInt (queue_change d)) None;;
  sleep (PInt 2).

(** [simulate_system_metrics(duration_seconds)], given the draws of the
    passes that the loop makes while the clock stays below the
    duration. *)
Fixpoint simulate_system_metrics (self : MetricsExamples.t)
    (passes : list system_draw) : M unit :=
  match passes with
  | [] => ret tt
  | d :: passes =>
      system_pass self d;; simulate_system_metrics self passes
  end.

(** The four objects the system simulation records on: two gauges, which
    are different objects and hold [v1] and [v2], and two up-down
    counters on instruments of their own. *)
Definition system_ready (self : MetricsExamples.t) (p j1 j2 : nat)
    (v1 v2 : spec_float) (t1 t2 : gmap Attrs number) (w : World) : Prop :=
  (∃ b, metrics_heap w !! MetricsExamples.memory_usage self
        = Some (GaugeMetric b v1))
  ∧ (∃ b, metrics_heap w !! MetricsExamples.cpu_usage self
          = Some (GaugeMetric b v2))
  ∧ MetricsExamples.memory_usage self ≠ MetricsExamples.cpu_usage self
  ∧ bound_to (MetricsExamples.active_connections self) j1 p UP_DOWN_COUNTER
      (Sdk.Sum false t1) w
  ∧ bound_to (MetricsExamples.queue_size self) j2 p UP_DOWN_COUNTER
      (Sdk.Sum false t2) w
  ∧ j1 ≠ j2.

(** The series without attributes after the deltas [zs]. *)
Definition moved (t : gmap Attrs number) (zs : list Z) : gmap Attrs number :=
  foldl (fun t z => SdkOps.fold_sum false t (PInt z) ∅) t zs.

(** The aggregation that a new instrument of kind [k] starts with, for
    the object at [self]. *)
Definition opening (k : MetricType) (self : nat) : Sdk.Aggregation :=
  match k with
  | COUNTER => Sdk.Sum true ∅
  | UP_DOWN_COUNTER => Sdk.Sum false ∅
  | HISTOGRAM => Sdk.Histogram ∅
  | GAUGE => Sdk.ObservableGauge self
  end.

(** Three passes of the system simulation. *)
Definition three_passes : list system_draw :=
  [mk_system_draw (float_lit 2000000000 0) (float_lit 25 0) 3 (-1);
   mk_system_draw (float_lit 3500000000 0) (float_lit 80 0) (-2) 4;
   mk_system_draw (float_lit 1500000000 0) (float_lit 12 0) (-2) (-3)].

(** What an instrument of kind [k] reports before anything is recorded
    on its object: a gauge its starting value 0.0, without attributes,
    the other kinds no series at all. *)
Definition first_report (k : MetricType) (a : Attrs) : list Sdk.value :=
  match k with
  | GAUGE => if decide (a = ∅) then [Sdk.GaugeValue float_zero] else []
  | _ => []
  end.

(** ** Where the model of the SDK is used

    The specification describes a registry that is handed names new to
    it and a buffer that folds the measurements it is given.  The
    properties that rest on the model of the SDK are stated for such
    calls; the predicates below say which. *)

(** [str.lower] on the letters of ASCII. *)
Definition lower_ascii (c : Ascii.ascii) : Ascii.ascii :=
  let n := Ascii.N_of_ascii c in
  if ((65 <=? n) && (n <=? 90))%N then Ascii.ascii_of_N (n + 32) else c.

Fixpoint lower (s : string) : string :=
  match s with
  | EmptyString => EmptyString
  | String c s => String (lower_ascii c) (lower s)
  end.

(** [name] is new to the store: no instrument carries it, in any letter
    case.  ("Name is unique within a Registry", section 3; what a second
    creation under a name does is an open question of section 9.) *)
Definition unused_name (name : string) (w : World) : Prop :=
  Forall (fun ins => lower (Sdk.i_name ins) ≠ lower name) (instruments w).

(** A float other than NaN and the infinities. *)
Definition finite (f : spec_float) : bool :=
  match f with
  | S754_zero _ | S754_finite _ _ _ => true
  | S754_infinity _ | S754_nan => false
  end.

(** A value that a binary64 number stands for: an [int] that [float]
    converts, or a finite [float]. *)
Definition measurable (value : number) : bool :=
  match float value with
  | inr f => finite f
  | inl _ => false
  end.

(** An attribute set without an empty key. *)
Definition keyed (attributes : option Attrs) : Prop :=
  or_empty attributes !! ""%string = None.

(** The integers among [vs], by absolute value. *)
Definition int_weight (vs : list number) : Z :=
  foldr (fun v acc => match v with PInt z => Z.abs z + acc | PFloat _ => acc end)
        0 vs.

(** The call sequences the model of the buffer is used for: every
    measurement is [measurable] and [keyed], and the integers stay within
    the range of binary64 however they are summed, so that Python's [+]
    can add a running sum of integers to a float. *)
Definition within_model (evs : list event) : Prop :=
  Forall (fun e => match e with
                   | Rec value attributes =>
                       measurable value = true ∧ keyed attributes
                   | Tick => True
                   end) evs
  ∧ int_weight (values_of evs) < 2 ^ 1023.


(** ** The arithmetic sum *)

(** The rational a number stands for; a NaN and the infinities stand for
    none. *)
Definition exact (value : number) : option Q :=
  match value with
  | PInt z => Some (inject_Z z)
  | PFloat (S754_zero _) => Some 0%Q
  | PFloat (S754_finite s m e) =>
      Some (inject_Z (if s then Z.neg m else Z.pos m) * (2 # 1) ^ e)%Q
  | PFloat _ => None
  end.



(** An integer that binary64 cannot hold exactly, followed by a float. *)
Definition rounded_sum : list event :=
  [Rec (PInt (2 ^ 53 + 1)) None; Rec (PFloat (float_lit 1 0)) None].

(** ** Recording by name *)

(** [manager.get_metric(name).record(value, attributes)]: a [record] call
    that refers to a metric by its name.  The manager has no method of
    its own for this; [get_metric] answers [None] for a name it does not
    hold, and [None] has no attribute [record]. *)
Definition record_by_name (self : MetricsManager.t) (name : string)
    (value : number) (attributes : option Attrs) : M unit :=
  let! metric := MetricsManager.get_metric self name in
  match metric with
  | Some metric => record metric value attributes
  | None =>
      raise (AttributeError "'NoneType' object has no attribute 'record'")
  end.

(** * Properties *)

(** ** Lists and maps *)

Section list_facts.
Context {A : Type}.

Lemma lookup_snoc_length (l : list A) (x : A) :
  (l ++ [x]) !! length l = Some x.
Proof. by rewrite list_lookup_middle. Qed.

Lemma insert_snoc_length (l : list A) (x y : A) :
  <[length l := y]> (l ++ [x]) = l ++ [y].
Proof. induction l; simpl; [done|]. by f_equal. Qed.

Lemma filter_none (P : A → Prop) `{!∀ x, Decision (P x)} (l : list A) :
  (∀ x, x ∈ l → ¬ P x) → filter P l = [].
Proof.
  induction l as [|x l IH]; intros Hall; [done|].
  rewrite filter_cons_False; [|apply Hall; left].
  apply IH. intros y Hy. apply Hall. by right.
Qed.

Lemma filter_concat_imap_none {B : Type} (P : A → Prop)
    `{!∀ x, Decision (P x)} (f : nat → B → list A) (l : list B) :
  (∀ j x pt, pt ∈ f j x → ¬ P pt) →
  filter P (concat (imap f l)) = [].
Proof.
  revert f. induction l as [|x l IH]; intros f Hf; [done|].
  rewrite imap_cons. cbn [concat]. rewrite filter_app.
  rewrite (filter_none P (f 0%nat x)) by eauto.
  apply (IH (f ∘ S)). intros j y pt. apply Hf.
Qed.

(** When only the [i]-th block can hold elements satisfying [P], the
    filter of the concatenation is the filter of that block. *)
Lemma filter_concat_imap {B : Type} (P : A → Prop) `{!∀ x, Decision (P x)}
    (f : nat → B → list A) (l : list B) (i : nat) :
  (∀ j x pt, pt ∈ f j x → P pt → j = i) →
  filter P (concat (imap f l))
  = match l !! i with Some x => filter P (f i x) | None => [] end.
Proof.
  revert f i. induction l as [|x l IH]; intros f i Hf; [done|].
  rewrite imap_cons. cbn [concat]. rewrite filter_app.
  destruct i as [|i]; cbn [lookup list_lookup].
  - rewrite (filter_concat_imap_none P (f ∘ S)); [by rewrite app_nil_r|].
    intros j y pt Hpt HP. by specialize (Hf _ _ _ Hpt HP).
  - rewrite (filter_none P (f 0%nat x)).
    + apply (IH (f ∘ S) i). intros j y pt Hpt HP.
      specialize (Hf _ _ _ Hpt HP). congruence.
    + intros pt Hpt HP. by specialize (Hf _ _ _ Hpt HP).
Qed.

Lemma filter_fmap {B : Type} (P : A → Prop) `{!∀ x, Decision (P x)}
    (g : B → A) (l : list B) :
  filter P (g <$> l) = g <$> filter (P ∘ g) l.
Proof.
  induction l as [|x l IH]; [done|].
  rewrite fmap_cons, !filter_cons. unfold compose at 1.
  destruct (decide (P (g x))); by rewrite IH.
Qed.
End list_facts.

(** A map lists each key once. *)
Lemma filter_key_map_to_list {K V} `{Countable K} (s : gmap K V) (a : K) :
  filter (fun kv => kv.1 = a) (map_to_list s)
  = match s !! a with Some v => [(a, v)] | None => [] end.
Proof.
  pose proof (NoDup_fst_map_to_list s) as Hnd.
  assert (Hin : ∀ v, (a, v) ∈ map_to_list s ↔ s !! a = Some v)
    by (intros; apply elem_of_map_to_list).
  revert Hnd Hin. generalize (map_to_list s) as l. generalize (s !! a) as o.
  intros o l. revert o. induction l as [|[k v] l IH]; intros o Hnd Hin.
  - destruct o as [v|]; [|done].
    by pose proof (proj2 (Hin v) eq_refl) as ?%elem_of_nil.
  - rewrite fmap_cons in Hnd. apply NoDup_cons in Hnd as [Hk Hnd].
    destruct (decide (k = a)) as [->|Hne].
    + rewrite filter_cons_True by done.
      rewrite (proj1 (Hin v)) by left.
      f_equal. apply filter_none. intros [k' v'] Hin' Heq.
      simpl in Heq. subst k'. apply Hk. apply list_elem_of_fmap.
      by exists (a, v').
    + rewrite filter_cons_False by done.
      apply IH; [done|]. intros v'. rewrite <- Hin. split; [by right|].
      intros Hx. apply elem_of_cons in Hx as [Hx|Hx]; [congruence|done].
Qed.

(** ** Creation *)

Lemma create_spec m meter reg name obj w :
  MetricsManager._meter m = Some meter →
  dict_heap w !! MetricsManager._metrics m = Some reg →
  create_with m name obj w
  = (Ok (length (metrics_heap w)), created m meter reg name obj w).
Proof.
  intros Hm Hd. unfold create_with, MetricsManager.get_meter.
  rewrite Hm. unfold bind at 1. cbn [new_metric fst snd].
  unfold bind at 1. cbn [ret].
  unfold create_instrument, load_metric.
  unfold bind at 1. unfold bind at 1.
  cbn [set_metrics_heap metrics_heap]. rewrite lookup_snoc_length.
  cbn [of_option ret].
  destruct obj as [b|b|b v|b];
    cbn [bind SdkOps.create_counter SdkOps.create_histogram
         SdkOps.create_observable_gauge SdkOps.create_up_down_counter
         SdkOps.new_instrument store_metric modify set_instruments
         set_metrics_heap metrics_heap instruments dict_heap of_option ret
         providers global_meter_provider];
    unfold dict_setitem, load_dict, store_dict, modify, bind;
    cbn [set_metrics_heap set_instruments dict_heap]; rewrite Hd;
    cbn [of_option ret]; unfold created; rewrite insert_snoc_length;
    reflexivity.
Qed.

Lemma create_ok_inv m name obj w c w1 :
  create_with m name obj w = (Ok c, w1) →
  ∃ meter reg, MetricsManager._meter m = Some meter
               ∧ dict_heap w !! MetricsManager._metrics m = Some reg.
Proof.
  destruct (MetricsManager._meter m) as [meter|] eqn:Hm.
  - destruct (dict_heap w !! MetricsManager._metrics m) as [reg|] eqn:Hd;
      [eauto|].
    unfold create_with, MetricsManager.get_meter. rewrite Hm.
    unfold bind at 1. cbn [new_metric fst snd].
    unfold bind at 1. cbn [ret].
    unfold create_instrument, load_metric.
    unfold bind at 1. unfold bind at 1.
    cbn [set_metrics_heap metrics_heap]. rewrite lookup_snoc_length.
    cbn [of_option ret].
    destruct obj as [b|b|b v|b];
      cbn [bind SdkOps.create_counter SdkOps.create_histogram
           SdkOps.create_observable_gauge SdkOps.create_up_down_counter
           SdkOps.new_instrument store_metric modify set_instruments
           set_metrics_heap metrics_heap instruments dict_heap of_option ret
           providers global_meter_provider];
      unfold dict_setitem, load_dict, store_dict, modify, bind;
      cbn [set_metrics_heap set_instruments dict_heap]; rewrite Hd;
      cbn [of_option ret stuck]; discriminate.
  - unfold create_with, MetricsManager.get_meter. rewrite Hm.
    unfold bind, new_metric, raise. discriminate.
Qed.

(** ** Snapshots *)

Lemma filter_iff_elem {A} (P Q : A → Prop)
    `{!∀ x, Decision (P x), !∀ x, Decision (Q x)} (l : list A) :
  (∀ x, x ∈ l → P x ↔ Q x) → filter P l = filter Q l.
Proof.
  induction l as [|x l IH]; intros Hall; [done|].
  rewrite !filter_cons.
  rewrite IH by (intros y Hy; apply Hall; by right).
  pose proof (Hall x (list_elem_of_here _ _)) as Hx.
  destruct (decide (P x)), (decide (Q x)); tauto.
Qed.

Lemma points_of_instrument heap j ins pt :
  pt ∈ SdkOps.points_of heap j ins → Sdk.p_instrument pt = j.
Proof.
  unfold SdkOps.points_of. destruct (Sdk.i_agg ins) as [mono s|s|cb].
  - intros (kv & -> & _)%list_elem_of_fmap. done.
  - intros (kv & -> & _)%list_elem_of_fmap. done.
  - destruct (heap !! cb) as [[]|]; try by intros ?%elem_of_nil.
    by intros ->%list_elem_of_singleton.
Qed.

(** What a snapshot reports for a series of instrument [i] comes from
    that instrument alone. *)
Lemma reported_instrument p w i a ins :
  instruments w !! i = Some ins →
  Sdk.i_provider ins = p →
  reported (SdkOps.snapshot p w) i a
  = Sdk.p_value
      <$> filter (fun pt => Sdk.p_attrs pt = a)
                 (SdkOps.points_of (metrics_heap w) i ins).
Proof.
  intros Hins Hp. unfold reported, SdkOps.snapshot.
  rewrite (filter_concat_imap _ _ _ i), Hins.
  - rewrite decide_True by done. f_equal.
    apply filter_iff_elem. intros pt Hpt.
    apply points_of_instrument in Hpt. tauto.
  - intros j x pt Hpt [Hi _].
    destruct (decide _); [|by apply elem_of_nil in Hpt].
    apply points_of_instrument in Hpt. congruence.
Qed.

Lemma reported_sum p w i a ins monotonic s :
  instruments w !! i = Some ins →
  Sdk.i_provider ins = p →
  Sdk.i_agg ins = Sdk.Sum monotonic s →
  reported (SdkOps.snapshot p w) i a
  = match s !! a with Some v => [Sdk.SumValue v] | None => [] end.
Proof.
  intros Hins Hp Hagg. rewrite (reported_instrument _ _ _ _ _ Hins Hp).
  unfold SdkOps.points_of. rewrite Hagg, filter_fmap.
  rewrite (list_filter_iff _ (fun kv => kv.1 = a)) by done.
  rewrite filter_key_map_to_list. by destruct (s !! a).
Qed.

(** ** Counters *)









(** ** The running example *)

Example demo_started :
  (let! m := MetricsManager.__init__ ObservabilityConfig.default in
   MetricsManager.setup m) empty_world = (Ok demo_manager, demo_world).
Proof. reflexivity. Qed.



Example requests_snapshot :
  SdkOps.snapshot 0 (run 0 0 requests requests_world).2
  = [Sdk.mkPoint 0 "requests_total" POST (Sdk.SumValue (PInt 2));
     Sdk.mkPoint 0 "requests_total" GET (Sdk.SumValue (PInt 3))].
Proof. vm_compute. reflexivity. Qed.

(** ** Claims about counters *)



Example rounded_sum_snapshot :
  within_model rounded_sum
  ∧ run 0 0 rounded_sum requests_world
    = ([Ok tt; Ok tt], (run 0 0 rounded_sum requests_world).2)
  ∧ reported (SdkOps.snapshot 0 (run 0 0 rounded_sum requests_world).2) 0 ∅
    = [Sdk.SumValue (PFloat (float_lit (2 ^ 53) 0))].
Proof.
  split; [split; [repeat constructor|vm_compute; reflexivity]|].
  split; vm_compute; reflexivity.
Qed.


(** C2.  On a counter whose instrument has been created, [record] with
    a value below zero raises [ValueError] and leaves the whole store as
    it was; a snapshot taken after the call equals one taken before. *)
Theorem counter_negative_rejected w self b i value attributes :
  metrics_heap w !! self = Some (CounterMetric b) →
  BaseMetric._instrument b = Some i →
  lt_zero value = true →
  record self value attributes w
  = (Raise (ValueError "Counter values must be non-negative"), w)
  ∧ ∀ p, SdkOps.snapshot p (record self value attributes w).2
         = SdkOps.snapshot p w.
Proof.
  intros Hobj Hi Hneg.
  assert (Hrec : record self value attributes w
                 = (Raise (ValueError "Counter values must be non-negative"), w)).
  { unfold record, bind, load_metric. rewrite Hobj. cbn [of_option ret].
    unfold CounterMetric_record. by rewrite Hi, Hneg. }
  split; [done|]. intros p. by rewrite Hrec.
Qed.

Lemma counter_negative_rejected_witness :
  record 0 (PFloat (float_lit (-1) (-1))) (Some GET) requests_world
  = (Raise (ValueError "Counter values must be non-negative"), requests_world)
  ∧ ∀ p, SdkOps.snapshot p
           (record 0 (PFloat (float_lit (-1) (-1))) (Some GET)
                   requests_world).2
         = SdkOps.snapshot p requests_world.
Proof.
  apply (counter_negative_rejected requests_world 0
           (BaseMetric.mk "requests_total" "Total number of requests" "1"
                          (Some 0%nat)) 0%nat);
    reflexivity.
Defined.

(** A [CounterMetric] constructed by hand, whose [create_instrument] has
    not run, answers every [record] with [RuntimeError]. *)
Example unbound_counter_raises :
  let w := (new_metric (CounterMetric (BaseMetric.__init__ "c" "" "1"))
              empty_world).2 in
  record 0 (PInt (-1)) None w
  = (Raise (RuntimeError "Instrument not created for metric c"), w).
Proof. reflexivity. Qed.



(** ** Gauges *)

Lemma record_gauge self b cv value attributes w :
  metrics_heap w !! self = Some (GaugeMetric b cv) →
  record self value attributes w
  = (gauge_outcome value,
     set_metrics_heap
       (<[self := GaugeMetric b (default cv (float_opt value))]>
          (metrics_heap w)) w).
Proof.
  intros Hobj. unfold record, bind, load_metric. rewrite Hobj.
  cbn [of_option ret]. unfold GaugeMetric_record, gauge_outcome, float_opt.
  destruct (float value) as [e|f]; cbn [default].
  - rewrite list_insert_id by done. by destruct w.
  - done.
Qed.

Lemma last_float_cons cur value values :
  last_float cur (value :: values)
  = last_float (default cur (float_opt value)) values.
Proof.
  unfold last_float. cbn [omap list_omap].
  destruct (float_opt value) as [f|]; [|done].
  cbn [default]. rewrite last_cons. by destruct (last _).
Qed.

Lemma run_gauge_calls self p b calls cv w :
  metrics_heap w !! self = Some (GaugeMetric b cv) →
  run self p (calls_events calls) w
  = (gauge_outcome <$> calls.*1,
     set_metrics_heap
       (<[self := GaugeMetric b (last_float cv calls.*1)]> (metrics_heap w))
       w).
Proof.
  revert cv w. induction calls as [|[v a] calls IH]; intros cv w Hobj.
  - cbn. rewrite list_insert_id by done. by destruct w.
  - cbn [calls_events fmap list_fmap run exec fst snd].
    rewrite (record_gauge _ _ _ _ _ _ Hobj). cbn [fst snd].
    fold (calls_events calls).
    rewrite (IH (default cv (float_opt v))).
    + cbn [set_metrics_heap metrics_heap dict_heap instruments providers
           global_meter_provider fst snd].
      rewrite list_insert_insert_eq, last_float_cons. done.
    + cbn. apply list_lookup_insert_eq. by eapply lookup_lt_Some.
Qed.

Lemma get_value_gauge self b cv w :
  metrics_heap w !! self = Some (GaugeMetric b cv) →
  get_value self w = (Ok cv, w).
Proof.
  intros Hobj. unfold get_value, bind, load_metric. by rewrite Hobj.
Qed.

Lemma last_float_snoc cur values value f :
  float value = inr f → last_float cur (values ++ [value]) = f.
Proof.
  intros Hf. unfold last_float. rewrite omap_app. cbn [omap list_omap].
  unfold float_opt at 2. rewrite Hf. by rewrite last_snoc.
Qed.

Lemma filter_all {A} (P : A → Prop) `{!∀ x, Decision (P x)} (l : list A) :
  (∀ x, x ∈ l → P x) → filter P l = l.
Proof.
  induction l as [|x l IH]; intros Hall; [done|].
  rewrite filter_cons_True by (apply Hall; left).
  f_equal. apply IH. intros y Hy. apply Hall. by right.
Qed.

Lemma reported_all_instrument p w i ins :
  instruments w !! i = Some ins →
  Sdk.i_provider ins = p →
  reported_all (SdkOps.snapshot p w) i
  = (fun pt => (Sdk.p_attrs pt, Sdk.p_value pt))
      <$> SdkOps.points_of (metrics_heap w) i ins.
Proof.
  intros Hins Hp. unfold reported_all, SdkOps.snapshot.
  rewrite (filter_concat_imap _ _ _ i), Hins.
  - rewrite decide_True by done. f_equal.
    apply filter_all. intros pt. apply points_of_instrument.
  - intros j x pt Hpt Hi.
    destruct (decide _); [|by apply elem_of_nil in Hpt].
    apply points_of_instrument in Hpt. congruence.
Qed.

Lemma reported_gauge self i p ins b cv w :
  gauge_inv self i p ins b cv w →
  reported_all (SdkOps.snapshot p w) i = [(∅, Sdk.GaugeValue cv)].
Proof.
  intros (Hobj & Hins & Hagg & Hp & _).
  rewrite (reported_all_instrument _ _ _ _ Hins Hp).
  unfold SdkOps.points_of. by rewrite Hagg, Hobj.
Qed.

Lemma tick_gauge self i p ins b cv w :
  gauge_inv self i p ins b cv w →
  ∃ w', SdkOps.tick p w = (Ok tt, w') ∧ gauge_inv self i p ins b cv w'.
Proof.
  intros (Hobj & Hins & Hagg & Hp & [mp Hmp]).
  unfold SdkOps.tick. rewrite Hmp.
  destruct (Sdk.stopped mp); eexists; (split; [reflexivity|]).
  { repeat split; eauto. }
  repeat split; cbn; eauto.
  - rewrite list_lookup_fmap, Hins. cbn. f_equal.
    unfold SdkOps.reset_instrument. by rewrite Hagg.
  - rewrite list_lookup_insert_eq by (by eapply lookup_lt_Some). eauto.
Qed.

Lemma run_gauge self i p ins b evs cv w :
  gauge_inv self i p ins b cv w →
  ∃ w', run self p evs w = (event_outcome <$> evs, w')
        ∧ gauge_inv self i p ins b (last_float cv (values_of evs)) w'.
Proof.
  revert cv w. induction evs as [|e evs IH]; intros cv w Hinv.
  - exists w. done.
  - destruct e as [value attributes|].
    + pose proof Hinv as (Hobj & Hins & Hagg & Hp & Hmp).
      destruct (IH (default cv (float_opt value))
                  (set_metrics_heap
                     (<[self := GaugeMetric b (default cv (float_opt value))]>
                        (metrics_heap w)) w)) as (w2 & Hrun & Hinv2).
      { repeat split; cbn; eauto.
        apply list_lookup_insert_eq. by eapply lookup_lt_Some. }
      exists w2. cbn [run exec]. rewrite (record_gauge _ _ _ _ _ _ Hobj).
      cbn [fst snd]. rewrite Hrun. cbn [values_of].
      by rewrite last_float_cons.
    + destruct (tick_gauge _ _ _ _ _ _ _ Hinv) as (w1 & Htick & Hinv1).
      destruct (IH _ _ Hinv1) as (w2 & Hrun & Hinv2).
      exists w2. cbn [run exec]. rewrite Htick. cbn [fst snd]. rewrite Hrun.
      done.
Qed.

Example readings_outcomes :
  (run 0 0 (calls_events readings) gauge_world).1
  = [Ok tt; Ok tt;
     Raise (OverflowError "int too large to convert to float")]
  ∧ last_float float_zero readings.*1 = float_lit (2 ^ 53) 0.
Proof. split; vm_compute; reflexivity. Qed.

(** ** Claims about gauges *)

(** C9.  [GaugeMetric.record] does not use its [attributes] argument and
    stores [float(value)] in the one [_current_value] of the object.
    After any sequence of [record] calls, with any mixture of attribute
    sets, the only change to the store is that value; [get_value] returns
    the float of the last value recorded (a call whose conversion raises
    [OverflowError] records nothing); and the same values passed with
    other attribute sets lead to the same store, so attribute sets do not
    form gauge series. *)
Theorem gauge_ignores_attributes w self b cv p calls :
  metrics_heap w !! self = Some (GaugeMetric b cv) →
  let w' := (run self p (calls_events calls) w).2 in
  (run self p (calls_events calls) w).1 = gauge_outcome <$> calls.*1
  ∧ w' = set_metrics_heap
           (<[self := GaugeMetric b (last_float cv calls.*1)]>
              (metrics_heap w)) w
  ∧ get_value self w' = (Ok (last_float cv calls.*1), w')
  ∧ (∀ calls', calls'.*1 = calls.*1 →
               (run self p (calls_events calls') w).2 = w')
  ∧ (∀ calls0 value attributes f,
       calls = calls0 ++ [(value, attributes)] → float value = inr f →
       get_value self w' = (Ok f, w')).
Proof.
  intros Hobj w'. subst w'. rewrite (run_gauge_calls _ _ _ _ _ _ Hobj).
  cbn [fst snd].
  assert (Hget : ∀ f, get_value self
            (set_metrics_heap (<[self := GaugeMetric b f]> (metrics_heap w)) w)
          = (Ok f, set_metrics_heap
                     (<[self := GaugeMetric b f]> (metrics_heap w)) w)).
  { intros f. apply (get_value_gauge _ b). cbn.
    apply list_lookup_insert_eq. by eapply lookup_lt_Some. }
  repeat split; [apply Hget| |].
  - intros calls' Hsame. rewrite (run_gauge_calls _ _ _ _ _ _ Hobj).
    cbn [snd]. by rewrite Hsame.
  - intros calls0 value attributes f -> Hf.
    rewrite fmap_app. cbn [fmap list_fmap fst].
    rewrite (last_float_snoc _ _ _ _ Hf). apply Hget.
Qed.

Lemma gauge_ignores_attributes_witness :
  let w' := (run 0 0 (calls_events readings) gauge_world).2 in
  (run 0 0 (calls_events readings) gauge_world).1
  = gauge_outcome <$> readings.*1
  ∧ w' = set_metrics_heap
           (<[0%nat := GaugeMetric
                      (BaseMetric.mk "demo_temperature_celsius"
                         "Current temperature" "Cel" (Some 0%nat))
                      (last_float float_zero readings.*1)]>
              (metrics_heap gauge_world)) gauge_world
  ∧ get_value 0 w' = (Ok (last_float float_zero readings.*1), w')
  ∧ (∀ calls', calls'.*1 = readings.*1 →
               (run 0 0 (calls_events calls') gauge_world).2 = w')
  ∧ (∀ calls0 value attributes f,
       readings = calls0 ++ [(value, attributes)] → float value = inr f →
       get_value 0 w' = (Ok f, w')).
Proof.
  apply (gauge_ignores_attributes gauge_world 0
           (BaseMetric.mk "demo_temperature_celsius" "Current temperature"
                          "Cel" (Some 0%nat)) float_zero 0 readings).
  reflexivity.
Defined.

(** C3, as amended.  For every sequence of [record] calls on a gauge
    that [create_gauge] returned for a name new to the meter, with any
    attribute sets and interleaved at will with export ticks, the gauge
    holds [float(v)] for the value [v] of the most recent [record] call
    that returned, 0.0 if there is none, and while that float is finite
    the next snapshot reports exactly one series for the gauge: it
    carries no attributes and its value is that float.  A call returns
    unless [v] is an integer outside the binary64 range.  What a
    snapshot reports is the SDK's; the statement about it is for finite
    values and a new name, where the model of the SDK is used, and does
    not say what is reported while the gauge holds a NaN or an
    infinity. *)
Theorem gauge_reports_last_float m p w name description unit g w1 evs :
  MetricsManager._meter m = Some p →
  is_Some (providers w !! p) →
  unused_name name w →
  MetricsManager.create_gauge m name description unit w = (Ok g, w1) →
  ∃ i w2,
    metrics_heap w1 !! g
      = Some (GaugeMetric (BaseMetric.mk name description unit (Some i))
                          float_zero)
    ∧ run g p evs w1 = (event_outcome <$> evs, w2)
    ∧ get_value g w2
      = (Ok (last_float float_zero (values_of evs)), w2)
    ∧ (finite (last_float float_zero (values_of evs)) = true →
       reported_all (SdkOps.snapshot p w2) i
       = [(∅, Sdk.GaugeValue (last_float float_zero (values_of evs)))])
    ∧ (∀ evs0 value attributes f,
         evs = evs0 ++ [Rec value attributes] → float value = inr f →
         finite f = true →
         reported_all (SdkOps.snapshot p w2) i = [(∅, Sdk.GaugeValue f)]).
Proof.
  intros Hm Hp _ Hc.
  change (MetricsManager.create_gauge m name description unit)
    with (create_with m name
            (GaugeMetric (BaseMetric.__init__ name description unit)
                         float_zero))
    in Hc.
  destruct (create_ok_inv _ _ _ _ _ _ Hc) as (meter & reg & Hm' & Hd).
  rewrite (create_spec _ _ _ _ _ _ Hm' Hd) in Hc.
  injection Hc as <- <-. rewrite Hm in Hm'. injection Hm' as <-.
  set (g := length (metrics_heap w)).
  set (i := length (instruments w)).
  set (b := BaseMetric.mk name description unit (Some i)).
  set (ins := Sdk.mkInstrument p name description unit (Sdk.ObservableGauge g)).
  set (w1 := created _ _ _ _ _ _).
  assert (Hinv : gauge_inv g i p ins b float_zero w1).
  { repeat split; cbn; eauto using lookup_snoc_length. }
  destruct (run_gauge _ _ _ _ _ evs _ _ Hinv) as (w2 & Hrun & Hinv2).
  exists i, w2. split; [apply lookup_snoc_length|]. split; [done|].
  pose proof (reported_gauge _ _ _ _ _ _ _ Hinv2) as Hrep.
  split; [by apply (get_value_gauge _ b); destruct Hinv2|].
  split; [done|]. intros evs0 value attributes f -> Hf _.
  rewrite Hrep. do 3 f_equal.
  assert (Hvals : values_of (evs0 ++ [Rec value attributes])
                  = values_of evs0 ++ [value]).
  { clear. induction evs0 as [|[]]; cbn; by f_equal. }
  rewrite Hvals. by apply last_float_snoc.
Qed.

Lemma gauge_reports_last_float_witness :
  ∃ i w2,
    metrics_heap gauge_world !! 0%nat
      = Some (GaugeMetric
                (BaseMetric.mk "demo_temperature_celsius" "Current temperature"
                               "Cel" (Some i)) float_zero)
    ∧ run 0 0 (Tick :: calls_events readings) gauge_world
      = (event_outcome <$> (Tick :: calls_events readings), w2)
    ∧ get_value 0 w2
      = (Ok (last_float float_zero
               (values_of (Tick :: calls_events readings))), w2)
    ∧ (finite (last_float float_zero
                 (values_of (Tick :: calls_events readings))) = true →
       reported_all (SdkOps.snapshot 0 w2) i
       = [(∅, Sdk.GaugeValue
                (last_float float_zero
                   (values_of (Tick :: calls_events readings))))])
    ∧ (∀ evs0 value attributes f,
         Tick :: calls_events readings = evs0 ++ [Rec value attributes] →
         float value = inr f →
         finite f = true →
         reported_all (SdkOps.snapshot 0 w2) i = [(∅, Sdk.GaugeValue f)]).
Proof.
  apply (gauge_reports_last_float demo_manager 0 demo_world).
  - reflexivity.
  - eexists. reflexivity.
  - constructor.
  - reflexivity.
Defined.

(** The two-sensor readings leave one series without attributes, holding
    the second sensor's value; the odd integer is reported rounded. *)
Example two_sensors_snapshot :
  SdkOps.snapshot 0 (run 0 0 two_sensors gauge_world).2
  = [Sdk.mkPoint 0 "demo_temperature_celsius" ∅
       (Sdk.GaugeValue (float_lit 2 0))]
  ∧ SdkOps.snapshot 0 (run 0 0 odd_reading gauge_world).2
    = [Sdk.mkPoint 0 "demo_temperature_celsius" ∅
         (Sdk.GaugeValue (float_lit (2 ^ 53) 0))].
Proof. split; vm_compute; reflexivity. Qed.

(** C3, counterexample.  After [record(1.0, {location: "sensor_1"})] and
    [record(2.0, {location: "sensor_2"})] the snapshot reports nothing for
    the series of sensor_1, whose most recent value is 1.0; and after
    [record(2**53 + 1)] alone it reports 9007199254740992.0, which is not
    equal to the integer passed. *)
Lemma gauge_last_of_series_counterexample :
  ¬ reports_last_of_series gauge_world 0 0 0 two_sensors sensor_1
  ∧ ¬ reports_last_of_series gauge_world 0 0 0 odd_reading ∅.
Proof.
  split; intros Hclaim.
  - destruct (Hclaim (PFloat (float_lit 1 0))) as (f & Hrep & _);
      [by vm_compute|].
    vm_compute in Hrep. discriminate.
  - destruct (Hclaim (PInt (2 ^ 53 + 1))) as (f & Hrep & Heq);
      [by vm_compute|].
    vm_compute in Hrep. injection Hrep as <-.
    vm_compute in Heq. discriminate.
Qed.

(** ** The manager *)

Lemma create_of_create k m name description unit :
  create_of k m name description unit
  = create_with m name (new_object k name description unit).
Proof. by destruct k. Qed.

Lemma get_metric_spec m reg name w :
  dict_heap w !! MetricsManager._metrics m = Some reg →
  MetricsManager.get_metric m name w = (Ok (reg !! name), w).
Proof.
  intros Hd. unfold MetricsManager.get_metric, bind, load_dict.
  by rewrite Hd.
Qed.

(** ** Frames *)

Lemma add_frame i value attributes w :
  let w' := (SdkOps.add i value attributes w).2 in
  metrics_heap w' = metrics_heap w ∧ dict_heap w' = dict_heap w
  ∧ providers w' = providers w.
Proof.
  unfold SdkOps.add. destruct (instruments w !! i) as [ins|]; [|done].
  by destruct (Sdk.i_agg ins).
Qed.

Lemma sdk_record_frame i value attributes w :
  let w' := (SdkOps.record i value attributes w).2 in
  metrics_heap w' = metrics_heap w ∧ dict_heap w' = dict_heap w
  ∧ providers w' = providers w.
Proof.
  unfold SdkOps.record. destruct (instruments w !! i) as [ins|]; [|done].
  by destruct (Sdk.i_agg ins).
Qed.

Lemma record_frame self value attributes w :
  let w' := (record self value attributes w).2 in
  dict_heap w' = dict_heap w ∧ providers w' = providers w.
Proof.
  unfold record, bind, load_metric.
  destruct (metrics_heap w !! self) as [[b|b|b cv|b]|]; cbn [of_option ret stuck];
    [| | | |done].
  - unfold CounterMetric_record. destruct (BaseMetric._instrument b); [|done].
    destruct (lt_zero value); [done|].
    by destruct (add_frame n value (or_empty attributes) w) as (_ & ? & ?).
  - unfold HistogramMetric_record. destruct (BaseMetric._instrument b); [|done].
    by destruct (sdk_record_frame n value (or_empty attributes) w) as (_ & ? & ?).
  - unfold GaugeMetric_record. by destruct (float value).
  - unfold UpDownCounterMetric_record.
    destruct (BaseMetric._instrument b); [|done].
    by destruct (add_frame n value (or_empty attributes) w) as (_ & ? & ?).
Qed.

Lemma tick_frame p w :
  let w' := (SdkOps.tick p w).2 in
  metrics_heap w' = metrics_heap w ∧ dict_heap w' = dict_heap w.
Proof.
  unfold SdkOps.tick. destruct (providers w !! p) as [mp|]; [|done].
  by destruct (Sdk.stopped mp).
Qed.

Lemma shutdown_frame m w :
  let w' := (MetricsManager.shutdown m w).2 in
  metrics_heap w' = metrics_heap w ∧ dict_heap w' = dict_heap w.
Proof.
  unfold MetricsManager.shutdown.
  destruct (MetricsManager._meter_provider m) as [p|]; [|done].
  unfold SdkOps.shutdown. destruct (providers w !! p) as [mp|]; [|done].
  by destruct (Sdk.stopped mp).
Qed.

Lemma setup_spec m w :
  let p := length (providers w) in
  MetricsManager.setup m w
  = (Ok (MetricsManager.mk (MetricsManager.config m) (Some p) (Some p)
           (MetricsManager._metrics m)),
     set_global_meter_provider (Some p)
       (set_providers
          (providers w
             ++ [Sdk.mkProvider
                   (ObservabilityConfig.to_resource_attributes
                      (MetricsManager.config m))
                   (ObservabilityConfig.otlp_endpoint
                      (MetricsManager.config m)) 5000 [] false]) w)).
Proof. reflexivity. Qed.

Lemma create_raises m name obj w :
  MetricsManager._meter m = None →
  dict_heap (create_with m name obj w).2 = dict_heap w
  ∧ providers (create_with m name obj w).2 = providers w.
Proof.
  intros Hm. unfold create_with, MetricsManager.get_meter.
  rewrite Hm. done.
Qed.

Lemma create_providers m name obj w :
  providers (create_with m name obj w).2 = providers w.
Proof.
  destruct (MetricsManager._meter m) as [meter|] eqn:Hm.
  - destruct (dict_heap w !! MetricsManager._metrics m) as [reg|] eqn:Hd.
    + by rewrite (create_spec _ _ _ _ _ _ Hm Hd).
    + unfold create_with, MetricsManager.get_meter. rewrite Hm.
      unfold bind at 1. cbn [new_metric fst snd].
      unfold bind at 1. cbn [ret].
      unfold create_instrument, load_metric.
      unfold bind at 1. unfold bind at 1.
      cbn [set_metrics_heap metrics_heap]. rewrite lookup_snoc_length.
      cbn [of_option ret].
      destruct obj as [b|b|b v|b];
        cbn [bind SdkOps.create_counter SdkOps.create_histogram
             SdkOps.create_observable_gauge SdkOps.create_up_down_counter
             SdkOps.new_instrument store_metric modify set_instruments
             set_metrics_heap metrics_heap instruments dict_heap of_option ret
             providers global_meter_provider];
        unfold dict_setitem, load_dict, store_dict, modify, bind;
        cbn [set_metrics_heap set_instruments dict_heap]; rewrite Hd;
        reflexivity.
  - unfold create_with, MetricsManager.get_meter. by rewrite Hm.
Qed.

(** ** The registry holds created names only *)

Lemma step_registry m o w names :
  registry_within (MetricsManager._metrics m) names w →
  MetricsManager._metrics (step m o w).1 = MetricsManager._metrics m
  ∧ registry_within (MetricsManager._metrics m)
      (names ++ created_names [o]) (step m o w).2.
Proof.
  intros (reg & Hd & Hreg).
  assert (Hsame : ∀ w', dict_heap w' = dict_heap w →
            registry_within (MetricsManager._metrics m) (names ++ []) w').
  { intros w' Hw'. exists reg. rewrite Hw', app_nil_r. done. }
  destruct o as [|k name description unit|self value attributes|name| | |];
    cbn [step created_names fst snd].
  - rewrite setup_spec. cbn [fst snd MetricsManager._metrics]. split; [done|].
    by apply Hsame.
  - split; [done|]. rewrite create_of_create.
    destruct (MetricsManager._meter m) as [meter|] eqn:Hm.
    + rewrite (create_spec _ _ _ _ _ _ Hm Hd). cbn [snd].
      exists (<[name := length (metrics_heap w)]> reg). split.
      * cbn. apply list_lookup_insert_eq. by eapply lookup_lt_Some.
      * intros n Hn. apply elem_of_app.
        destruct (decide (n = name)) as [->|Hne]; [right; by left|].
        left. apply Hreg. by rewrite lookup_insert_ne in Hn.
    + destruct (create_raises m name (new_object k name description unit) w Hm)
        as [Hdh _].
      exists reg. rewrite Hdh. split; [done|].
      intros n Hn. apply elem_of_app. left. by apply Hreg.
  - split; [done|]. apply Hsame. apply record_frame.
  - split; [done|]. apply Hsame.
    by rewrite (get_metric_spec _ _ _ _ Hd).
  - split; [done|]. unfold MetricsManager.list_metrics, bind, load_dict.
    rewrite Hd. cbn. exists reg. rewrite app_nil_r.
    split; [by apply lookup_app_l_Some|done].
  - destruct (MetricsManager._meter_provider m) as [p|]; cbn [fst snd];
      (split; [done|]); apply Hsame; [apply tick_frame|done].
  - split; [done|]. apply Hsame. apply shutdown_frame.
Qed.

Lemma created_names_app ops1 ops2 :
  created_names (ops1 ++ ops2) = created_names ops1 ++ created_names ops2.
Proof.
  induction ops1 as [|[] ops1 IH]; cbn; [done|..]; by rewrite ?IH.
Qed.

Lemma steps_registry m ops w names :
  registry_within (MetricsManager._metrics m) names w →
  MetricsManager._metrics (steps m ops w).1 = MetricsManager._metrics m
  ∧ registry_within (MetricsManager._metrics m)
      (names ++ created_names ops) (steps m ops w).2.
Proof.
  revert m w names. induction ops as [|o ops IH]; intros m w names Hreg.
  - cbn. by rewrite app_nil_r.
  - change (steps m (o :: ops) w)
      with (steps (step m o w).1 ops (step m o w).2).
    destruct (step_registry m o w names Hreg) as [Hm Hreg1].
    rewrite <- Hm in Hreg1.
    destruct (IH _ _ _ Hreg1) as [Hm2 Hreg2].
    rewrite Hm in Hm2, Hreg2. split; [done|].
    change (o :: ops) with ([o] ++ ops).
    by rewrite created_names_app, app_assoc.
Qed.

(** A mutation of the dict at [d] touches that dict only. *)
Lemma mutate_frame d mu w :
  let w' := (mutate d mu w).2 in
  metrics_heap w' = metrics_heap w
  ∧ instruments w' = instruments w
  ∧ providers w' = providers w
  ∧ global_meter_provider w' = global_meter_provider w
  ∧ length (dict_heap w') = length (dict_heap w)
  ∧ ∀ d', d' ≠ d → dict_heap w' !! d' = dict_heap w !! d'.
Proof.
  destruct mu as [key value|key|]; cbn [mutate];
    unfold dict_setitem, dict_delitem, dict_clear, bind, load_dict;
    destruct (dict_heap w !! d) as [reg|]; cbn [of_option ret stuck snd];
    try done.
  - repeat split; cbn; [by rewrite length_insert|].
    intros d' Hne. by apply list_lookup_insert_ne.
  - destruct (reg !! key); cbn; [|done].
    repeat split; [by rewrite length_insert|].
    intros d' Hne. by apply list_lookup_insert_ne.
  - repeat split; cbn; [by rewrite length_insert|].
    intros d' Hne. by apply list_lookup_insert_ne.
Qed.

Lemma mutate_all_frame d mus w :
  let w' := mutate_all d mus w in
  metrics_heap w' = metrics_heap w
  ∧ instruments w' = instruments w
  ∧ providers w' = providers w
  ∧ global_meter_provider w' = global_meter_provider w
  ∧ length (dict_heap w') = length (dict_heap w)
  ∧ ∀ d', d' ≠ d → dict_heap w' !! d' = dict_heap w !! d'.
Proof.
  revert w. induction mus as [|mu mus IH]; intros w; [done|].
  change (mutate_all d (mu :: mus) w)
    with (mutate_all d mus (mutate d mu w).2).
  destruct (IH (mutate d mu w).2) as (H1 & H2 & H3 & H4 & H5 & H6).
  destruct (mutate_frame d mu w) as (G1 & G2 & G3 & G4 & G5 & G6).
  cbn zeta. rewrite H1, H2, H3, H4, H5. repeat split; try done.
  intros d' Hne. rewrite H6 by done. by apply G6.
Qed.

(** ** Shutdown *)


Lemma shutdown_halted m w :
  (∀ p, MetricsManager._meter_provider m = Some p → halted p w) →
  (MetricsManager.shutdown m w).2 = w.
Proof.
  intros Hh. unfold MetricsManager.shutdown.
  destruct (MetricsManager._meter_provider m) as [p|]; [|done].
  unfold SdkOps.shutdown. destruct (providers w !! p) as [mp|] eqn:Hp; [|done].
  by rewrite (Hh p eq_refl mp Hp).
Qed.

Lemma halted_after_shutdown m p w :
  MetricsManager._meter_provider m = Some p →
  halted p (MetricsManager.shutdown m w).2.
Proof.
  intros Hm. unfold MetricsManager.shutdown, SdkOps.shutdown. rewrite Hm.
  destruct (providers w !! p) as [mp|] eqn:Hp.
  - destruct (Sdk.stopped mp) eqn:Hs; cbn [snd].
    + intros mp' Hp'. congruence.
    + intros mp' Hp'. cbn in Hp'.
      rewrite list_lookup_insert_eq in Hp' by (by eapply lookup_lt_Some).
      by injection Hp' as <-.
  - intros mp' Hp'. cbn in Hp'. congruence.
Qed.

Lemma shutdown_twice m w :
  MetricsManager.shutdown m (MetricsManager.shutdown m w).2
  = ((MetricsManager.shutdown m w).1, (MetricsManager.shutdown m w).2).
Proof.
  unfold MetricsManager.shutdown.
  destruct (MetricsManager._meter_provider m) as [p|]; [|done].
  unfold SdkOps.shutdown. destruct (providers w !! p) as [mp|] eqn:Hp.
  - destruct (Sdk.stopped mp) eqn:Hs; cbn [fst snd].
    + by rewrite Hp, Hs.
    + cbn. rewrite list_lookup_insert_eq by (by eapply lookup_lt_Some).
      done.
  - cbn [fst snd]. by rewrite Hp.
Qed.

Lemma tick_halted p w : halted p w → (SdkOps.tick p w).2 = w.
Proof.
  intros Hh. unfold SdkOps.tick.
  destruct (providers w !! p) as [mp|] eqn:Hp; [|done].
  by rewrite (Hh mp Hp).
Qed.

Lemma step_halted m p o w :
  MetricsManager._meter_provider m = Some p →
  is_setup o = false →
  halted p w →
  (step m o w).1 = m ∧ halted p (step m o w).2.
Proof.
  intros Hm Ho Hh.
  assert (Hsame : ∀ w', providers w' = providers w → halted p w').
  { intros w' Hw' mp. rewrite Hw'. apply Hh. }
  destruct o as [|k name description unit|self value attributes|name| | |];
    [done|..]; cbn [step fst snd].
  - split; [done|]. apply Hsame. rewrite create_of_create.
    apply create_providers.
  - split; [done|]. apply Hsame. apply record_frame.
  - split; [done|]. apply Hsame.
    unfold MetricsManager.get_metric, bind, load_dict.
    by destruct (dict_heap w !! _).
  - split; [done|]. apply Hsame.
    unfold MetricsManager.list_metrics, bind, load_dict.
    by destruct (dict_heap w !! _).
  - rewrite Hm. cbn [fst snd]. split; [done|]. by rewrite tick_halted.
  - split; [done|]. rewrite shutdown_halted; [done|].
    intros p' Hp'. rewrite Hm in Hp'. by injection Hp' as <-.
Qed.

Lemma steps_halted m p ops w :
  MetricsManager._meter_provider m = Some p →
  Forall (fun o => is_setup o = false) ops →
  halted p w →
  (steps m ops w).1 = m ∧ halted p (steps m ops w).2.
Proof.
  intros Hm Hops. revert w. induction Hops as [|o ops Ho _ IH]; intros w Hh.
  - done.
  - cbn [steps]. destruct (step_halted m p o w Hm Ho Hh) as [Hm1 Hh1].
    cbn zeta. rewrite Hm1. by apply IH.
Qed.

Lemma steps_no_provider m ops w :
  MetricsManager._meter_provider m = None →
  Forall (fun o => is_setup o = false) ops →
  (steps m ops w).1 = m.
Proof.
  intros Hm Hops. revert w. induction Hops as [|o ops Ho _ IH]; intros w.
  - done.
  - cbn [steps]. cbn zeta.
    assert (Hm1 : (step m o w).1 = m).
    { destruct o; try done. cbn [step]. by rewrite Hm. }
    rewrite Hm1. apply IH.
Qed.







(** ** Claims about the manager *)

(** C5, as amended.  With the meter set up, every [create_*] call
    returns, whether or not the name is already registered and whatever
    the kind of the registered object: it constructs a new object of the
    requested kind at an address the store did not hold, returns it, and
    makes the registry entry of the name point to it.  Entries of other
    names and the objects already in the store are left as they were. *)
Theorem create_replaces_entry m p reg w k name description unit :
  MetricsManager._meter m = Some p →
  dict_heap w !! MetricsManager._metrics m = Some reg →
  let new := length (metrics_heap w) in
  let w' := (create_of k m name description unit w).2 in
  create_of k m name description unit w = (Ok new, w')
  ∧ metrics_heap w !! new = None
  ∧ (∃ obj, metrics_heap w' !! new = Some obj
            ∧ kind_of obj = k
            ∧ BaseMetric.name (base_of obj) = name)
  ∧ MetricsManager.get_metric m name w' = (Ok (Some new), w')
  ∧ (∀ other, other ≠ name →
              MetricsManager.get_metric m other w' = (Ok (reg !! other), w'))
  ∧ (∀ l obj, metrics_heap w !! l = Some obj →
              metrics_heap w' !! l = Some obj).
Proof.
  intros Hm Hd new w'. subst new w'.
  rewrite create_of_create, (create_spec _ _ _ _ _ _ Hm Hd). cbn [snd].
  assert (Hreg : dict_heap
                   (created m p reg name
                      (new_object k name description unit) w)
                   !! MetricsManager._metrics m
                 = Some (<[name := length (metrics_heap w)]> reg)).
  { cbn. apply list_lookup_insert_eq. by eapply lookup_lt_Some. }
  split; [done|]. split; [by apply lookup_ge_None|]. split.
  { eexists. split; [apply lookup_snoc_length|]. by destruct k. }
  split.
  { rewrite (get_metric_spec _ _ _ _ Hreg). by rewrite lookup_insert_eq. }
  split.
  { intros other Hne. rewrite (get_metric_spec _ _ _ _ Hreg).
    by rewrite lookup_insert_ne. }
  intros l obj Hl. cbn. by apply lookup_app_l_Some.
Qed.

Lemma create_replaces_entry_witness :
  let new := length (metrics_heap requests_world) in
  let w' := (create_of GAUGE demo_manager "requests_total" "Requests" "1"
               requests_world).2 in
  create_of GAUGE demo_manager "requests_total" "Requests" "1" requests_world
  = (Ok new, w')
  ∧ metrics_heap requests_world !! new = None
  ∧ (∃ obj, metrics_heap w' !! new = Some obj
            ∧ kind_of obj = GAUGE
            ∧ BaseMetric.name (base_of obj) = "requests_total"%string)
  ∧ MetricsManager.get_metric demo_manager "requests_total" w'
    = (Ok (Some new), w')
  ∧ (∀ other, other ≠ "requests_total"%string →
              MetricsManager.get_metric demo_manager other w'
              = (Ok (({["requests_total"%string := 0%nat]} : gmap string nat)
                       !! other), w'))
  ∧ (∀ l obj, metrics_heap requests_world !! l = Some obj →
              metrics_heap w' !! l = Some obj).
Proof.
  apply (create_replaces_entry demo_manager 0
           {["requests_total"%string := 0%nat]} requests_world GAUGE).
  - reflexivity.
  - vm_compute. reflexivity.
Defined.

(** C5, counterexample.  "requests_total" is registered as the counter at
    address 0.  Creating a gauge under that name does not fail: it
    returns the new object 1 and the registry now answers 1.  Creating a
    counter under that name does not return the registered object 0 but
    a new one, which replaces it as well. *)
Lemma duplicate_name_counterexample :
  MetricsManager.get_metric demo_manager "requests_total" requests_world
  = (Ok (Some 0%nat), requests_world)
  ∧ (∃ w', MetricsManager.create_gauge demo_manager "requests_total"
             "Requests" "1" requests_world = (Ok 1%nat, w')
           ∧ MetricsManager.get_metric demo_manager "requests_total" w'
             = (Ok (Some 1%nat), w'))
  ∧ (∃ w', MetricsManager.create_counter demo_manager "requests_total"
             "Total number of requests" "1" requests_world = (Ok 1%nat, w')
           ∧ MetricsManager.get_metric demo_manager "requests_total" w'
             = (Ok (Some 1%nat), w')).
Proof.
  split; [by vm_compute|].
  split; eexists; split; vm_compute; reflexivity.
Qed.




(** "errors_total" was never created, "requests_total" was: recording
    under the first name fails and changes nothing, recording under the
    second reaches the counter. *)
Example record_by_name_requests :
  record_by_name demo_manager "errors_total" (PInt 1) (Some GET)
    requests_world
  = (Raise (AttributeError "'NoneType' object has no attribute 'record'"),
     requests_world)
  ∧ record_by_name demo_manager "requests_total" (PInt 1) (Some GET)
      requests_world
    = record 0 (PInt 1) (Some GET) requests_world.
Proof. split; vm_compute; reflexivity. Qed.

(** C10.  [list_metrics] returns a new dict object with the entries of
    the registry.  Whatever a caller then does to that dict (setting,
    deleting, clearing entries), the registry dict of the manager, every
    metric object and the SDK state stay as they were, and [get_metric]
    answers as before. *)
Theorem list_metrics_returns_copy m reg w mus :
  dict_heap w !! MetricsManager._metrics m = Some reg →
  let d := length (dict_heap w) in
  let w1 := (MetricsManager.list_metrics m w).2 in
  let w2 := mutate_all d mus w1 in
  MetricsManager.list_metrics m w = (Ok d, w1)
  ∧ d ≠ MetricsManager._metrics m
  ∧ dict_heap w1 !! d = Some reg
  ∧ dict_heap w1 !! MetricsManager._metrics m = Some reg
  ∧ dict_heap w2 !! MetricsManager._metrics m = Some reg
  ∧ metrics_heap w2 = metrics_heap w
  ∧ instruments w2 = instruments w
  ∧ providers w2 = providers w
  ∧ ∀ name, MetricsManager.get_metric m name w2 = (Ok (reg !! name), w2).
Proof.
  intros Hd d w1 w2.
  assert (Hlist : MetricsManager.list_metrics m w
                  = (Ok d, set_dict_heap (dict_heap w ++ [reg]) w)).
  { unfold MetricsManager.list_metrics, bind, load_dict. by rewrite Hd. }
  assert (Hne : d ≠ MetricsManager._metrics m).
  { apply lookup_lt_Some in Hd. subst d. lia. }
  subst w2 w1. rewrite Hlist. cbn [snd].
  destruct (mutate_all_frame d mus (set_dict_heap (dict_heap w ++ [reg]) w))
    as (H1 & H2 & H3 & _ & _ & H6).
  assert (Hreg1 : dict_heap (set_dict_heap (dict_heap w ++ [reg]) w)
                    !! MetricsManager._metrics m = Some reg).
  { cbn. by apply lookup_app_l_Some. }
  assert (Hreg2 : dict_heap
                    (mutate_all d mus (set_dict_heap (dict_heap w ++ [reg]) w))
                    !! MetricsManager._metrics m = Some reg).
  { rewrite H6 by done. exact Hreg1. }
  repeat split; try done.
  - cbn. apply lookup_snoc_length.
  - intros name. by apply get_metric_spec.
Qed.

Lemma list_metrics_returns_copy_witness :
  let d := length (dict_heap requests_world) in
  let w1 := (MetricsManager.list_metrics demo_manager requests_world).2 in
  let w2 := mutate_all d demo_mutations w1 in
  MetricsManager.list_metrics demo_manager requests_world = (Ok d, w1)
  ∧ d ≠ MetricsManager._metrics demo_manager
  ∧ dict_heap w1 !! d = Some {["requests_total"%string := 0%nat]}
  ∧ dict_heap w1 !! MetricsManager._metrics demo_manager
    = Some {["requests_total"%string := 0%nat]}
  ∧ dict_heap w2 !! MetricsManager._metrics demo_manager
    = Some {["requests_total"%string := 0%nat]}
  ∧ metrics_heap w2 = metrics_heap requests_world
  ∧ instruments w2 = instruments requests_world
  ∧ providers w2 = providers requests_world
  ∧ ∀ name, MetricsManager.get_metric demo_manager name w2
            = (Ok (({["requests_total"%string := 0%nat]} : gmap string nat)
                     !! name), w2).
Proof.
  apply (list_metrics_returns_copy demo_manager
           {["requests_total"%string := 0%nat]} requests_world demo_mutations).
  vm_compute. reflexivity.
Defined.

(** The copy does change under the caller's mutations, and the same
    mutations applied to the manager's own dict would empty the
    registry. *)
Example copy_is_mutated :
  dict_heap
    (mutate_all 1 demo_mutations
       (MetricsManager.list_metrics demo_manager requests_world).2) !! 1%nat
  = Some ∅
  ∧ dict_heap (mutate_all 0 demo_mutations requests_world) !! 0%nat = Some ∅.
Proof. split; vm_compute; reflexivity. Qed.

(** ** Claims about shutdown *)

(** C8.  A second [shutdown] returns what the first returned and leaves
    the store exactly as the first left it.  The same holds when other
    calls (anything but [setup]) are made in between: the manager is the
    same and a further [shutdown] changes nothing. *)
Theorem shutdown_idempotent m w ops :
  Forall (fun o => is_setup o = false) ops →
  let w1 := (MetricsManager.shutdown m w).2 in
  MetricsManager.shutdown m w1 = ((MetricsManager.shutdown m w).1, w1)
  ∧ (steps m ops w1).1 = m
  ∧ (MetricsManager.shutdown m (steps m ops w1).2).2 = (steps m ops w1).2.
Proof.
  intros Hops w1. subst w1. split; [apply shutdown_twice|].
  destruct (MetricsManager._meter_provider m) as [p|] eqn:Hm.
  - destruct (steps_halted m p ops _ Hm Hops (halted_after_shutdown m p w Hm))
      as [Hm1 Hh]. split; [done|].
    apply shutdown_halted. intros p' Hp'. rewrite Hm in Hp'.
    by injection Hp' as <-.
  - split; [by apply steps_no_provider|].
    unfold MetricsManager.shutdown at 1. by rewrite Hm.
Qed.

Lemma shutdown_idempotent_witness :
  let w1 := (MetricsManager.shutdown demo_manager requests_world).2 in
  MetricsManager.shutdown demo_manager w1
  = ((MetricsManager.shutdown demo_manager requests_world).1, w1)
  ∧ (steps demo_manager late_ops w1).1 = demo_manager
  ∧ (MetricsManager.shutdown demo_manager (steps demo_manager late_ops w1).2).2
    = (steps demo_manager late_ops w1).2.
Proof.
  apply (shutdown_idempotent demo_manager requests_world late_ops).
  repeat constructor.
Defined.

(** The first [shutdown] is not a no-op: it hands the final batch over and
    stops the provider. *)
Example first_shutdown_flushes :
  providers (MetricsManager.shutdown demo_manager
               (run 0 0 requests requests_world).2).2 !! 0%nat
  = Some (Sdk.mkProvider
            (ObservabilityConfig.to_resource_attributes
               ObservabilityConfig.default)
            "http://localhost:4317" 5000
            [[Sdk.mkPoint 0 "requests_total" POST (Sdk.SumValue (PInt 2));
              Sdk.mkPoint 0 "requests_total" GET (Sdk.SumValue (PInt 3))]]
            true).
Proof. vm_compute. reflexivity. Qed.




(** * Further properties *)

(** ** Up-down counters *)







Example pool_snapshot :
  SdkOps.snapshot 0 (run 0 0 pool_changes pool_world).2
  = [Sdk.mkPoint 0 "demo_resource_pool" GET (Sdk.SumValue (PInt (-3)));
     Sdk.mkPoint 0 "demo_resource_pool" ∅ (Sdk.SumValue (PInt 1))].
Proof. vm_compute. reflexivity. Qed.

(** ** Histograms *)

Lemma reported_hist p w i a ins s :
  instruments w !! i = Some ins →
  Sdk.i_provider ins = p →
  Sdk.i_agg ins = Sdk.Histogram s →
  reported (SdkOps.snapshot p w) i a
  = match s !! a with Some vs => [Sdk.HistogramValue vs] | None => [] end.
Proof.
  intros Hins Hp Hagg. rewrite (reported_instrument _ _ _ _ _ Hins Hp).
  unfold SdkOps.points_of. rewrite Hagg, filter_fmap.
  rewrite (list_filter_iff _ (fun kv => kv.1 = a)) by done.
  rewrite filter_key_map_to_list. by destruct (s !! a).
Qed.









Example durations_snapshot :
  Sdk.p_value <$> SdkOps.snapshot 0 (run 0 0 durations durations_world).2
  = [Sdk.HistogramValue [PInt 2];
     Sdk.HistogramValue
       [PFloat (float_lit 1 (-3)); PFloat (float_lit 3 (-2));
        PFloat (float_lit 1 (-1))]].
Proof. vm_compute. reflexivity. Qed.

(** ** The registry between creations *)

Lemma step_lookup m o w reg name :
  dict_heap w !! MetricsManager._metrics m = Some reg →
  name ∉ created_names [o] →
  MetricsManager._metrics (step m o w).1 = MetricsManager._metrics m
  ∧ ∃ reg', dict_heap (step m o w).2 !! MetricsManager._metrics m = Some reg'
            ∧ reg' !! name = reg !! name.
Proof.
  intros Hd Hname.
  assert (Hsame : ∀ w', dict_heap w' = dict_heap w →
            ∃ reg', dict_heap w' !! MetricsManager._metrics m = Some reg'
                    ∧ reg' !! name = reg !! name).
  { intros w' Hw'. exists reg. by rewrite Hw'. }
  destruct o as [|k name' description unit|self value attributes|name'| | |];
    cbn [step created_names fst snd] in *.
  - rewrite setup_spec. cbn [fst snd MetricsManager._metrics]. split; [done|].
    by apply Hsame.
  - split; [done|]. rewrite create_of_create.
    destruct (MetricsManager._meter m) as [meter|] eqn:Hm.
    + rewrite (create_spec _ _ _ _ _ _ Hm Hd). cbn [snd].
      exists (<[name' := length (metrics_heap w)]> reg). split.
      * cbn. apply list_lookup_insert_eq. by eapply lookup_lt_Some.
      * apply lookup_insert_ne. intros ->. apply Hname. by left.
    + apply Hsame. by apply create_raises.
  - split; [done|]. apply Hsame. apply record_frame.
  - split; [done|]. apply Hsame. by rewrite (get_metric_spec _ _ _ _ Hd).
  - split; [done|]. unfold MetricsManager.list_metrics, bind, load_dict.
    rewrite Hd. cbn. exists reg. split; [by apply lookup_app_l_Some|done].
  - destruct (MetricsManager._meter_provider m) as [p|]; cbn [fst snd];
      (split; [done|]); apply Hsame; [apply tick_frame|done].
  - split; [done|]. apply Hsame. apply shutdown_frame.
Qed.

Lemma steps_lookup m ops w reg name :
  dict_heap w !! MetricsManager._metrics m = Some reg →
  name ∉ created_names ops →
  MetricsManager._metrics (steps m ops w).1 = MetricsManager._metrics m
  ∧ ∃ reg', dict_heap (steps m ops w).2 !! MetricsManager._metrics m
            = Some reg'
            ∧ reg' !! name = reg !! name.
Proof.
  revert m w reg. induction ops as [|o ops IH]; intros m w reg Hd Hname.
  - cbn. eauto.
  - change (o :: ops) with ([o] ++ ops) in Hname.
    rewrite created_names_app in Hname.
    apply not_elem_of_app in Hname as [Hname1 Hname2].
    destruct (step_lookup m o w reg name Hd Hname1)
      as (Hm & reg1 & Hd1 & Hreg1).
    cbn [steps]. cbn zeta. rewrite <- Hm in Hd1.
    destruct (IH _ _ _ Hd1 Hname2) as (Hm2 & reg2 & Hd2 & Hreg2).
    rewrite Hm in Hm2, Hd2. split; [done|].
    exists reg2. split; [done|]. congruence.
Qed.

(** X4.  What [get_metric] answers for a name changes only when that
    name is created again: after any sequence of calls that does not
    create the name ([setup], creating other names, [record] on any
    object, [list_metrics], export ticks, [shutdown]), it returns what the
    registry held for the name before. *)
Theorem get_metric_stable_between_creations m reg w ops name :
  dict_heap w !! MetricsManager._metrics m = Some reg →
  name ∉ created_names ops →
  let m' := (steps m ops w).1 in
  let w' := (steps m ops w).2 in
  MetricsManager.get_metric m' name w' = (Ok (reg !! name), w').
Proof.
  intros Hd Hname m' w'. subst m' w'.
  destruct (steps_lookup m ops w reg name Hd Hname) as (Hm & reg' & Hd' & Hreg).
  rewrite <- Hm in Hd'. rewrite (get_metric_spec _ _ _ _ Hd'). by rewrite Hreg.
Qed.

Lemma get_metric_stable_between_creations_witness :
  let m' := (steps demo_manager late_ops requests_world).1 in
  let w' := (steps demo_manager late_ops requests_world).2 in
  MetricsManager.get_metric m' "requests_total" w'
  = (Ok (({["requests_total"%string := 0%nat]} : gmap string nat)
           !! "requests_total"%string), w').
Proof.
  apply (get_metric_stable_between_creations demo_manager
           {["requests_total"%string := 0%nat]} requests_world late_ops).
  - vm_compute. reflexivity.
  - cbn. by intros [=]%list_elem_of_singleton.
Defined.

(** ** Creation needs setup *)

Lemma create_unset m name obj w :
  MetricsManager._meter m = None →
  create_with m name obj w
  = (Raise (RuntimeError "Metrics not initialized. Call setup() first."),
     set_metrics_heap (metrics_heap w ++ [obj]) w).
Proof.
  intros Hm. unfold create_with, MetricsManager.get_meter. by rewrite Hm.
Qed.

Lemma step_meter m o w :
  MetricsManager._meter (step m o w).1
  = if is_setup o then Some (length (providers w))
    else MetricsManager._meter m.
Proof.
  destruct o; cbn [step is_setup fst]; try done.
  destruct (MetricsManager._meter_provider m); done.
Qed.

Lemma steps_meter_none m ops w :
  MetricsManager._meter m = None →
  existsb is_setup ops = false →
  MetricsManager._meter (steps m ops w).1 = None.
Proof.
  revert m w. induction ops as [|o ops IH]; intros m w Hm Hops; [done|].
  cbn [existsb] in Hops. apply orb_false_iff in Hops as [Ho Hops].
  cbn [steps]. cbn zeta. apply IH; [|done].
  by rewrite step_meter, Ho.
Qed.

Lemma steps_meter_some m ops w :
  is_Some (MetricsManager._meter m) ∨ existsb is_setup ops = true →
  is_Some (MetricsManager._meter (steps m ops w).1).
Proof.
  revert m w. induction ops as [|o ops IH]; intros m w Hm.
  - destruct Hm as [Hm|Hm]; [done|discriminate].
  - cbn [steps]. cbn zeta. apply IH.
    rewrite step_meter. cbn [existsb] in Hm.
    destruct (is_setup o); [left; eauto|].
    destruct Hm as [Hm|Hm]; [by left|by right].
Qed.

(** With no successful creation the registry stays empty. *)
Lemma steps_registry_empty m ops w :
  MetricsManager._meter m = None →
  existsb is_setup ops = false →
  dict_heap w !! MetricsManager._metrics m = Some ∅ →
  MetricsManager._metrics (steps m ops w).1 = MetricsManager._metrics m
  ∧ dict_heap (steps m ops w).2 !! MetricsManager._metrics m = Some ∅.
Proof.
  revert m w. induction ops as [|o ops IH]; intros m w Hm Hops Hd; [done|].
  cbn [existsb] in Hops. apply orb_false_iff in Hops as [Ho Hops].
  cbn [steps]. cbn zeta.
  assert (Hstep : (step m o w).1 = m
                  ∧ dict_heap (step m o w).2 !! MetricsManager._metrics m
                    = Some ∅).
  { destruct o as [|k name' description unit|self value attributes|name'| | |];
      [done|..]; cbn [step fst snd]; (split; [try done|]).
    - rewrite create_of_create, (create_unset _ _ _ _ Hm). done.
    - by destruct (record_frame self value attributes w) as [-> _].
    - by rewrite (get_metric_spec _ _ _ _ Hd).
    - unfold MetricsManager.list_metrics, bind, load_dict.
      rewrite Hd. cbn. by apply lookup_app_l_Some.
    - by destruct (MetricsManager._meter_provider m).
    - destruct (MetricsManager._meter_provider m); [|done]. cbn [snd].
      by destruct (tick_frame n w) as [_ ->].
    - by destruct (shutdown_frame m w) as [_ ->]. }
  destruct Hstep as [-> Hd1]. by apply IH.
Qed.

(** X3.  Starting from a manager that [__init__] constructed, a
    [create_*] call returns exactly when [setup] has been called before
    it.  Before [setup] every [create_*] raises [RuntimeError] and the
    registry is empty, before and after the failed call; once [setup] has
    been called every [create_*] returns a new object and [get_metric]
    finds it under the name. *)
Theorem create_needs_setup config w0 m w1 ops k name description unit :
  MetricsManager.__init__ config w0 = (Ok m, w1) →
  let m' := (steps m ops w1).1 in
  let w' := (steps m ops w1).2 in
  if existsb is_setup ops
  then ∃ w'', create_of k m' name description unit w'
              = (Ok (length (metrics_heap w')), w'')
              ∧ MetricsManager.get_metric m' name w''
                = (Ok (Some (length (metrics_heap w'))), w'')
  else (∃ w'', create_of k m' name description unit w'
               = (Raise (RuntimeError
                           "Metrics not initialized. Call setup() first."),
                  w'')
               ∧ ∀ n, MetricsManager.get_metric m' n w'' = (Ok None, w''))
       ∧ ∀ n, MetricsManager.get_metric m' n w' = (Ok None, w').
Proof.
  intros Hinit m' w'. subst m' w'.
  unfold MetricsManager.__init__, bind, new_dict in Hinit.
  cbn in Hinit. injection Hinit as <- <-.
  set (m := MetricsManager.mk _ _ _ _).
  set (w1 := set_dict_heap _ _).
  assert (Hd1 : dict_heap w1 !! MetricsManager._metrics m = Some ∅)
    by apply lookup_snoc_length.
  destruct (existsb is_setup ops) eqn:Hops.
  - destruct (steps_meter_some m ops w1 (or_intror Hops)) as [meter Hmeter].
    destruct (steps_registry m ops w1 []) as [Hm (reg & Hd & _)].
    { exists ∅. split; [done|]. intros n [x Hx]. by rewrite lookup_empty in Hx. }
    rewrite <- Hm in Hd.
    rewrite create_of_create, (create_spec _ _ _ _ _ _ Hmeter Hd).
    eexists. split; [done|].
    erewrite get_metric_spec.
    2:{ cbn. apply list_lookup_insert_eq. by eapply lookup_lt_Some. }
    by rewrite lookup_insert_eq.
  - pose proof (steps_meter_none m ops w1 eq_refl Hops) as Hmeter.
    destruct (steps_registry_empty m ops w1 eq_refl Hops Hd1) as [Hm Hd].
    rewrite <- Hm in Hd. split.
    + rewrite create_of_create, (create_unset _ _ _ _ Hmeter).
      eexists. split; [done|]. intros n.
      erewrite get_metric_spec; [|exact Hd]. by rewrite lookup_empty.
    + intros n. erewrite get_metric_spec; [|exact Hd]. by rewrite lookup_empty.
Qed.

Lemma create_needs_setup_witness :
  let m' := (steps (MetricsManager.mk ObservabilityConfig.default None None 0)
               [OpCreate COUNTER "early" "Created too early" "1"; OpShutdown]
               (MetricsManager.__init__ ObservabilityConfig.default
                  empty_world).2).1 in
  let w' := (steps (MetricsManager.mk ObservabilityConfig.default None None 0)
               [OpCreate COUNTER "early" "Created too early" "1"; OpShutdown]
               (MetricsManager.__init__ ObservabilityConfig.default
                  empty_world).2).2 in
  if existsb is_setup
       [OpCreate COUNTER "early" "Created too early" "1"; OpShutdown]
  then ∃ w'', create_of GAUGE m' "cpu_usage_percent" "CPU" "%" w'
              = (Ok (length (metrics_heap w')), w'')
              ∧ MetricsManager.get_metric m' "cpu_usage_percent" w''
                = (Ok (Some (length (metrics_heap w'))), w'')
  else (∃ w'', create_of GAUGE m' "cpu_usage_percent" "CPU" "%" w'
               = (Raise (RuntimeError
                           "Metrics not initialized. Call setup() first."),
                  w'')
               ∧ ∀ n, MetricsManager.get_metric m' n w'' = (Ok None, w''))
       ∧ ∀ n, MetricsManager.get_metric m' n w' = (Ok None, w').
Proof.
  apply (create_needs_setup ObservabilityConfig.default empty_world).
  reflexivity.
Defined.

(** ** Objects and instruments keep their kind *)

Lemma same_object_refl o : same_object o o.
Proof. by split. Qed.

Lemma same_shape_refl ins : same_shape ins ins.
Proof. split; [done|]. by destruct (Sdk.i_agg ins). Qed.

Lemma Forall2_diag {A} (R : A → A → Prop) (l : list A) :
  (∀ x, R x x) → Forall2 R l l.
Proof. intros HR. induction l; constructor; auto. Qed.

Lemma same_shape_set_sum ins monotonic s s' :
  Sdk.i_agg ins = Sdk.Sum monotonic s →
  same_shape ins (SdkOps.set_agg (Sdk.Sum monotonic s') ins).
Proof. intros Hagg. split; [done|]. cbn. by rewrite Hagg. Qed.

Lemma same_shape_set_hist ins s s' :
  Sdk.i_agg ins = Sdk.Histogram s →
  same_shape ins (SdkOps.set_agg (Sdk.Histogram s') ins).
Proof. intros Hagg. split; [done|]. cbn. by rewrite Hagg. Qed.

Lemma same_shape_reset p ins : same_shape ins (SdkOps.reset_instrument p ins).
Proof.
  unfold SdkOps.reset_instrument.
  destruct (Sdk.i_agg ins) eqn:Hagg; try apply same_shape_refl.
  destruct (decide _); [|apply same_shape_refl].
  by eapply same_shape_set_hist.
Qed.

Lemma Forall2_insert_r {A} (R : A → A → Prop) (l : list A) i x y :
  (∀ z, R z z) → l !! i = Some x → R x y → Forall2 R l (<[i := y]> l).
Proof.
  intros HR Hl Hxy. rewrite <- (list_insert_id l i x Hl) at 1.
  apply Forall2_insert; [by apply Forall2_diag|done].
Qed.

Lemma evolves_refl w : evolves w w.
Proof.
  split; apply Forall2_diag; [apply same_object_refl|apply same_shape_refl].
Qed.

Lemma add_evolves i value attributes w :
  evolves w (SdkOps.add i value attributes w).2.
Proof.
  unfold SdkOps.add.
  destruct (instruments w !! i) as [ins|] eqn:Hins; [|apply evolves_refl].
  destruct (Sdk.i_agg ins) eqn:Hagg; try apply evolves_refl.
  split; cbn; [apply Forall2_diag, same_object_refl|].
  eapply Forall2_insert_r; [apply same_shape_refl|done|].
  by eapply same_shape_set_sum.
Qed.

Lemma sdk_record_evolves i value attributes w :
  evolves w (SdkOps.record i value attributes w).2.
Proof.
  unfold SdkOps.record.
  destruct (instruments w !! i) as [ins|] eqn:Hins; [|apply evolves_refl].
  destruct (Sdk.i_agg ins) eqn:Hagg; try apply evolves_refl.
  split; cbn; [apply Forall2_diag, same_object_refl|].
  eapply Forall2_insert_r; [apply same_shape_refl|done|].
  by eapply same_shape_set_hist.
Qed.

Lemma record_evolves self value attributes w :
  evolves w (record self value attributes w).2.
Proof.
  unfold record, bind, load_metric.
  destruct (metrics_heap w !! self) as [[b|b|b cv|b]|] eqn:Hobj;
    cbn [of_option ret stuck]; [| | | |apply evolves_refl].
  - unfold CounterMetric_record.
    destruct (BaseMetric._instrument b); [|apply evolves_refl].
    destruct (lt_zero value); [apply evolves_refl|]. apply add_evolves.
  - unfold HistogramMetric_record.
    destruct (BaseMetric._instrument b); [|apply evolves_refl].
    apply sdk_record_evolves.
  - unfold GaugeMetric_record. destruct (float value); [apply evolves_refl|].
    split; cbn; [|apply Forall2_diag, same_shape_refl].
    eapply Forall2_insert_r; [apply same_object_refl|done|]. by split.
  - unfold UpDownCounterMetric_record.
    destruct (BaseMetric._instrument b); [|apply evolves_refl].
    apply add_evolves.
Qed.

Lemma export_evolves p stop mp w : evolves w (SdkOps.export p stop mp w).
Proof.
  split; cbn; [apply Forall2_diag, same_object_refl|].
  apply Forall2_fmap_r, Forall2_diag. apply same_shape_reset.
Qed.

Lemma tick_evolves p w : evolves w (SdkOps.tick p w).2.
Proof.
  unfold SdkOps.tick. destruct (providers w !! p) as [mp|]; [|apply evolves_refl].
  destruct (Sdk.stopped mp); [apply evolves_refl|apply export_evolves].
Qed.

Lemma shutdown_evolves m w : evolves w (MetricsManager.shutdown m w).2.
Proof.
  unfold MetricsManager.shutdown.
  destruct (MetricsManager._meter_provider m) as [p|]; [|apply evolves_refl].
  unfold SdkOps.shutdown.
  destruct (providers w !! p) as [mp|]; [|apply evolves_refl].
  destruct (Sdk.stopped mp); [apply evolves_refl|apply export_evolves].
Qed.

Lemma agg_matches_shape l k ins ins' :
  same_shape ins ins' →
  agg_matches l k (Sdk.i_agg ins) → agg_matches l k (Sdk.i_agg ins').
Proof.
  intros [_ Hshape].
  destruct k, (Sdk.i_agg ins) as [[]| |], (Sdk.i_agg ins') as [[]| |];
    cbn in *; congruence || done.
Qed.

Lemma bound_ok_evolves w w' : evolves w w' → bound_ok w → bound_ok w'.
Proof.
  intros [Hheap Hins] Hok l obj' i Hobj' Hi.
  destruct (Forall2_lookup_r _ _ _ _ _ Hheap Hobj') as (obj & Hobj & Hb & Hk).
  rewrite Hb in Hi. destruct (Hok l obj i Hobj Hi) as (ins & Hl & Hagg & Hn).
  destruct (Forall2_lookup_l _ _ _ _ _ Hins Hl) as (ins' & Hl' & Hshape).
  exists ins'. split; [done|]. split.
  - rewrite Hk. by eapply agg_matches_shape.
  - destruct Hshape as [-> _]. by rewrite Hb.
Qed.

Lemma registry_ok_evolves d w w' :
  evolves w w' → dict_heap w' !! d = dict_heap w !! d →
  registry_ok d w → registry_ok d w'.
Proof.
  intros [Hheap _] Hd (reg & Hreg & Hok). exists reg. split; [congruence|].
  intros n l Hn. destruct (Hok n l Hn) as (obj & Hobj & Hname & Hi).
  destruct (Forall2_lookup_l _ _ _ _ _ Hheap Hobj) as (obj' & Hobj' & Hb & _).
  exists obj'. by rewrite Hb.
Qed.

Lemma bound_ok_created m meter reg name obj w :
  bound_ok w → bound_ok (created m meter reg name obj w).
Proof.
  intros Hok l o i Hl Hi. cbn in Hl.
  apply lookup_app_Some in Hl as [Hl|[Hlen Hl]].
  - destruct (Hok l o i Hl Hi) as (ins & Hins & Hagg & Hn).
    exists ins. split; [|done]. cbn. by apply lookup_app_l_Some.
  - destruct (l - length (metrics_heap w))%nat eqn:Hsub; [|done].
    cbn in Hl. injection Hl as <-.
    assert (l = length (metrics_heap w)) as -> by lia.
    assert (i = length (instruments w)) as ->.
    { destruct obj; cbn in Hi; congruence. }
    eexists. split; [cbn; apply lookup_snoc_length|].
    by destruct obj.
Qed.

Lemma bound_ok_unbound obj w :
  BaseMetric._instrument (base_of obj) = None →
  bound_ok w → bound_ok (set_metrics_heap (metrics_heap w ++ [obj]) w).
Proof.
  intros Hnone Hok l o i Hl Hi. cbn in Hl.
  apply lookup_app_Some in Hl as [Hl|[Hlen Hl]].
  - by apply (Hok l o i).
  - destruct (l - length (metrics_heap w))%nat; [|done].
    cbn in Hl. injection Hl as <-. congruence.
Qed.

Lemma new_object_unbound k name description unit :
  BaseMetric._instrument (base_of (new_object k name description unit)) = None.
Proof. by destruct k. Qed.

Lemma registry_ok_created m meter reg k name description unit w :
  dict_heap w !! MetricsManager._metrics m = Some reg →
  registry_ok (MetricsManager._metrics m) w →
  registry_ok (MetricsManager._metrics m)
    (created m meter reg name (new_object k name description unit) w).
Proof.
  intros Hd (reg' & Hd' & Hok). rewrite Hd in Hd'. injection Hd' as <-.
  exists (<[name := length (metrics_heap w)]> reg). split.
  { cbn. apply list_lookup_insert_eq. by eapply lookup_lt_Some. }
  intros n l Hn. destruct (decide (n = name)) as [->|Hne].
  - rewrite lookup_insert_eq in Hn. injection Hn as <-.
    eexists. split; [cbn; apply lookup_snoc_length|]. by destruct k; eauto.
  - rewrite lookup_insert_ne in Hn by done.
    destruct (Hok n l Hn) as (obj & Hobj & Hrest).
    exists obj. split; [|done]. cbn. by apply lookup_app_l_Some.
Qed.

Lemma registry_ok_grows d obj w :
  registry_ok d w →
  registry_ok d (set_metrics_heap (metrics_heap w ++ [obj]) w).
Proof.
  intros (reg & Hd & Hok). exists reg. split; [done|].
  intros n l Hn. destruct (Hok n l Hn) as (o & Hobj & Hrest).
  exists o. split; [|done]. cbn. by apply lookup_app_l_Some.
Qed.

Lemma step_keeps_objects m o w :
  bound_ok w →
  registry_ok (MetricsManager._metrics m) w →
  MetricsManager._metrics (step m o w).1 = MetricsManager._metrics m
  ∧ bound_ok (step m o w).2
  ∧ registry_ok (MetricsManager._metrics m) (step m o w).2.
Proof.
  intros Hb Hr.
  assert (Hev : ∀ w', evolves w w' → dict_heap w' = dict_heap w →
            bound_ok w' ∧ registry_ok (MetricsManager._metrics m) w').
  { intros w' Hev Hd. split; [by eapply bound_ok_evolves|].
    eapply registry_ok_evolves; [done| |done]. by rewrite Hd. }
  destruct o as [|k name description unit|self value attributes|name| | |];
    cbn [step fst snd].
  - rewrite setup_spec. cbn [fst snd MetricsManager._metrics]. split; [done|].
    apply Hev; [|done]. destruct (evolves_refl w). by split.
  - split; [done|]. rewrite create_of_create.
    pose proof Hr as (reg & Hd & _).
    destruct (MetricsManager._meter m) as [meter|] eqn:Hm.
    + rewrite (create_spec _ _ _ _ _ _ Hm Hd). cbn [snd].
      split; [by apply bound_ok_created|by apply registry_ok_created].
    + rewrite (create_unset _ _ _ _ Hm). cbn [snd]. split.
      * apply bound_ok_unbound; [apply new_object_unbound|done].
      * by apply registry_ok_grows.
  - split; [done|]. apply Hev; [apply record_evolves|apply record_frame].
  - split; [done|]. destruct Hr as (reg & Hd & Hok).
    rewrite (get_metric_spec _ _ _ _ Hd). cbn [snd]. split; [done|].
    by exists reg.
  - split; [done|]. destruct Hr as (reg & Hd & Hok).
    unfold MetricsManager.list_metrics, bind, load_dict. rewrite Hd. cbn.
    split; [done|]. exists reg. split; [by apply lookup_app_l_Some|done].
  - destruct (MetricsManager._meter_provider m) as [p|]; cbn [fst snd];
      (split; [done|]); [|done].
    apply Hev; [apply tick_evolves|apply tick_frame].
  - split; [done|]. apply Hev; [apply shutdown_evolves|apply shutdown_frame].
Qed.

Lemma steps_keep_objects m ops w :
  bound_ok w →
  registry_ok (MetricsManager._metrics m) w →
  MetricsManager._metrics (steps m ops w).1 = MetricsManager._metrics m
  ∧ bound_ok (steps m ops w).2
  ∧ registry_ok (MetricsManager._metrics m) (steps m ops w).2.
Proof.
  revert m w. induction ops as [|o ops IH]; intros m w Hb Hr; [done|].
  cbn [steps]. cbn zeta.
  destruct (step_keeps_objects m o w Hb Hr) as (Hm & Hb1 & Hr1).
  rewrite <- Hm in Hr1. destruct (IH _ _ Hb1 Hr1) as (Hm2 & Hb2 & Hr2).
  rewrite Hm in Hm2, Hr2. done.
Qed.

(** On an object whose instrument exists, what [record] answers depends
    on the class and the value only. *)
Lemma record_outcome_bound w l obj value attributes :
  bound_ok w →
  metrics_heap w !! l = Some obj →
  is_Some (BaseMetric._instrument (base_of obj)) →
  (record l value attributes w).1 = record_outcome obj value.
Proof.
  intros Hok Hobj [i Hi].
  destruct (Hok l obj i Hobj Hi) as (ins & Hins & Hagg & _).
  unfold record, bind, load_metric. rewrite Hobj. cbn [of_option ret].
  destruct obj as [b|b|b cv|b]; cbn [base_of kind_of record_outcome] in *.
  - unfold CounterMetric_record. rewrite Hi.
    destruct (lt_zero value); [done|]. unfold SdkOps.add. rewrite Hins.
    by destruct (Sdk.i_agg ins) as [[]| |].
  - unfold HistogramMetric_record. rewrite Hi. unfold SdkOps.record.
    rewrite Hins. by destruct (Sdk.i_agg ins) as [[]| |].
  - unfold GaugeMetric_record, gauge_outcome. by destruct (float value).
  - unfold UpDownCounterMetric_record. rewrite Hi. unfold SdkOps.add.
    rewrite Hins. by destruct (Sdk.i_agg ins) as [[]| |].
Qed.

(** X5.  Starting from a manager that [__init__] constructed in a store
    whose objects are consistent, after any sequence of calls that
    creates no name twice and no name the store already holds: [record]
    on an object whose instrument has been created never finds the
    instrument missing or of another kind, so it never raises
    [RuntimeError]; on a counter a value below zero raises [ValueError],
    and on a gauge the answer is that of [float]; and every name that
    [get_metric] finds leads to an object of that name whose instrument
    exists, carries the same name and has the aggregation of the
    object's class. *)
Theorem registered_objects_stay_usable config w0 m w1 ops :
  bound_ok w0 →
  MetricsManager.__init__ config w0 = (Ok m, w1) →
  Forall (fun n => unused_name n w0) (created_names ops) →
  NoDup (lower <$> created_names ops) →
  let m' := (steps m ops w1).1 in
  let w' := (steps m ops w1).2 in
  (∀ l obj value attributes,
     metrics_heap w' !! l = Some obj →
     is_Some (BaseMetric._instrument (base_of obj)) →
     (record l value attributes w').1 ≠ Stuck
     ∧ (∀ msg, (record l value attributes w').1 ≠ Raise (RuntimeError msg))
     ∧ (kind_of obj = COUNTER → lt_zero value = true →
        (record l value attributes w').1
        = Raise (ValueError "Counter values must be non-negative"))
     ∧ (kind_of obj = GAUGE →
        (record l value attributes w').1 = gauge_outcome value))
  ∧ (∀ n l,
       MetricsManager.get_metric m' n w' = (Ok (Some l), w') →
       ∃ obj i ins,
         metrics_heap w' !! l = Some obj
         ∧ BaseMetric.name (base_of obj) = n
         ∧ BaseMetric._instrument (base_of obj) = Some i
         ∧ instruments w' !! i = Some ins
         ∧ Sdk.i_name ins = n
         ∧ agg_matches l (kind_of obj) (Sdk.i_agg ins)).
Proof.
  intros Hb0 Hinit _ _ m' w'. subst m' w'.
  unfold MetricsManager.__init__, bind, new_dict in Hinit.
  cbn in Hinit. injection Hinit as <- <-.
  set (m := MetricsManager.mk _ _ _ _).
  set (w1 := set_dict_heap _ _).
  destruct (steps_keep_objects m ops w1) as (Hm & Hb & reg & Hd & Hr).
  { intros l obj i Hl Hi. by apply (Hb0 l obj i). }
  { exists ∅. split; [apply lookup_snoc_length|]. intros n l Hn.
    by rewrite lookup_empty in Hn. }
  split.
  - intros l obj value attributes Hobj Hi.
    rewrite (record_outcome_bound _ _ _ value attributes Hb Hobj Hi).
    destruct obj as [b|b|b cv|b]; cbn [record_outcome kind_of].
    + destruct (lt_zero value); by repeat split.
    + by repeat split.
    + assert (Hg : gauge_outcome value ≠ Stuck
                   ∧ ∀ msg, gauge_outcome value ≠ Raise (RuntimeError msg)).
      { unfold gauge_outcome, float. destruct value as [z|f]; [|done].
        unfold float_of_int.
        by destruct (binary_normalize prec emax z 0 false). }
      destruct Hg. by repeat split.
    + by repeat split.
  - intros n l Hget. rewrite <- Hm in Hd.
    rewrite (get_metric_spec _ _ _ _ Hd) in Hget. injection Hget as Hn.
    destruct (Hr n l Hn) as (obj & Hobj & Hname & [i Hi]).
    destruct (Hb l obj i Hobj Hi) as (ins & Hins & Hagg & Hin).
    exists obj, i, ins. repeat split; try done. congruence.
Qed.

Lemma registered_objects_stay_usable_witness :
  let m' := (steps (MetricsManager.mk ObservabilityConfig.default None None 0)
               demo_ops
               (MetricsManager.__init__ ObservabilityConfig.default
                  empty_world).2).1 in
  let w' := (steps (MetricsManager.mk ObservabilityConfig.default None None 0)
               demo_ops
               (MetricsManager.__init__ ObservabilityConfig.default
                  empty_world).2).2 in
  (∀ l obj value attributes,
     metrics_heap w' !! l = Some obj →
     is_Some (BaseMetric._instrument (base_of obj)) →
     (record l value attributes w').1 ≠ Stuck
     ∧ (∀ msg, (record l value attributes w').1 ≠ Raise (RuntimeError msg))
     ∧ (kind_of obj = COUNTER → lt_zero value = true →
        (record l value attributes w').1
        = Raise (ValueError "Counter values must be non-negative"))
     ∧ (kind_of obj = GAUGE →
        (record l value attributes w').1 = gauge_outcome value))
  ∧ (∀ n l,
       MetricsManager.get_metric m' n w' = (Ok (Some l), w') →
       ∃ obj i ins,
         metrics_heap w' !! l = Some obj
         ∧ BaseMetric.name (base_of obj) = n
         ∧ BaseMetric._instrument (base_of obj) = Some i
         ∧ instruments w' !! i = Some ins
         ∧ Sdk.i_name ins = n
         ∧ agg_matches l (kind_of obj) (Sdk.i_agg ins)).
Proof.
  apply (registered_objects_stay_usable ObservabilityConfig.default
           empty_world).
  - intros l obj i Hl. vm_compute in Hl. discriminate.
  - reflexivity.
  - repeat constructor.
  - cbn. repeat constructor. by intros ?%elem_of_nil.
Defined.

(** ** What a [record] call leaves alone *)

Lemma add_only i value attributes w :
  let w' := (SdkOps.add i value attributes w).2 in
  metrics_heap w' = metrics_heap w
  ∧ global_meter_provider w' = global_meter_provider w
  ∧ ∀ j, j ≠ i → instruments w' !! j = instruments w !! j.
Proof.
  unfold SdkOps.add. destruct (instruments w !! i) as [ins|]; [|done].
  destruct (Sdk.i_agg ins); try done. cbn. repeat split.
  intros j Hne. by apply list_lookup_insert_ne.
Qed.

Lemma sdk_record_only i value attributes w :
  let w' := (SdkOps.record i value attributes w).2 in
  metrics_heap w' = metrics_heap w
  ∧ global_meter_provider w' = global_meter_provider w
  ∧ ∀ j, j ≠ i → instruments w' !! j = instruments w !! j.
Proof.
  unfold SdkOps.record. destruct (instruments w !! i) as [ins|]; [|done].
  destruct (Sdk.i_agg ins); try done. cbn. repeat split.
  intros j Hne. by apply list_lookup_insert_ne.
Qed.

(** Away from the object recorded on and from its instrument, a [record]
    call changes nothing. *)
Lemma record_elsewhere self value attributes w :
  let w' := (record self value attributes w).2 in
  global_meter_provider w' = global_meter_provider w
  ∧ (∀ l, l ≠ self → metrics_heap w' !! l = metrics_heap w !! l)
  ∧ (∀ j, (∀ obj, metrics_heap w !! self = Some obj →
                  BaseMetric._instrument (base_of obj) ≠ Some j) →
          instruments w' !! j = instruments w !! j).
Proof.
  intros w'. subst w'.
  unfold record, bind, load_metric.
  destruct (metrics_heap w !! self) as [[b|b|b cv|b]|] eqn:Hself;
    cbn [of_option ret stuck]; [| | | |done].
  - unfold CounterMetric_record.
    destruct (BaseMetric._instrument b) as [i|] eqn:Hi; [|done].
    destruct (lt_zero value); [done|].
    destruct (add_only i value (or_empty attributes) w) as (Hh & Hg & Hins).
    split; [done|]. split; [intros; by rewrite Hh|].
    intros j Hj. apply Hins. intros ->. by apply (Hj _ eq_refl).
  - unfold HistogramMetric_record.
    destruct (BaseMetric._instrument b) as [i|] eqn:Hi; [|done].
    destruct (sdk_record_only i value (or_empty attributes) w)
      as (Hh & Hg & Hins).
    split; [done|]. split; [intros; by rewrite Hh|].
    intros j Hj. apply Hins. intros ->. by apply (Hj _ eq_refl).
  - unfold GaugeMetric_record. destruct (float value); [done|].
    cbn. split; [done|]. split; [|done].
    intros l Hne. by apply list_lookup_insert_ne.
  - unfold UpDownCounterMetric_record.
    destruct (BaseMetric._instrument b) as [i|] eqn:Hi; [|done].
    destruct (add_only i value (or_empty attributes) w) as (Hh & Hg & Hins).
    split; [done|]. split; [intros; by rewrite Hh|].
    intros j Hj. apply Hins. intros ->. by apply (Hj _ eq_refl).
Qed.

(** X6.  A [record] call, whatever it answers, touches one metric only:
    the registry dicts, the providers and the global provider are
    unchanged, every object keeps its class and base fields, every object
    other than the one recorded on is unchanged, and so is every
    instrument other than the one that object is bound to. *)
Theorem record_touches_one_metric w self value attributes :
  let w' := (record self value attributes w).2 in
  dict_heap w' = dict_heap w
  ∧ providers w' = providers w
  ∧ global_meter_provider w' = global_meter_provider w
  ∧ Forall2 same_object (metrics_heap w) (metrics_heap w')
  ∧ (∀ l, l ≠ self → metrics_heap w' !! l = metrics_heap w !! l)
  ∧ (∀ j, (∀ obj, metrics_heap w !! self = Some obj →
                  BaseMetric._instrument (base_of obj) ≠ Some j) →
          instruments w' !! j = instruments w !! j).
Proof.
  intros w'. subst w'.
  destruct (record_frame self value attributes w) as [Hd Hp].
  destruct (record_evolves self value attributes w) as [Hobj _].
  destruct (record_elsewhere self value attributes w) as (Hg & Hl & Hj).
  done.
Qed.

(** X7.  On an object whose [create_instrument] has not run, [record] on
    a counter, a histogram or an up-down counter raises [RuntimeError]
    naming the metric and leaves the store as it was; for a counter this
    comes before the check of the value.  A gauge does not look at its
    instrument: it records as usual. *)
Theorem record_before_create_instrument w self obj value attributes :
  metrics_heap w !! self = Some obj →
  BaseMetric._instrument (base_of obj) = None →
  record self value attributes w
  = match obj with
    | GaugeMetric b cv =>
        (gauge_outcome value,
         set_metrics_heap
           (<[self := GaugeMetric b (default cv (float_opt value))]>
              (metrics_heap w)) w)
    | _ => (Raise (not_created (base_of obj)), w)
    end.
Proof.
  intros Hobj Hi. destruct obj as [b|b|b cv|b]; cbn [base_of] in *.
  - unfold record, bind, load_metric. rewrite Hobj. cbn [of_option ret].
    unfold CounterMetric_record. by rewrite Hi.
  - unfold record, bind, load_metric. rewrite Hobj. cbn [of_option ret].
    unfold HistogramMetric_record. by rewrite Hi.
  - by apply record_gauge.
  - unfold record, bind, load_metric. rewrite Hobj. cbn [of_option ret].
    unfold UpDownCounterMetric_record. by rewrite Hi.
Qed.

Lemma record_before_create_instrument_witness :
  record 0 (PInt (-1)) None
    (new_metric (CounterMetric (BaseMetric.__init__ "c" "" "1"))
       empty_world).2
  = (Raise (not_created (BaseMetric.__init__ "c" "" "1")),
     (new_metric (CounterMetric (BaseMetric.__init__ "c" "" "1"))
        empty_world).2).
Proof.
  apply (record_before_create_instrument
           (new_metric (CounterMetric (BaseMetric.__init__ "c" "" "1"))
              empty_world).2 0
           (CounterMetric (BaseMetric.__init__ "c" "" "1")));
    reflexivity.
Defined.

(** ** Resource attributes *)

Lemma resource_lookups c :
  ObservabilityConfig.to_resource_attributes c !! "service.name"%string
  = Some (ObservabilityConfig.service_name c)
  ∧ ObservabilityConfig.to_resource_attributes c !! "service.version"%string
    = Some (ObservabilityConfig.service_version c)
  ∧ ObservabilityConfig.to_resource_attributes c
      !! "deployment.environment"%string
    = Some (ObservabilityConfig.environment c).
Proof.
  unfold ObservabilityConfig.to_resource_attributes.
  split; [|split].
  - by rewrite lookup_insert_eq.
  - rewrite lookup_insert_ne by done. by rewrite lookup_insert_eq.
  - rewrite !lookup_insert_ne by done. by rewrite lookup_insert_eq.
Qed.

(** X8.  [to_resource_attributes] yields exactly the keys service.name,
    service.version and deployment.environment, and two configurations
    yield the same attributes exactly when they agree on service name,
    version and environment: the endpoint is not part of the resource. *)
Theorem resource_attributes_identify_service c1 c2 :
  dom (ObservabilityConfig.to_resource_attributes c1)
  = ({["service.name"%string; "service.version"%string;
       "deployment.environment"%string]} : gset string)
  ∧ (ObservabilityConfig.to_resource_attributes c1
     = ObservabilityConfig.to_resource_attributes c2
     ↔ ObservabilityConfig.service_name c1 = ObservabilityConfig.service_name c2
       ∧ ObservabilityConfig.service_version c1
         = ObservabilityConfig.service_version c2
       ∧ ObservabilityConfig.environment c1
         = ObservabilityConfig.environment c2).
Proof.
  split.
  - unfold ObservabilityConfig.to_resource_attributes.
    rewrite !dom_insert_L, dom_empty_L. set_solver.
  - split.
    + intros Heq.
      destruct (resource_lookups c1) as (H1 & H2 & H3).
      destruct (resource_lookups c2) as (G1 & G2 & G3).
      rewrite Heq in H1, H2, H3. repeat split; congruence.
    + intros (H1 & H2 & H3).
      unfold ObservabilityConfig.to_resource_attributes. by rewrite H1, H2, H3.
Qed.

(** ** The example metrics *)

Lemma create_counter_spec m meter reg name description unit w :
  MetricsManager._meter m = Some meter →
  dict_heap w !! MetricsManager._metrics m = Some reg →
  MetricsManager.create_counter m name description unit w
  = (Ok (length (metrics_heap w)),
     created m meter reg name (new_object COUNTER name description unit) w).
Proof. apply create_spec. Qed.

Lemma create_histogram_spec m meter reg name description unit w :
  MetricsManager._meter m = Some meter →
  dict_heap w !! MetricsManager._metrics m = Some reg →
  MetricsManager.create_histogram m name description unit w
  = (Ok (length (metrics_heap w)),
     created m meter reg name (new_object HISTOGRAM name description unit) w).
Proof. apply create_spec. Qed.

Lemma create_gauge_spec m meter reg name description unit w :
  MetricsManager._meter m = Some meter →
  dict_heap w !! MetricsManager._metrics m = Some reg →
  MetricsManager.create_gauge m name description unit w
  = (Ok (length (metrics_heap w)),
     created m meter reg name (new_object GAUGE name description unit) w).
Proof. apply create_spec. Qed.

Lemma create_up_down_counter_spec m meter reg name description unit w :
  MetricsManager._meter m = Some meter →
  dict_heap w !! MetricsManager._metrics m = Some reg →
  MetricsManager.create_up_down_counter m name description unit w
  = (Ok (length (metrics_heap w)),
     created m meter reg name
       (new_object UP_DOWN_COUNTER name description unit) w).
Proof. apply create_spec. Qed.

Lemma created_extends m meter reg k name description unit w :
  dict_heap w !! MetricsManager._metrics m = Some reg →
  extends m k name reg w
    (created m meter reg name (new_object k name description unit) w).
Proof.
  intros Hd. split; [|split; [|split]].
  - cbn. apply list_lookup_insert_eq. by eapply lookup_lt_Some.
  - cbn. rewrite length_app. cbn. lia.
  - eexists. split; [cbn; apply lookup_snoc_length|]. destruct k; cbn; eauto.
  - intros l o Hl. cbn. by apply lookup_app_l_Some.
Qed.

Ltac next_create lem Hm Hd Hext w' :=
  unfold bind at 1;
  rewrite (lem _ _ _ _ _ _ _ Hm Hd);
  match goal with
  | |- context [created ?m ?p ?reg ?n (new_object ?k ?n ?d ?u) ?w] =>
      pose proof (created_extends m p reg k n d u w Hd) as Hext;
      set (w' := created m p reg n (new_object k n d u) w) in *
  end.

Lemma example_registry_lookup h reg j k n :
  example_metrics !! j = Some (k, n) →
  example_registry h reg !! n = Some (h + j)%nat.
Proof.
  intros Hj. unfold example_registry, example_metrics in *. cbn [imap foldl fst snd].
  do 8 (destruct j as [|j];
        [injection Hj as <- <-;
         rewrite ?(lookup_insert_ne _ _ _ _) by done;
         by rewrite lookup_insert_eq|]).
  done.
Qed.

Lemma example_registry_other h reg n :
  n ∉ example_metrics.*2 →
  example_registry h reg !! n = reg !! n.
Proof.
  intros Hn. unfold example_registry, example_metrics in *.
  cbn [imap foldl fst snd fmap list_fmap] in *.
  rewrite !lookup_insert_ne; [done|..]; intros <-; apply Hn;
    repeat (first [by left | right]).
Qed.

(** X9.  [MetricsExamples(manager)] on a manager whose meter is set up
    returns with eight new objects at consecutive addresses, two
    counters, two histograms, two gauges and two up-down counters, each
    with its instrument created and registered under its own name;
    [get_metric] finds each of them, other names answer as before and
    the objects already in the store are untouched.  On a manager that
    was not set up it raises [RuntimeError] at the first creation and
    registers nothing. *)
Theorem example_metrics_registered m reg w :
  dict_heap w !! MetricsManager._metrics m = Some reg →
  let h := length (metrics_heap w) in
  match MetricsManager._meter m with
  | Some _ =>
      ∃ w',
        MetricsExamples.__init__ m w
        = (Ok (MetricsExamples.mk m h (h + 1) (h + 2) (h + 3) (h + 4) (h + 5)
                 (h + 6) (h + 7)), w')
        ∧ (∀ n, MetricsManager.get_metric m n w'
                = (Ok (example_registry h reg !! n), w'))
        ∧ (∀ j k n,
             example_metrics !! j = Some (k, n) →
             MetricsManager.get_metric m n w' = (Ok (Some (h + j)%nat), w')
             ∧ ∃ obj, metrics_heap w' !! (h + j)%nat = Some obj
                      ∧ kind_of obj = k
                      ∧ BaseMetric.name (base_of obj) = n
                      ∧ is_Some (BaseMetric._instrument (base_of obj)))
        ∧ (∀ n, n ∉ example_metrics.*2 →
                MetricsManager.get_metric m n w' = (Ok (reg !! n), w'))
        ∧ (∀ l o, metrics_heap w !! l = Some o → metrics_heap w' !! l = Some o)
  | None =>
      ∃ w',
        MetricsExamples.__init__ m w
        = (Raise (RuntimeError "Metrics not initialized. Call setup() first."),
           w')
        ∧ dict_heap w' = dict_heap w
        ∧ instruments w' = instruments w
  end.
Proof.
  intros Hd h. destruct (MetricsManager._meter m) as [p|] eqn:Hm.
  - unfold MetricsExamples.__init__.
    next_create create_counter_spec Hm Hd E1 w1.
    destruct E1 as (Hd1 & L1 & O1 & P1).
    next_create create_counter_spec Hm Hd1 E2 w2.
    destruct E2 as (Hd2 & L2 & O2 & P2).
    next_create create_histogram_spec Hm Hd2 E3 w3.
    destruct E3 as (Hd3 & L3 & O3 & P3).
    next_create create_histogram_spec Hm Hd3 E4 w4.
    destruct E4 as (Hd4 & L4 & O4 & P4).
    next_create create_gauge_spec Hm Hd4 E5 w5.
    destruct E5 as (Hd5 & L5 & O5 & P5).
    next_create create_gauge_spec Hm Hd5 E6 w6.
    destruct E6 as (Hd6 & L6 & O6 & P6).
    next_create create_up_down_counter_spec Hm Hd6 E7 w7.
    destruct E7 as (Hd7 & L7 & O7 & P7).
    next_create create_up_down_counter_spec Hm Hd7 E8 w8.
    destruct E8 as (Hd8 & L8 & O8 & P8).
    assert (A1 : length (metrics_heap w1) = (h + 1)%nat) by (subst h; lia).
    assert (A2 : length (metrics_heap w2) = (h + 2)%nat) by lia.
    assert (A3 : length (metrics_heap w3) = (h + 3)%nat) by lia.
    assert (A4 : length (metrics_heap w4) = (h + 4)%nat) by lia.
    assert (A5 : length (metrics_heap w5) = (h + 5)%nat) by lia.
    assert (A6 : length (metrics_heap w6) = (h + 6)%nat) by lia.
    assert (A7 : length (metrics_heap w7) = (h + 7)%nat) by lia.
    rewrite A1, A2, A3, A4, A5, A6, A7 in *. fold h in Hd1, O1 |- *.
    assert (Hreg : dict_heap w8 !! MetricsManager._metrics m
                   = Some (example_registry h reg)).
    { rewrite Hd8. unfold example_registry, example_metrics.
      cbn [imap foldl fst snd compose]. by rewrite Nat.add_0_r. }
    exists w8. split; [done|]. split.
    { intros n. by apply get_metric_spec. }
    split.
    { intros j k n Hj. split.
      - rewrite (get_metric_spec _ _ _ _ Hreg).
        by rewrite (example_registry_lookup _ _ _ _ _ Hj).
      - unfold example_metrics in Hj.
        destruct j as [|j]; [injection Hj as <- <-; rewrite Nat.add_0_r;
          destruct O1 as (o & Ho & ?); exists o; split; [|done]; eauto 10|].
        destruct j as [|j]; [injection Hj as <- <-;
          destruct O2 as (o & Ho & ?); exists o; split; [|done]; eauto 10|].
        destruct j as [|j]; [injection Hj as <- <-;
          destruct O3 as (o & Ho & ?); exists o; split; [|done]; eauto 10|].
        destruct j as [|j]; [injection Hj as <- <-;
          destruct O4 as (o & Ho & ?); exists o; split; [|done]; eauto 10|].
        destruct j as [|j]; [injection Hj as <- <-;
          destruct O5 as (o & Ho & ?); exists o; split; [|done]; eauto 10|].
        destruct j as [|j]; [injection Hj as <- <-;
          destruct O6 as (o & Ho & ?); exists o; split; [|done]; eauto 10|].
        destruct j as [|j]; [injection Hj as <- <-;
          destruct O7 as (o & Ho & ?); exists o; split; [|done]; eauto 10|].
        destruct j as [|j]; [injection Hj as <- <-;
          destruct O8 as (o & Ho & ?); exists o; split; [|done]; eauto 10|].
        done. }
    split.
    { intros n Hn. rewrite (get_metric_spec _ _ _ _ Hreg).
      by rewrite example_registry_other. }
    eauto 10.
  - unfold MetricsExamples.__init__. unfold bind at 1.
    change (MetricsManager.create_counter m "http_requests_total"
              "Total number of HTTP requests" "1")
      with (create_with m "http_requests_total"
              (new_object COUNTER "http_requests_total"
                 "Total number of HTTP requests" "1")).
    rewrite (create_unset _ _ _ _ Hm). eexists. split; [done|]. done.
Qed.

Lemma example_metrics_registered_witness :
  let h := length (metrics_heap requests_world) in
  match MetricsManager._meter demo_manager with
  | Some _ =>
      ∃ w',
        MetricsExamples.__init__ demo_manager requests_world
        = (Ok (MetricsExamples.mk demo_manager h (h + 1) (h + 2) (h + 3)
                 (h + 4) (h + 5) (h + 6) (h + 7)), w')
        ∧ (∀ n, MetricsManager.get_metric demo_manager n w'
                = (Ok (example_registry h
                         {["requests_total"%string := 0%nat]} !! n), w'))
        ∧ (∀ j k n,
             example_metrics !! j = Some (k, n) →
             MetricsManager.get_metric demo_manager n w'
             = (Ok (Some (h + j)%nat), w')
             ∧ ∃ obj, metrics_heap w' !! (h + j)%nat = Some obj
                      ∧ kind_of obj = k
                      ∧ BaseMetric.name (base_of obj) = n
                      ∧ is_Some (BaseMetric._instrument (base_of obj)))
        ∧ (∀ n, n ∉ example_metrics.*2 →
                MetricsManager.get_metric demo_manager n w'
                = (Ok (({["requests_total"%string := 0%nat]}
                          : gmap string nat) !! n), w'))
        ∧ (∀ l o, metrics_heap requests_world !! l = Some o →
                  metrics_heap w' !! l = Some o)
  | None =>
      ∃ w',
        MetricsExamples.__init__ demo_manager requests_world
        = (Raise (RuntimeError "Metrics not initialized. Call setup() first."),
           w')
        ∧ dict_heap w' = dict_heap requests_world
        ∧ instruments w' = instruments requests_world
  end.
Proof.
  apply (example_metrics_registered demo_manager
           {["requests_total"%string := 0%nat]} requests_world).
  vm_compute. reflexivity.
Defined.

(** ** A counter among other calls *)







Lemma tick_heap p w : metrics_heap (SdkOps.tick p w).2 = metrics_heap w.
Proof. apply tick_frame. Qed.


(** With a meter but without the registry dict, [create_*] allocates the
    object and its instrument and stops there. *)
Lemma create_no_registry m meter name obj w :
  MetricsManager._meter m = Some meter →
  dict_heap w !! MetricsManager._metrics m = None →
  create_with m name obj w
  = (Stuck,
     mkWorld (metrics_heap w ++ [bound obj (length (instruments w))])
       (dict_heap w)
       (instruments w ++ [instrument_of meter (length (metrics_heap w)) obj])
       (providers w) (global_meter_provider w)).
Proof.
  intros Hm Hd.
  unfold create_with, MetricsManager.get_meter. rewrite Hm.
  unfold bind at 1. cbn [new_metric fst snd].
  unfold bind at 1. cbn [ret].
  unfold create_instrument, load_metric.
  unfold bind at 1. unfold bind at 1.
  cbn [set_metrics_heap metrics_heap]. rewrite lookup_snoc_length.
  cbn [of_option ret].
  destruct obj as [b|b|b v|b];
    cbn [bind SdkOps.create_counter SdkOps.create_histogram
         SdkOps.create_observable_gauge SdkOps.create_up_down_counter
         SdkOps.new_instrument store_metric modify set_instruments
         set_metrics_heap metrics_heap instruments dict_heap of_option ret
         providers global_meter_provider];
    unfold dict_setitem, load_dict, store_dict, modify, bind;
    cbn [set_metrics_heap set_instruments dict_heap]; rewrite Hd;
    cbn [of_option stuck]; rewrite insert_snoc_length; reflexivity.
Qed.

Lemma create_allocates m meter name obj w :
  MetricsManager._meter m = Some meter →
  metrics_heap (create_with m name obj w).2
  = metrics_heap w ++ [bound obj (length (instruments w))]
  ∧ instruments (create_with m name obj w).2
    = instruments w ++ [instrument_of meter (length (metrics_heap w)) obj]
  ∧ providers (create_with m name obj w).2 = providers w.
Proof.
  intros Hm.
  destruct (dict_heap w !! MetricsManager._metrics m) as [reg|] eqn:Hd.
  - by rewrite (create_spec _ _ _ _ _ _ Hm Hd).
  - by rewrite (create_no_registry _ _ _ _ _ Hm Hd).
Qed.






Example mixed_ops_snapshot :
  reported_all
    (SdkOps.snapshot 0 (steps demo_manager mixed_ops requests_world).2) 0
  = [(POST, Sdk.SumValue (PInt 4)); (GET, Sdk.SumValue (PInt 3))].
Proof. vm_compute. reflexivity. Qed.

(** ** A gauge among other calls *)

Lemma step_heap_prefix m o w l obj :
  metrics_heap w !! l = Some obj →
  (∀ self value attributes, o = OpRecord self value attributes → self ≠ l) →
  metrics_heap (step m o w).2 !! l = Some obj.
Proof.
  intros Hl Ho.
  destruct o as [|k name description unit|self value attributes|name| | |];
    cbn [step fst snd].
  - by rewrite setup_spec.
  - rewrite create_of_create.
    destruct (MetricsManager._meter m) as [meter|] eqn:Hm.
    + destruct (create_allocates m meter name
                  (new_object k name description unit) w Hm) as (-> & _).
      by apply lookup_app_l_Some.
    + rewrite (create_unset _ _ _ _ Hm). cbn. by apply lookup_app_l_Some.
  - destruct (record_elsewhere self value attributes w) as (_ & Hother & _).
    rewrite Hother; [done|]. intros ->. by eapply Ho.
  - unfold MetricsManager.get_metric, bind, load_dict.
    by destruct (dict_heap w !! _).
  - unfold MetricsManager.list_metrics, bind, load_dict.
    by destruct (dict_heap w !! _).
  - destruct (MetricsManager._meter_provider m) as [p|]; [|done].
    cbn [snd]. by rewrite tick_heap.
  - by destruct (shutdown_frame m w) as [-> _].
Qed.

Lemma steps_gauge m ops w g b cv :
  metrics_heap w !! g = Some (GaugeMetric b cv) →
  metrics_heap (steps m ops w).2 !! g
  = Some (GaugeMetric b (last_float cv (recorded_on g ops))).
Proof.
  revert m w cv. induction ops as [|o ops IH]; intros m w cv Hg; [done|].
  cbn [steps]. cbn zeta.
  destruct o as [|k name description unit|self value attributes|name| | |];
    cbn [recorded_on];
    try (apply IH; apply step_heap_prefix; [done|intros; discriminate]).
  destruct (decide (self = g)) as [->|Hne].
  - rewrite last_float_cons. apply IH. cbn [step snd].
    rewrite (record_gauge _ _ _ _ _ _ Hg). cbn.
    apply list_lookup_insert_eq. by eapply lookup_lt_Some.
  - apply IH. apply step_heap_prefix; [done|]. intros ??? [= -> _ _]. done.
Qed.

(** X11.  A gauge among other calls.  Whatever calls are made through the
    manager or on any object, in any order (setup, creations, records,
    lookups, listings, export ticks, shutdown), [get_value] on a gauge
    returns the float of the last value whose [record] call on that gauge
    returned, or the value the gauge held before when there is none; the
    object keeps its base fields. *)
Theorem gauge_value_among_other_calls m w g b cv ops :
  metrics_heap w !! g = Some (GaugeMetric b cv) →
  let w' := (steps m ops w).2 in
  let v := last_float cv (recorded_on g ops) in
  metrics_heap w' !! g = Some (GaugeMetric b v)
  ∧ get_value g w' = (Ok v, w').
Proof.
  intros Hg w' v.
  assert (Hg' : metrics_heap w' !! g = Some (GaugeMetric b v))
    by by apply steps_gauge.
  split; [done|]. by apply (get_value_gauge _ b).
Qed.

Lemma gauge_value_among_other_calls_witness :
  let w' := (steps demo_manager gauge_ops gauge_world).2 in
  let v := last_float float_zero (recorded_on 0 gauge_ops) in
  metrics_heap w' !! 0%nat
  = Some (GaugeMetric
            (BaseMetric.mk "demo_temperature_celsius" "Current temperature"
                           "Cel" (Some 0%nat)) v)
  ∧ get_value 0 w' = (Ok v, w').
Proof.
  apply (gauge_value_among_other_calls demo_manager gauge_world 0
           (BaseMetric.mk "demo_temperature_celsius" "Current temperature"
                          "Cel" (Some 0%nat))).
  reflexivity.
Defined.

Example gauge_ops_value :
  last_float float_zero (recorded_on 0 gauge_ops) = float_lit 41 (-1).
Proof. vm_compute. reflexivity. Qed.

(** ** The web server simulation *)





(** Writing the aggregation of instrument [i]: the object bound to it
    holds the new aggregation, objects bound elsewhere keep theirs. *)
Lemma bound_to_written self i p k agg agg' ins w :
  bound_to self i p k agg w →
  instruments w !! i = Some ins →
  bound_to self i p k agg'
    (set_instruments (<[i := SdkOps.set_agg agg' ins]> (instruments w)) w).
Proof.
  intros (obj & ins' & Hobj & Hk & Hi & Hins & Hp & Hagg) Hins2.
  rewrite Hins in Hins2. injection Hins2 as ->.
  exists obj, (SdkOps.set_agg agg' ins). repeat split; try done. cbn.
  apply list_lookup_insert_eq. by eapply lookup_lt_Some.
Qed.

Lemma bound_to_other self i j p k agg ins' w :
  bound_to self i p k agg w →
  i ≠ j →
  bound_to self i p k agg
    (set_instruments (<[j := ins']> (instruments w)) w).
Proof.
  intros (obj & ins & Hobj & Hk & Hi & Hins & Hp & Hagg) Hne.
  exists obj, ins. repeat split; try done. cbn.
  by rewrite list_lookup_insert_ne.
Qed.


Lemma changes_only_refl ls js w : changes_only ls js w w.
Proof. by repeat split. Qed.

Lemma changes_only_trans ls js w1 w2 w3 :
  changes_only ls js w1 w2 → changes_only ls js w2 w3 →
  changes_only ls js w1 w3.
Proof.
  intros (H1 & H2 & H3 & H4 & H5 & H6 & H7) (G1 & G2 & G3 & G4 & G5 & G6 & G7).
  repeat split; try congruence.
  - intros l Hl. by rewrite G6, H6.
  - intros j Hj. by rewrite G7, H7.
Qed.

Lemma changes_only_instrument ls js i ins w :
  i ∈ js →
  changes_only ls js w (set_instruments (<[i := ins]> (instruments w)) w).
Proof.
  intros Hi. repeat split; cbn.
  - by rewrite length_insert.
  - intros j Hj. apply list_lookup_insert_ne. intros ->. done.
Qed.

Lemma changes_only_object ls js l obj w :
  l ∈ ls →
  changes_only ls js w (set_metrics_heap (<[l := obj]> (metrics_heap w)) w).
Proof.
  intros Hi. repeat split; cbn.
  - by rewrite length_insert.
  - intros j Hj. apply list_lookup_insert_ne. intros ->. done.
Qed.











Example three_requests_snapshot :
  let w' := (simulate_web_server_metrics demo_examples three_requests
               examples_world).2 in
  reported_all (SdkOps.snapshot 0 w') 0
  = [(request_attributes (mk_request_draw float_zero "GET" "200"
                            "/api/users" float_zero),
      Sdk.SumValue (PInt 2));
     (request_attributes (mk_request_draw float_zero "POST" "500"
                            "/api/orders" float_zero),
      Sdk.SumValue (PInt 1))]
  ∧ reported_all (SdkOps.snapshot 0 w') 1
    = [(error_attributes, Sdk.SumValue (PInt 1))].
Proof. intros w'. split; vm_compute; reflexivity. Qed.

(** ** The system simulation *)

Lemma record_bound_up_down self i p t value attributes w :
  bound_to self i p UP_DOWN_COUNTER (Sdk.Sum false t) w →
  ∃ ins,
    instruments w !! i = Some ins
    ∧ record self value attributes w
      = (Ok tt,
         set_instruments
           (<[i := SdkOps.set_agg
                     (Sdk.Sum false
                        (SdkOps.fold_sum false t value (or_empty attributes)))
                     ins]> (instruments w)) w).
Proof.
  intros (obj & ins & Hobj & Hk & Hi & Hins & Hp & Hagg).
  exists ins. split; [done|].
  destruct obj as [b|b|b cv|b]; try done. cbn in Hi.
  unfold record, bind, load_metric. rewrite Hobj. cbn [of_option ret].
  unfold UpDownCounterMetric_record. rewrite Hi.
  unfold SdkOps.add. by rewrite Hins, Hagg.
Qed.

Lemma record_float_gauge g b cv f attributes w :
  metrics_heap w !! g = Some (GaugeMetric b cv) →
  record g (PFloat f) attributes w
  = (Ok tt,
     set_metrics_heap (<[g := GaugeMetric b f]> (metrics_heap w)) w).
Proof. intros Hg. by rewrite (record_gauge _ _ _ _ _ _ Hg). Qed.

(** Overwriting a gauge leaves the binding of every other object. *)
Lemma bound_to_gauge_written self i p k agg g b cv v w :
  bound_to self i p k agg w →
  metrics_heap w !! g = Some (GaugeMetric b cv) →
  k ≠ GAUGE →
  bound_to self i p k agg
    (set_metrics_heap (<[g := GaugeMetric b v]> (metrics_heap w)) w).
Proof.
  intros (obj & ins & Hobj & Hk & Hi & Hins & Hp & Hagg) Hg Hne.
  exists obj, ins. repeat split; try done. cbn.
  rewrite list_lookup_insert_ne; [done|].
  intros <-. rewrite Hg in Hobj. injection Hobj as <-. by cbn in Hk.
Qed.

Lemma system_pass_spec self p j1 j2 v1 v2 t1 t2 d w :
  system_ready self p j1 j2 v1 v2 t1 t2 w →
  ∃ w',
    system_pass self d w = (Ok tt, w')
    ∧ system_ready self p j1 j2 (memory_bytes d) (cpu_percent d)
        (SdkOps.fold_sum false t1 (PInt (connection_change d)) ∅)
        (SdkOps.fold_sum false t2 (PInt (queue_change d)) ∅) w'
    ∧ changes_only
        [MetricsExamples.memory_usage self; MetricsExamples.cpu_usage self]
        [j1; j2] w w'.
Proof.
  intros ((b1 & Hm) & (b2 & Hc) & Hmc & H1 & H2 & Hne).
  unfold system_pass.
  unfold bind at 1. rewrite (record_float_gauge _ _ _ _ _ _ Hm).
  set (w1 := set_metrics_heap _ w).
  assert (Hm1 : metrics_heap w1 !! MetricsExamples.memory_usage self
                = Some (GaugeMetric b1 (memory_bytes d))).
  { cbn. apply list_lookup_insert_eq. by eapply lookup_lt_Some. }
  assert (Hc1 : metrics_heap w1 !! MetricsExamples.cpu_usage self
                = Some (GaugeMetric b2 v2)).
  { cbn. by rewrite list_lookup_insert_ne. }
  assert (G1 : bound_to (MetricsExamples.active_connections self) j1 p
                 UP_DOWN_COUNTER (Sdk.Sum false t1) w1)
    by by eapply bound_to_gauge_written.
  assert (G2 : bound_to (MetricsExamples.queue_size self) j2 p
                 UP_DOWN_COUNTER (Sdk.Sum false t2) w1)
    by by eapply bound_to_gauge_written.
  assert (F1 : changes_only
                 [MetricsExamples.memory_usage self;
                  MetricsExamples.cpu_usage self] [j1; j2] w w1)
    by (apply changes_only_object; set_solver).
  clearbody w1. clear Hm Hc H1 H2.
  unfold bind at 1. rewrite (record_float_gauge _ _ _ _ _ _ Hc1).
  set (w2 := set_metrics_heap _ w1).
  assert (Hm2 : metrics_heap w2 !! MetricsExamples.memory_usage self
                = Some (GaugeMetric b1 (memory_bytes d))).
  { cbn. by rewrite list_lookup_insert_ne. }
  assert (Hc2 : metrics_heap w2 !! MetricsExamples.cpu_usage self
                = Some (GaugeMetric b2 (cpu_percent d))).
  { cbn. apply list_lookup_insert_eq. by eapply lookup_lt_Some. }
  assert (K1 : bound_to (MetricsExamples.active_connections self) j1 p
                 UP_DOWN_COUNTER (Sdk.Sum false t1) w2)
    by by eapply bound_to_gauge_written.
  assert (K2 : bound_to (MetricsExamples.queue_size self) j2 p
                 UP_DOWN_COUNTER (Sdk.Sum false t2) w2)
    by by eapply bound_to_gauge_written.
  assert (F2 : changes_only
                 [MetricsExamples.memory_usage self;
                  MetricsExamples.cpu_usage self] [j1; j2] w w2).
  { eapply changes_only_trans; [done|]. apply changes_only_object.
    set_solver. }
  clearbody w2. clear Hm1 Hc1 G1 G2 F1.
  destruct (record_bound_up_down _ _ _ _ (PInt (connection_change d)) None
              _ K1) as (ins1 & Hi1 & E1).
  unfold bind at 1. rewrite E1. clear E1.
  set (w3 := set_instruments _ w2).
  assert (L1 : bound_to (MetricsExamples.active_connections self) j1 p
                 UP_DOWN_COUNTER
                 (Sdk.Sum false
                    (SdkOps.fold_sum false t1 (PInt (connection_change d))
                       ∅)) w3)
    by (eapply bound_to_written; [eassumption|done]).
  assert (L2 : bound_to (MetricsExamples.queue_size self) j2 p
                 UP_DOWN_COUNTER (Sdk.Sum false t2) w3)
    by (apply bound_to_other; [done|congruence]).
  assert (F3 : changes_only
                 [MetricsExamples.memory_usage self;
                  MetricsExamples.cpu_usage self] [j1; j2] w w3).
  { eapply changes_only_trans; [done|]. apply changes_only_instrument.
    set_solver. }
  assert (Hm3 : metrics_heap w3 !! MetricsExamples.memory_usage self
                = Some (GaugeMetric b1 (memory_bytes d))) by done.
  assert (Hc3 : metrics_heap w3 !! MetricsExamples.cpu_usage self
                = Some (GaugeMetric b2 (cpu_percent d))) by done.
  clearbody w3. clear K1 K2 F2 Hm2 Hc2 Hi1.
  destruct (record_bound_up_down _ _ _ _ (PInt (queue_change d)) None
              _ L2) as (ins2 & Hi2 & E2).
  unfold bind at 1. rewrite E2. clear E2.
  eexists. split; [reflexivity|]. split.
  - split; [by exists b1|]. split; [by exists b2|]. split; [done|].
    split; [by apply bound_to_other|].
    split; [eapply bound_to_written; [eassumption|done]|done].
  - eapply changes_only_trans; [done|]. apply changes_only_instrument.
    set_solver.
Qed.

Lemma simulate_system_spec self p j1 j2 passes :
  ∀ v1 v2 t1 t2 w,
    system_ready self p j1 j2 v1 v2 t1 t2 w →
    ∃ w',
      simulate_system_metrics self passes w = (Ok tt, w')
      ∧ system_ready self p j1 j2
          (default v1 (last (memory_bytes <$> passes)))
          (default v2 (last (cpu_percent <$> passes)))
          (moved t1 (connection_change <$> passes))
          (moved t2 (queue_change <$> passes)) w'
      ∧ changes_only
          [MetricsExamples.memory_usage self; MetricsExamples.cpu_usage self]
          [j1; j2] w w'.
Proof.
  induction passes as [|d passes IH]; intros v1 v2 t1 t2 w Hw.
  - exists w. split; [done|]. split; [done|]. apply changes_only_refl.
  - destruct (system_pass_spec _ _ _ _ _ _ _ _ d _ Hw) as (w1 & Hp & Hw1 & F1).
    destruct (IH _ _ _ _ _ Hw1) as (w2 & Hsim & Hw2 & F2).
    exists w2. cbn [simulate_system_metrics]. unfold bind at 1.
    rewrite Hp. split; [done|]. split; [|by eapply changes_only_trans].
    cbn [fmap list_fmap]. unfold moved in *. cbn [foldl].
    rewrite !last_cons.
    by destruct (last (memory_bytes <$> passes)),
                (last (cpu_percent <$> passes)).
Qed.

Lemma lookup_moved t zs a :
  moved t zs !! a
  = match zs with
    | [] => t !! a
    | _ => if decide (a = ∅)
           then Some (foldl Sdk.add_number (default (PInt 0) (t !! a))
                            (PInt <$> zs))
           else t !! a
    end.
Proof.
  unfold moved. revert t. induction zs as [|z zs IH]; intros t; [done|].
  cbn [foldl fmap list_fmap]. rewrite IH.
  change (SdkOps.fold_sum false t (PInt z) ∅)
    with (<[(∅ : Attrs) :=
            Sdk.add_number (default (PInt 0) (t !! (∅ : Attrs))) (PInt z)]> t).
  destruct (decide (a = ∅)) as [->|Hne].
  - rewrite lookup_insert_eq. by destruct zs.
  - rewrite lookup_insert_ne by done. by destruct zs.
Qed.

(** X13.  [simulate_system_metrics] on objects as [MetricsExamples] holds
    them (two different gauges and two up-down counters on instruments
    of their own), for any number of passes and any draws: the call
    returns without raising; it writes the two gauge objects and the two
    instruments only; each gauge ends with the value drawn in the last
    pass (its earlier value when there was no pass); each up-down
    counter has added the deltas of all passes, negative ones included,
    to its series without attributes and has touched no other series. *)
Theorem system_simulation_values self p j1 j2 v1 v2 t1 t2 passes w :
  system_ready self p j1 j2 v1 v2 t1 t2 w →
  ∃ w',
    simulate_system_metrics self passes w = (Ok tt, w')
    ∧ system_ready self p j1 j2
        (default v1 (last (memory_bytes <$> passes)))
        (default v2 (last (cpu_percent <$> passes)))
        (moved t1 (connection_change <$> passes))
        (moved t2 (queue_change <$> passes)) w'
    ∧ changes_only
        [MetricsExamples.memory_usage self; MetricsExamples.cpu_usage self]
        [j1; j2] w w'
    ∧ get_value (MetricsExamples.memory_usage self) w'
      = (Ok (default v1 (last (memory_bytes <$> passes))), w')
    ∧ get_value (MetricsExamples.cpu_usage self) w'
      = (Ok (default v2 (last (cpu_percent <$> passes))), w')
    ∧ ∀ a,
        reported (SdkOps.snapshot p w') j1 a
        = match passes with
          | [] => reported (SdkOps.snapshot p w) j1 a
          | _ => if decide (a = ∅)
                 then [Sdk.SumValue
                         (foldl Sdk.add_number (default (PInt 0) (t1 !! a))
                                (PInt ∘ connection_change <$> passes))]
                 else reported (SdkOps.snapshot p w) j1 a
          end
        ∧ reported (SdkOps.snapshot p w') j2 a
          = match passes with
            | [] => reported (SdkOps.snapshot p w) j2 a
            | _ => if decide (a = ∅)
                   then [Sdk.SumValue
                           (foldl Sdk.add_number (default (PInt 0) (t2 !! a))
                                  (PInt ∘ queue_change <$> passes))]
                   else reported (SdkOps.snapshot p w) j2 a
            end.
Proof.
  intros Hw.
  destruct (simulate_system_spec _ _ _ _ passes _ _ _ _ _ Hw)
    as (w' & Hsim & Hw' & Hfr).
  exists w'. split; [done|]. split; [done|]. split; [done|].
  destruct Hw as (_ & _ & _ & (? & ins1 & _ & _ & _ & Hi1 & Hp1 & Ha1)
                  & (? & ins2 & _ & _ & _ & Hi2 & Hp2 & Ha2) & _).
  destruct Hw' as ((b1 & Hm) & (b2 & Hc) & _
                   & (? & ins1' & _ & _ & _ & Hi1' & Hp1' & Ha1')
                   & (? & ins2' & _ & _ & _ & Hi2' & Hp2' & Ha2') & _).
  split; [by eapply get_value_gauge|]. split; [by eapply get_value_gauge|].
  intros a.
  rewrite (reported_sum _ _ _ _ _ _ _ Hi1 Hp1 Ha1),
          (reported_sum _ _ _ _ _ _ _ Hi1' Hp1' Ha1'),
          (reported_sum _ _ _ _ _ _ _ Hi2 Hp2 Ha2),
          (reported_sum _ _ _ _ _ _ _ Hi2' Hp2' Ha2').
  rewrite !lookup_moved, <- !list_fmap_compose.
  destruct passes as [|d passes]; [done|]. cbn [fmap list_fmap].
  by destruct (decide (a = ∅)).
Qed.

Lemma system_simulation_values_witness :
  ∃ w',
    simulate_system_metrics demo_examples three_passes examples_world
    = (Ok tt, w')
    ∧ system_ready demo_examples 0 6 7
        (default float_zero (last (memory_bytes <$> three_passes)))
        (default float_zero (last (cpu_percent <$> three_passes)))
        (moved ∅ (connection_change <$> three_passes))
        (moved ∅ (queue_change <$> three_passes)) w'
    ∧ changes_only [4; 5]%nat [6; 7]%nat examples_world w'
    ∧ get_value 4 w'
      = (Ok (default float_zero (last (memory_bytes <$> three_passes))), w')
    ∧ get_value 5 w'
      = (Ok (default float_zero (last (cpu_percent <$> three_passes))), w')
    ∧ ∀ a,
        reported (SdkOps.snapshot 0 w') 6 a
        = match three_passes with
          | [] => reported (SdkOps.snapshot 0 examples_world) 6 a
          | _ => if decide (a = ∅)
                 then [Sdk.SumValue
                         (foldl Sdk.add_number
                            (default (PInt 0)
                               ((∅ : gmap Attrs number) !! a))
                            (PInt ∘ connection_change <$> three_passes))]
                 else reported (SdkOps.snapshot 0 examples_world) 6 a
          end
        ∧ reported (SdkOps.snapshot 0 w') 7 a
          = match three_passes with
            | [] => reported (SdkOps.snapshot 0 examples_world) 7 a
            | _ => if decide (a = ∅)
                   then [Sdk.SumValue
                           (foldl Sdk.add_number
                              (default (PInt 0)
                                 ((∅ : gmap Attrs number) !! a))
                              (PInt ∘ queue_change <$> three_passes))]
                   else reported (SdkOps.snapshot 0 examples_world) 7 a
            end.
Proof.
  apply (system_simulation_values demo_examples 0 6 7 float_zero float_zero
           ∅ ∅ three_passes examples_world).
  split; [eexists; vm_compute; reflexivity|].
  split; [eexists; vm_compute; reflexivity|].
  split; [done|].
  split; [eexists _, _; repeat (split; [vm_compute; reflexivity|]);
          vm_compute; reflexivity|].
  split; [eexists _, _; repeat (split; [vm_compute; reflexivity|]);
          vm_compute; reflexivity|].
  lia.
Defined.

Example three_passes_snapshot :
  let w' := (simulate_system_metrics demo_examples three_passes
               examples_world).2 in
  reported_all (SdkOps.snapshot 0 w') 6 = [(∅, Sdk.SumValue (PInt (-1)))]
  ∧ reported_all (SdkOps.snapshot 0 w') 7 = [(∅, Sdk.SumValue (PInt 0))]
  ∧ reported_all (SdkOps.snapshot 0 w') 4
    = [(∅, Sdk.GaugeValue (float_lit 1500000000 0))].
Proof. intros w'. repeat split; vm_compute; reflexivity. Qed.

(** ** The example metrics before the first record *)

Lemma created_opens m p reg k n d u w :
  let w' := created m p reg n (new_object k n d u) w in
  length (instruments w') = S (length (instruments w))
  ∧ bound_to (length (metrics_heap w)) (length (instruments w)) p k
      (opening k (length (metrics_heap w))) w'
  ∧ (k = GAUGE →
     ∃ b, metrics_heap w' !! length (metrics_heap w)
          = Some (GaugeMetric b float_zero))
  ∧ (∀ self i p' k' agg,
       bound_to self i p' k' agg w → bound_to self i p' k' agg w')
  ∧ (∀ j ins, instruments w !! j = Some ins → instruments w' !! j = Some ins).
Proof.
  intros w'. subst w'. unfold created. cbn [instruments metrics_heap].
  split; [rewrite length_app; cbn; lia|].
  split.
  { eexists _, _. split; [apply lookup_snoc_length|].
    split; [by destruct k|]. split; [by destruct k|].
    split; [apply lookup_snoc_length|]. split; [done|]. by destruct k. }
  split.
  { intros ->. eexists. apply lookup_snoc_length. }
  split.
  - intros self i p' k' agg (obj & ins & Hobj & Hk & Hi & Hins & Hp & Hagg).
    exists obj, ins. repeat split; try done; cbn; by apply lookup_app_l_Some.
  - intros j ins Hins. by apply lookup_app_l_Some.
Qed.

Lemma reported_first k self i p w :
  bound_to self i p k (opening k self) w →
  (k = GAUGE → ∃ b, metrics_heap w !! self = Some (GaugeMetric b float_zero)) →
  ∀ a, reported (SdkOps.snapshot p w) i a = first_report k a.
Proof.
  intros (obj & ins & Hobj & Hk & Hi & Hins & Hp & Hagg) Hg a.
  destruct k; cbn [opening first_report] in *.
  - rewrite (reported_sum _ _ _ _ _ _ _ Hins Hp Hagg). by rewrite lookup_empty.
  - rewrite (reported_hist _ _ _ _ _ _ Hins Hp Hagg). by rewrite lookup_empty.
  - destruct (Hg eq_refl) as (b & Hb).
    rewrite (reported_instrument _ _ _ _ _ Hins Hp).
    unfold SdkOps.points_of. rewrite Hagg, Hb.
    destruct (decide (a = ∅)) as [->|Hne].
    + by rewrite filter_cons_True.
    + rewrite filter_cons_False; [done|]. cbn. congruence.
  - rewrite (reported_sum _ _ _ _ _ _ _ Hins Hp Hagg). by rewrite lookup_empty.
Qed.

Ltac next_opened lem Hm Hd Hext Hopen w' :=
  unfold bind at 1;
  rewrite (lem _ _ _ _ _ _ _ Hm Hd);
  match goal with
  | |- context [created ?m ?p ?reg ?n (new_object ?k ?n ?d ?u) ?w] =>
      pose proof (created_extends m p reg k n d u w Hd) as Hext;
      pose proof (created_opens m p reg k n d u w) as Hopen;
      cbv zeta in Hopen;
      set (w' := created m p reg n (new_object k n d u) w) in *
  end.

(** X14.  What [MetricsExamples(manager)] leaves behind on a manager whose
    meter is set up and holds none of the eight names yet: eight new
    instruments at consecutive positions, one per object, each an
    instrument of the manager's meter and of the object's kind, the
    callback of a gauge instrument being its own object; the
    instruments already there are untouched.  Before the first record a
    snapshot reports no series for the counters, the histograms and the
    up-down counters, and 0.0 without attributes for each gauge.  The
    objects are as the two simulations need them.  The instruments are
    the SDK's, and the statement is for names new to the meter
    ([unused_name]), where the model of it is used. *)
Theorem example_metrics_start_empty m p reg w :
  MetricsManager._meter m = Some p →
  dict_heap w !! MetricsManager._metrics m = Some reg →
  Forall (fun kn => unused_name kn.2 w) example_metrics →
  let h := length (metrics_heap w) in
  let i0 := length (instruments w) in
  let self :=
    MetricsExamples.mk m h (h + 1) (h + 2) (h + 3) (h + 4) (h + 5) (h + 6)
      (h + 7) in
  ∃ w',
    MetricsExamples.__init__ m w = (Ok self, w')
    ∧ length (instruments w') = (i0 + 8)%nat
    ∧ (∀ j ins, instruments w !! j = Some ins → instruments w' !! j = Some ins)
    ∧ (∀ j k n,
         example_metrics !! j = Some (k, n) →
         bound_to (h + j) (i0 + j) p k (opening k (h + j)) w'
         ∧ ∀ a, reported (SdkOps.snapshot p w') (i0 + j) a = first_report k a)
    ∧ web_ready self p i0 (i0 + 1) (i0 + 2) ∅ ∅ ∅ w'
    ∧ system_ready self p (i0 + 6) (i0 + 7) float_zero float_zero ∅ ∅ w'.
Proof.
  intros Hm Hd _ h i0 self. unfold MetricsExamples.__init__.
  next_opened create_counter_spec Hm Hd E1 N1 w1.
  destruct E1 as (Hd1 & L1 & _ & P1). destruct N1 as (I1 & B1 & _ & K1 & J1).
  next_opened create_counter_spec Hm Hd1 E2 N2 w2.
  destruct E2 as (Hd2 & L2 & _ & P2). destruct N2 as (I2 & B2 & _ & K2 & J2).
  next_opened create_histogram_spec Hm Hd2 E3 N3 w3.
  destruct E3 as (Hd3 & L3 & _ & P3). destruct N3 as (I3 & B3 & _ & K3 & J3).
  next_opened create_histogram_spec Hm Hd3 E4 N4 w4.
  destruct E4 as (Hd4 & L4 & _ & P4). destruct N4 as (I4 & B4 & _ & K4 & J4).
  next_opened create_gauge_spec Hm Hd4 E5 N5 w5.
  destruct E5 as (Hd5 & L5 & _ & P5). destruct N5 as (I5 & B5 & G5 & K5 & J5).
  next_opened create_gauge_spec Hm Hd5 E6 N6 w6.
  destruct E6 as (Hd6 & L6 & _ & P6). destruct N6 as (I6 & B6 & G6 & K6 & J6).
  next_opened create_up_down_counter_spec Hm Hd6 E7 N7 w7.
  destruct E7 as (Hd7 & L7 & _ & P7). destruct N7 as (I7 & B7 & _ & K7 & J7).
  next_opened create_up_down_counter_spec Hm Hd7 E8 N8 w8.
  destruct E8 as (Hd8 & L8 & _ & P8). destruct N8 as (I8 & B8 & _ & K8 & J8).
  destruct (G5 eq_refl) as (b5 & G5'). destruct (G6 eq_refl) as (b6 & G6').
  clear G5 G6.
  assert (A1 : length (metrics_heap w1) = (h + 1)%nat) by (subst h; lia).
  assert (A2 : length (metrics_heap w2) = (h + 2)%nat) by lia.
  assert (A3 : length (metrics_heap w3) = (h + 3)%nat) by lia.
  assert (A4 : length (metrics_heap w4) = (h + 4)%nat) by lia.
  assert (A5 : length (metrics_heap w5) = (h + 5)%nat) by lia.
  assert (A6 : length (metrics_heap w6) = (h + 6)%nat) by lia.
  assert (A7 : length (metrics_heap w7) = (h + 7)%nat) by lia.
  assert (C1 : length (instruments w1) = (i0 + 1)%nat) by (subst i0; lia).
  assert (C2 : length (instruments w2) = (i0 + 2)%nat) by lia.
  assert (C3 : length (instruments w3) = (i0 + 3)%nat) by lia.
  assert (C4 : length (instruments w4) = (i0 + 4)%nat) by lia.
  assert (C5 : length (instruments w5) = (i0 + 5)%nat) by lia.
  assert (C6 : length (instruments w6) = (i0 + 6)%nat) by lia.
  assert (C7 : length (instruments w7) = (i0 + 7)%nat) by lia.
  rewrite A1, A2, A3, A4, A5, A6, A7 in *.
  rewrite C1, C2, C3, C4, C5, C6, C7 in *.
  fold h in B1 |- *. fold i0 in B1.
  apply K2, K3, K4, K5, K6, K7, K8 in B1.
  apply K3, K4, K5, K6, K7, K8 in B2.
  apply K4, K5, K6, K7, K8 in B3.
  apply K5, K6, K7, K8 in B4.
  apply K6, K7, K8 in B5.
  apply K7, K8 in B6.
  apply K8 in B7.
  apply P6, P7, P8 in G5'. apply P7, P8 in G6'.
  exists w8. split; [done|]. split; [lia|]. split; [by eauto 10|].
  split.
  { intros j k n Hj. unfold example_metrics in Hj.
    destruct j as [|j];
      [injection Hj as <- <-; rewrite !Nat.add_0_r;
       split; [done|by apply (reported_first _ h)]|].
    destruct j as [|j];
      [injection Hj as <- <-;
       split; [done|by apply (reported_first _ (h + 1)%nat)]|].
    destruct j as [|j];
      [injection Hj as <- <-;
       split; [done|by apply (reported_first _ (h + 2)%nat)]|].
    destruct j as [|j];
      [injection Hj as <- <-;
       split; [done|by apply (reported_first _ (h + 3)%nat)]|].
    destruct j as [|j];
      [injection Hj as <- <-;
       split; [done|apply (reported_first _ (h + 4)%nat); eauto]|].
    destruct j as [|j];
      [injection Hj as <- <-;
       split; [done|apply (reported_first _ (h + 5)%nat); eauto]|].
    destruct j as [|j];
      [injection Hj as <- <-;
       split; [done|by apply (reported_first _ (h + 6)%nat)]|].
    destruct j as [|j];
      [injection Hj as <- <-;
       split; [done|by apply (reported_first _ (h + 7)%nat)]|].
    done. }
  split.
  - subst self. split; [|split; [|split]]; cbn; [| | |lia].
    + done.
    + done.
    + done.
  - subst self. split; [by exists b5|]. split; [by exists b6|].
    split; [cbn; lia|]. split; [done|]. split; [done|lia].
Qed.

Lemma example_metrics_start_empty_witness :
  let h := length (metrics_heap demo_world) in
  let i0 := length (instruments demo_world) in
  let self :=
    MetricsExamples.mk demo_manager h (h + 1) (h + 2) (h + 3) (h + 4) (h + 5)
      (h + 6) (h + 7) in
  ∃ w',
    MetricsExamples.__init__ demo_manager demo_world = (Ok self, w')
    ∧ length (instruments w') = (i0 + 8)%nat
    ∧ (∀ j ins, instruments demo_world !! j = Some ins →
                instruments w' !! j = Some ins)
    ∧ (∀ j k n,
         example_metrics !! j = Some (k, n) →
         bound_to (h + j) (i0 + j) 0 k (opening k (h + j)) w'
         ∧ ∀ a, reported (SdkOps.snapshot 0 w') (i0 + j) a = first_report k a)
    ∧ web_ready self 0 i0 (i0 + 1) (i0 + 2) ∅ ∅ ∅ w'
    ∧ system_ready self 0 (i0 + 6) (i0 + 7) float_zero float_zero ∅ ∅ w'.
Proof.
  apply (example_metrics_start_empty demo_manager 0 ∅ demo_world);
    [reflexivity|reflexivity|repeat constructor].
Defined.
